(** * Quiz application: normalizer, repository and statistics

    A shallow embedding of the quiz-data pipeline of the client
    (src/Quiz AI/src/components/QuizGenerator.jsx) and of the REST handlers
    of the backend (src/Backend AI/server.js), with the properties the
    specification states about them. *)

From Stdlib Require Import ZArith NArith QArith Qabs String Ascii DecimalString.
From Stdlib Require DecimalZ.
From Stdlib Require Import Floats.SpecFloat.
From stdpp Require Import prelude strings sorting.

Set Warnings "-register-all".

(** ** JavaScript strings

    A JavaScript string is a sequence of UTF-16 code units.  [str] embeds
    an ASCII literal of the source. *)

Abbreviation jsstring := (list N).

Definition str (s : string) : jsstring :=
  map N_of_ascii (list_ascii_of_string s).

Coercion str : string >-> list.

(** WhiteSpace and LineTerminator code units of ECMAScript: what
    String.prototype.trim and parseInt strip. *)
Definition isWhiteSpace (c : N) : bool :=
  existsb (N.eqb c)
    [9; 10; 11; 12; 13; 32; 160; 5760; 8232; 8233; 8239; 8287; 12288; 65279]%N
  || ((8192 <=? c) && (c <=? 8202))%N.

Fixpoint trimStart (s : jsstring) : jsstring :=
  match s with
  | c :: s' => if isWhiteSpace c then trimStart s' else s
  | [] => []
  end.

Definition trimEnd (s : jsstring) : jsstring := rev (trimStart (rev s)).

Definition trim (s : jsstring) : jsstring := trimEnd (trimStart s).

Definition isEmpty (s : jsstring) : bool :=
  match s with [] => true | _ => false end.

Fixpoint startsWith (s pre : jsstring) : bool :=
  match pre, s with
  | [], _ => true
  | p :: pre', c :: s' => N.eqb p c && startsWith s' pre'
  | _ :: _, [] => false
  end.

Definition endsWith (s suf : jsstring) : bool := startsWith (rev s) (rev suf).

Fixpoint includes (s pat : jsstring) : bool :=
  startsWith s pat
  || match s with
     | [] => false
     | _ :: s' => includes s' pat
     end.

(** [(s.match(/___/g) || []).length]: the matches of a global regular
    expression are found left to right and do not overlap. *)
Fixpoint countBlanks (s : jsstring) : nat :=
  match s with
  | 95%N :: 95%N :: 95%N :: rest => S (countBlanks rest)
  | _ :: s' => countBlanks s'
  | [] => 0
  end.

(** String.prototype.toLowerCase on the ASCII letters.  The source only
    compares the result with the literal "true", and no code unit outside
    A-Z lower-cases to one of its letters, so the other code units are left
    as they are. *)
Definition toLowerCase (s : jsstring) : jsstring :=
  map (fun c => if ((65 <=? c) && (c <=? 90))%N then (c + 32)%N else c) s.

Fixpoint join (sep : jsstring) (l : list jsstring) : jsstring :=
  match l with
  | [] => []
  | [x] => x
  | x :: l' => x ++ sep ++ join sep l'
  end.

(** ** JavaScript values as JSON.parse and express.json() produce them

    Numbers are modelled by [Z]: the integer-valued doubles whose String()
    form is the plain decimal numeral (magnitude below 10^21).  An absent
    property, [undefined], is [None] in [option value]. *)

Inductive value : Type :=
  | VNull
  | VBool (b : bool)
  | VNum (n : Z)
  | VStr (s : jsstring)
  | VArr (items : list value)
  | VObj (props : list (jsstring * value)).

Abbreviation object := (list (jsstring * value)).

Definition eqs (a b : jsstring) : bool := bool_decide (a = b).

(** Property read [o.k], write [o.k = v] and [delete o.k] on an object
    whose properties are kept in insertion order. *)
Fixpoint get (k : jsstring) (o : object) : option value :=
  match o with
  | [] => None
  | (k', v) :: o' => if eqs k' k then Some v else get k o'
  end.

Fixpoint set (k : jsstring) (v : value) (o : object) : object :=
  match o with
  | [] => [(k, v)]
  | (k', v') :: o' => if eqs k' k then (k, v) :: o' else (k', v') :: set k v o'
  end.

Fixpoint delete (k : jsstring) (o : object) : object :=
  match o with
  | [] => []
  | (k', v') :: o' => if eqs k' k then delete k o' else (k', v') :: delete k o'
  end.

(** [String(n)] for an integer of magnitude below 10^21: its decimal
    numeral. *)
Definition NumberToString (n : Z) : jsstring :=
  str (NilZero.string_of_int (Z.to_int n)).

(** [String(v)].  Array.prototype.join prints a null element as the empty
    string. *)
Fixpoint ToString (v : value) : jsstring :=
  match v with
  | VNull => "null"
  | VBool true => "true"
  | VBool false => "false"
  | VNum n => NumberToString n
  | VStr s => s
  | VArr items =>
      join ","
        (map (fun x => match x with VNull => [] | _ => ToString x end) items)
  | VObj _ => "[object Object]"
  end.

Definition String_ (x : option value) : jsstring :=
  match x with
  | None => "undefined"
  | Some v => ToString v
  end.

Definition typeof (x : option value) : string :=
  match x with
  | None => "undefined"
  | Some VNull => "object"
  | Some (VBool _) => "boolean"
  | Some (VNum _) => "number"
  | Some (VStr _) => "string"
  | Some (VArr _) => "object"
  | Some (VObj _) => "object"
  end.

(** ToBoolean: what [!x] and [x || y] test. *)
Definition truthy (x : option value) : bool :=
  match x with
  | None => false
  | Some VNull => false
  | Some (VBool b) => b
  | Some (VNum n) => negb (n =? 0)%Z
  | Some (VStr s) => negb (isEmpty s)
  | Some (VArr _) => true
  | Some (VObj _) => true
  end.

Definition isArray (x : option value) : bool :=
  match x with
  | Some (VArr _) => true
  | _ => false
  end.

(** [parseInt(x, radix)]: the argument is converted to a string, leading
    white space and one sign are skipped and the longest prefix of digits
    of the radix is read; without a radix the digits are decimal, or
    hexadecimal after the prefix 0x.  [None] is NaN. *)
Definition digitValue (c : N) : option Z :=
  if ((48 <=? c) && (c <=? 57))%N then Some (Z.of_N (c - 48))
  else if ((97 <=? c) && (c <=? 122))%N then Some (Z.of_N (c - 87))
  else if ((65 <=? c) && (c <=? 90))%N then Some (Z.of_N (c - 55))
  else None.

Fixpoint readDigits (R : Z) (s : jsstring) (acc : option Z) : option Z :=
  match s with
  | c :: s' =>
      match digitValue c with
      | Some d =>
          if (d <? R)%Z
          then readDigits R s' (Some (R * default 0%Z acc + d)%Z)
          else acc
      | None => acc
      end
  | [] => acc
  end.

Definition readNumber (radix : option Z) (s : jsstring) : option Z :=
  match radix with
  | Some R =>
      if ((R <? 2) || (36 <? R))%Z then None
      else if (R =? 16)%Z && (startsWith s "0x" || startsWith s "0X")
      then readDigits 16 (drop 2 s) None
      else readDigits R s None
  | None =>
      if startsWith s "0x" || startsWith s "0X"
      then readDigits 16 (drop 2 s) None
      else readDigits 10 s None
  end.

Definition parseInt (x : option value) (radix : option Z) : option Z :=
  match trimStart (String_ x) with
  | 45%N :: s => Z.opp <$> readNumber radix s
  | 43%N :: s => readNumber radix s
  | s => readNumber radix s
  end.

(** ** Exceptions, and computations that may throw *)

Inductive exn : Type :=
  | Error (message : jsstring)
  | TypeError (message : jsstring)
  | ReferenceError (message : jsstring)
  | ValidationError (message : jsstring)
  | DatabaseError (message : jsstring).

Definition message (e : exn) : jsstring :=
  match e with
  | Error m | TypeError m | ReferenceError m | ValidationError m
  | DatabaseError m => m
  end.

Inductive result (A : Type) : Type :=
  | Return (a : A)
  | Throw (e : exn).
Arguments Return {A} a.
Arguments Throw {A} e.

#[global] Instance result_ret : MRet result := @Return.
#[global] Instance result_bind : MBind result := fun A B f m =>
  match m with
  | Return a => f a
  | Throw e => Throw e
  end.
#[global] Instance result_fmap : FMap result := fun A B f m =>
  match m with
  | Return a => Return (f a)
  | Throw e => Throw e
  end.

(** [l.forEach((x, index) => ...)] and [l.map(...)] with a callback that
    may throw: the elements are visited in order and the first exception
    ends the loop. *)
Fixpoint forEach {A B : Type} (f : A -> nat -> result B)
    (l : list A) (index : nat) : result (list B) :=
  match l with
  | [] => Return []
  | x :: l' =>
      y ← f x index;
      ys ← forEach f l' (S index);
      Return (y :: ys)
  end.

(** ** The ES2015 [Set] of strings: insertion-ordered, without duplicates *)

Module ES6Set.
Definition add (x : jsstring) (s : list jsstring) : list jsstring :=
  if existsb (eqs x) s then s else s ++ [x].

Definition from (l : list jsstring) : list jsstring :=
  fold_left (fun s x => add x s) l [].

Definition size (s : list jsstring) : nat := length s.
End ES6Set.

(** * Client: QuizGenerator.jsx *)

Definition asString (x : option value) : jsstring :=
  match x with
  | Some (VStr s) => s
  | _ => []
  end.

(** [a || b] *)
Definition or_ (a b : option value) : option value :=
  if truthy a then a else b.

(** An object literal; a property whose value is [undefined] is left out,
    as JSON serialisation does. *)
Fixpoint literal (props : list (jsstring * option value)) : object :=
  match props with
  | [] => []
  | (k, Some v) :: props' => (k, v) :: literal props'
  | (_, None) :: props' => literal props'
  end.

(** The properties of an array element [q] as the callbacks read them:
    reading a property of [null] throws, every other value that is not an
    object has none of the properties read. *)
Definition props (q : value) (firstRead : string) : result object :=
  match q with
  | VNull =>
      Throw (TypeError
        ("Cannot read properties of null (reading '" ++ firstRead ++ "')"))
  | VObj o => Return o
  | _ => Return []
  end.

(** The expression bound to [boolValue] in validateAndParseQuizData and in
    formatQuizQuestions. *)
Definition boolValue (correctAnswer : option value) : bool :=
  match correctAnswer with
  | Some (VBool b) => b
  | _ =>
      eqs (toLowerCase (String_ correctAnswer)) "true"
      || eqs (String_ correctAnswer) "1"
  end.

Definition questionError (questionNum : nat) (reason : string) : exn :=
  Error ("Question " ++ NumberToString (Z.of_nat questionNum) ++ reason).

Section QuizGenerator.
(** Component state read by the closures. *)
Variable topic : jsstring.
Variable numQuestions : Z.
Variable difficulty : jsstring.
Variable questionType : jsstring.
Variable language : jsstring.

(** The callback of [data.forEach] in validateAndParseQuizData, on the
    properties of one question; the result is the question as the
    assignments leave it. *)
Definition validateQuestion (question : object) (index : nat)
    : result object :=
  let questionNum := index + 1 in
  if negb (truthy (get "question" question))
     || negb (String.eqb (typeof (get "question" question)) "string")
     || isEmpty (trim (asString (get "question" question)))
  then Throw (questionError questionNum
                " is missing or has invalid question text")
  else
  if match get "correctAnswer" question with
     | None | Some VNull => true
     | _ => false
     end
  then Throw (questionError questionNum " is missing the correct answer")
  else
  let question :=
    if negb (truthy (get "explanation" question))
       || negb (String.eqb (typeof (get "explanation" question)) "string")
    then set "explanation" (VStr "") question
    else question in
  question ←
    (if eqs questionType "True/False" then
       let text := trim (asString (get "question" question)) in
       let text :=
         if negb (endsWith text "?") && negb (endsWith text ".")
         then text ++ "."
         else text in
       let question := set "question" (VStr text) question in
       let question :=
         set "correctAnswer"
           (VNum (if boolValue (get "correctAnswer" question) then 0 else 1))
           question in
       Return (delete "options" question)
     else
       match get "options" question with
       | Some (VArr options) =>
           if negb (length options =? 4)
           then Throw (questionError questionNum
                         " must have exactly 4 options")
           else
           let options := map (fun opt => trim (ToString opt)) options in
           let question := set "options" (VArr (map VStr options)) question in
           if existsb isEmpty options
           then Throw (questionError questionNum " has empty options")
           else
           if negb (ES6Set.size (ES6Set.from options) =? length options)
           then Throw (questionError questionNum " has duplicate options")
           else
           _ ← (if eqs questionType "Fill in the Blanks" then
                  let text := asString (get "question" question) in
                  if negb (includes text "___")
                  then Throw (questionError questionNum
                                " must contain ___ to indicate the blank")
                  else if 1 <? countBlanks text
                  then Throw (questionError questionNum
                                " should have only one blank (___)")
                  else Return ()
                else Return ());
           match parseInt (get "correctAnswer" question) (Some 10%Z) with
           | Some answerIndex =>
               if ((answerIndex <? 0) || (3 <? answerIndex))%Z
               then Throw (questionError questionNum
                      " has invalid correct answer index. Must be 0-3")
               else Return (set "correctAnswer" (VNum answerIndex) question)
           | None =>
               Throw (questionError questionNum
                 " has invalid correct answer index. Must be 0-3")
           end
       | _ => Throw (questionError questionNum " is missing options array")
       end);
  Return
    (if negb (truthy (get "explanation" question))
        && negb (match get "explanation" question with
                 | Some (VStr []) => true
                 | _ => false
                 end)
     then set "explanation" (VStr "") question
     else question).

(** The callback on an element of the parsed array. *)
Definition validateElement (question : value) (index : nat)
    : result value :=
  o ← props question "question";
  VObj <$> validateQuestion o index.

(** The body of the [try] block, from the value JSON.parse returned. *)
Definition validateAndParseQuizData_try (data : value)
    : result (list value) :=
  match data with
  | VArr items =>
      if negb (Z.of_nat (length items) =? numQuestions)%Z
      then Throw (Error "Invalid quiz format - questions array mismatch")
      else forEach validateElement items 0
  | _ => Throw (Error "Invalid quiz format - questions array mismatch")
  end.

(** validateAndParseQuizData: the value returned ([None] is null) and what
    the [catch] clause writes with console.error. *)
Definition validateAndParseQuizData (data : value)
    : option (list value) * list exn :=
  match validateAndParseQuizData_try data with
  | Return data => (Some data, [])
  | Throw error => (None, [error])
  end.
End QuizGenerator.

(** The callback of [quizData.map] in formatQuizQuestions. *)
Definition formatQuestion (questionType : jsstring) (q : value) (_ : nat)
    : result value :=
  q ← props q "question";
  let formattedQuestion :=
    literal [("question" : jsstring, get "question" q);
             ("explanation" : jsstring,
              or_ (get "explanation" q) (Some (VStr "")))] in
  if eqs questionType "True/False" then
    let formattedQuestion :=
      set "correctAnswer"
        (VNum (if boolValue (get "correctAnswer" q) then 0 else 1))
        formattedQuestion in
    Return (VObj (set "options" (VArr [VStr "True"; VStr "False"])
                    formattedQuestion))
  else if eqs questionType "Fill in the Blanks" || eqs questionType "MCQ" then
    match parseInt (get "correctAnswer" q) (Some 10%Z) with
    | None =>
        Throw (Error "Invalid answer index for MCQ/Fill in the Blanks question")
    | Some correctAnswer =>
        let formattedQuestion :=
          set "correctAnswer" (VNum correctAnswer) formattedQuestion in
        match get "options" q with
        | Some (VArr options) =>
            if negb (length options =? 4)
            then Throw (Error "Question must have exactly 4 options")
            else
              Return (VObj (set "options"
                              (VArr (map (fun opt => VStr (ToString opt))
                                       options))
                              formattedQuestion))
        | _ => Throw (Error "Question must have exactly 4 options")
        end
    end
  else Return (VObj formattedQuestion).

(** formatQuizQuestions; [None] is a null [quizData]. *)
Definition formatQuizQuestions (quizData : option (list value))
    (questionType : jsstring) : result (list value) :=
  match quizData with
  | None => Return []
  | Some quizData => forEach (formatQuestion questionType) quizData 0
  end.

Section SaveQuiz.
Variable topic : jsstring.
Variable numQuestions : Z.
Variable difficulty : jsstring.
Variable questionType : jsstring.
Variable language : jsstring.

(** The request body saveQuiz posts to /api/quizzes. *)
Definition requestPayload (quizData : option (list value)) : result object :=
  formattedQuestions ← formatQuizQuestions quizData questionType;
  Return
    [("title" : jsstring, VStr (topic ++ " Quiz"));
     ("topic" : jsstring, VStr topic);
     ("numQuestions" : jsstring, VNum numQuestions);
     ("difficulty" : jsstring, VStr difficulty);
     ("questionType" : jsstring, VStr questionType);
     ("language" : jsstring, VStr (toLowerCase language));
     ("questions" : jsstring, VArr formattedQuestions)].

(** generateQuiz from the parsed model answer up to the body sent to the
    backend: the data is normalized, and saved only when the normalizer
    did not return null. *)
Definition generateQuiz_payload (data : value) : result object :=
  match fst (validateAndParseQuizData numQuestions questionType data) with
  | None => Throw (Error "Failed to parse quiz data")
  | Some quizData => requestPayload (Some quizData)
  end.
End SaveQuiz.

(** * Backend: server.js *)

(** ** The relational store

    The three tables of initializeTables with the columns the handlers
    read or write, and the sequences behind the SERIAL keys.  The JSONB
    columns hold the value that was serialised into them, up to the order
    of the keys of an object. *)

Record QuizRow : Type := {
  q_id : Z;
  q_user_id : jsstring;
  q_title : jsstring;
  q_topic : option jsstring;
  q_num_questions : Z;
  q_difficulty : jsstring;
  q_question_type : jsstring;
  q_language : jsstring;
  q_questions : value;
  q_created_at : Z
}.

Record ResultRow : Type := {
  qr_id : Z;
  qr_user_id : jsstring;
  qr_quiz_id : Z;
  qr_score : Z;
  qr_total_questions : Z;
  qr_user_answers : value;
  qr_completed_at : Z;
  qr_time_taken : Z
}.

Record HistoryRow : Type := {
  qh_id : Z;
  qh_user_id : jsstring;
  qh_quiz_id : Z;
  qh_prompt_used : jsstring;
  qh_generation_parameters : value;
  qh_created_at : Z
}.

Record Db : Type := {
  quizzes : list QuizRow;
  quiz_results : list ResultRow;
  quiz_history : list HistoryRow;
  quizzes_id_seq : Z;
  quiz_results_id_seq : Z;
  quiz_history_id_seq : Z
}.

(** ** Library routines the handlers rely on

    The text-level behaviour of the libraries is not part of the
    repository; the handlers are parametrised by it.
    - [numberOfString]: the integer Joi's convert mode reads from a
      non-empty numeric string, if any;
    - [detailMessage]: the message Joi gives for an error type at a path;
    - [date_trunc_month]: PostgreSQL's DATE_TRUNC('month', t);
    - [toISOString]: Date.prototype.toISOString, the text res.json prints
      for a timestamp column;
    - [timestamp_to_json]: the text PostgreSQL's jsonb_build_object prints
      for a timestamp;
    - [int4in]: the integer PostgreSQL reads from the text of a parameter
      compared with an INTEGER column, if it is one;
    - [row_order]: the order in which PostgreSQL delivers the rows of a
      statement where the statement leaves it open (the rows of SELECT
      DISTINCT, rows that are equal under ORDER BY, the rows an aggregate
      adds up); it may depend on the statement, its parameters and the
      whole store.
    Timestamps are integers (an instant on the server's clock). *)
Class Libraries : Type := {
  numberOfString : jsstring -> option Z;
  detailMessage : jsstring -> string -> jsstring;
  date_trunc_month : Z -> Z;
  toISOString : Z -> jsstring;
  timestamp_to_json : Z -> jsstring;
  int4in : jsstring -> option Z;
  row_order :
    string -> list jsstring -> Db -> forall A : Type, list A -> list A;
  row_order_Permutation :
    forall (sql : string) (parameters : list jsstring) (d : Db) (A : Type)
           (l : list A),
      row_order sql parameters d A l ≡ₚ l
}.
Arguments row_order {_} sql parameters d {A} l.

(** ** Joi schemas

    A schema maps a path and a value to the list of error details and the
    converted value.  [detail] is the pair of the path and Joi's error
    type. *)

Definition detail : Type := jsstring * string.

Definition rule : Type := jsstring -> value -> list detail * value.
Definition schema : Type :=
  jsstring -> option value -> list detail * option value.

Definition required (r : rule) : schema := fun path x =>
  match x with
  | None => ([(path, "any.required")], None)
  | Some v => let '(errors, v') := r path v in (errors, Some v')
  end.

Definition optional (r : rule) : schema := fun path x =>
  match x with
  | None => ([], None)
  | Some v => let '(errors, v') := r path v in (errors, Some v')
  end.

Definition default_ (d : value) (r : rule) : schema := fun path x =>
  match x with
  | None => ([], Some d)
  | Some v => let '(errors, v') := r path v in (errors, Some v')
  end.

(** Equality of scalars, as [valid] and [allow] compare them. *)
Definition sameScalar (a b : value) : bool :=
  match a, b with
  | VNull, VNull => true
  | VBool x, VBool y => Bool.eqb x y
  | VNum x, VNum y => (x =? y)%Z
  | VStr x, VStr y => eqs x y
  | _, _ => false
  end.

(** [Joi.string()], with [.trim()] and [.max(n)]: the empty string is not
    a valid string. *)
Definition Joi_string (trimmed : bool) (max : option nat) : rule :=
  fun path v =>
    match v with
    | VStr s =>
        let s := if trimmed then trim s else s in
        if isEmpty s then ([(path, "string.empty")], VStr s)
        else if match max with Some n => n <? length s | None => false end
        then ([(path, "string.max")], VStr s)
        else ([], VStr s)
    | _ => ([(path, "string.base")], v)
    end.

(** [.valid(...)]: only the listed values pass. *)
Definition Joi_valid (allowed : list value) : rule := fun path v =>
  if existsb (sameScalar v) allowed then ([], v) else ([(path, "any.only")], v).

(** [.allow(...)]: the listed values pass besides those of the rule. *)
Definition Joi_allow (allowed : list value) (r : rule) : rule := fun path v =>
  if existsb (sameScalar v) allowed then ([], v) else r path v.

Definition MAX_SAFE_INTEGER : Z := 2 ^ 53 - 1.

Section Joi.
Context {L : Libraries}.

Definition checkInteger (min : option Z) (path : jsstring) (n : Z)
    : list detail * value :=
  if (MAX_SAFE_INTEGER <? Z.abs n)%Z then ([(path, "number.unsafe")], VNum n)
  else if match min with Some m => (n <? m)%Z | None => false end
  then ([(path, "number.min")], VNum n)
  else ([], VNum n).

(** [Joi.number()] with [.min(m)]: a number, or a numeric string that
    convert mode turns into one.  Every number of the model is an
    integer, so [.integer()] adds nothing. *)
Definition Joi_number (min : option Z) : rule := fun path v =>
  match v with
  | VNum n => checkInteger min path n
  | VStr (c :: s) =>
      match numberOfString (c :: s) with
      | Some n => checkInteger min path n
      | None => ([(path, "number.base")], v)
      end
  | _ => ([(path, "number.base")], v)
  end.

(** [Joi.boolean()]: convert mode reads the strings true and false. *)
Definition Joi_boolean : rule := fun path v =>
  match v with
  | VBool _ => ([], v)
  | VStr s =>
      if eqs (toLowerCase s) "true" then ([], VBool true)
      else if eqs (toLowerCase s) "false" then ([], VBool false)
      else ([(path, "boolean.base")], v)
  | _ => ([(path, "boolean.base")], v)
  end.

(** [Joi.alternatives().try(...)]: the first rule that matches. *)
Fixpoint Joi_alternatives (rules : list rule) : rule := fun path v =>
  match rules with
  | [] => ([(path, "alternatives.match")], v)
  | r :: rules' =>
      match r path v with
      | ([], v') => ([], v')
      | _ => Joi_alternatives rules' path v
      end
  end.

Fixpoint validateItems (items : rule) (path : jsstring) (l : list value)
    (index : nat) : list detail * list value :=
  match l with
  | [] => ([], [])
  | v :: l' =>
      let '(e, v') :=
        items (path ++ "[" ++ NumberToString (Z.of_nat index) ++ "]") v in
      let '(es, vs) := validateItems items path l' (S index) in
      (e ++ es, v' :: vs)
  end.

(** [Joi.array().items(r).min(n)] *)
Definition Joi_array (items : rule) (min : nat) : rule := fun path v =>
  match v with
  | VArr l =>
      let '(errors, l') := validateItems items path l 0 in
      (errors ++ (if length l <? min then [(path, "array.min")] else []),
       VArr l')
  | _ => ([(path, "array.base")], v)
  end.

Fixpoint validateKeys (keys : list (jsstring * schema)) (path : jsstring)
    (o : object) : list detail * list (jsstring * option value) :=
  match keys with
  | [] => ([], [])
  | (k, s) :: keys' =>
      let '(e, v') :=
        s (if isEmpty path then k else path ++ "." ++ k) (get k o) in
      let '(es, vs) := validateKeys keys' path o in
      (e ++ es, (k, v') :: vs)
  end.

(** [Joi.object({...})].  A key the schema does not name is dropped under
    the stripUnknown option and is an error without it. *)
Definition Joi_object (keys : list (jsstring * schema))
    (stripUnknown : bool) : rule := fun path v =>
  match v with
  | VObj o =>
      let '(errors, kept) := validateKeys keys path o in
      let unknown :=
        List.filter (fun k => negb (existsb (eqs k) (map fst keys)))
          (map fst o) in
      (errors
         ++ (if stripUnknown then []
             else map (fun k => (path ++ "." ++ k, "object.unknown"%string))
                    unknown),
       VObj (literal kept))
  | _ => ([(path, "object.base")], v)
  end.
End Joi.

Section Schemas.
Context {L : Libraries}.

Definition difficulties : list value :=
  [VStr "Easy"; VStr "Medium"; VStr "Hard"].
Definition questionTypes : list value :=
  [VStr "MCQ"; VStr "True/False"; VStr "Fill in the Blanks"].
Definition languages : list value :=
  [VStr "english"; VStr "hindi"; VStr "spanish"; VStr "french";
   VStr "german"; VStr "chinese"; VStr "japanese"; VStr "korean";
   VStr "arabic"].

Definition questionSchema (stripUnknown : bool) : rule :=
  Joi_object
    [("question" : jsstring, required (Joi_string false None));
     ("correctAnswer" : jsstring,
      required (Joi_alternatives
                  [Joi_string false None; Joi_number None; Joi_boolean]));
     ("explanation" : jsstring,
      optional (Joi_allow [VStr ""; VNull] (Joi_string false None)));
     ("options" : jsstring,
      required (Joi_array (Joi_string false None) 2))]
    stripUnknown.

Definition quizSchema (stripUnknown : bool) : schema :=
  required (Joi_object
    [("title" : jsstring, required (Joi_string true (Some 255)));
     ("topic" : jsstring, optional (Joi_string true (Some 255)));
     ("numQuestions" : jsstring, required (Joi_number (Some 1%Z)));
     ("difficulty" : jsstring, required (Joi_valid difficulties));
     ("questionType" : jsstring, required (Joi_valid questionTypes));
     ("language" : jsstring,
      default_ (VStr "english") (Joi_valid languages));
     ("questions" : jsstring,
      required (Joi_array (questionSchema stripUnknown) 1))]
    stripUnknown).

Definition quizResultSchema (stripUnknown : bool) : schema :=
  optional (Joi_object
    [("quizId" : jsstring, required (Joi_number None));
     ("score" : jsstring, required (Joi_number (Some 0%Z)));
     ("totalQuestions" : jsstring, required (Joi_number (Some 1%Z)));
     ("userAnswers" : jsstring,
      required (Joi_array
        (Joi_object
           [("questionIndex" : jsstring, required (Joi_number None));
            ("answer" : jsstring,
             required (Joi_alternatives
                         [Joi_string false None; Joi_number None;
                          Joi_boolean; Joi_valid [VNull]]));
            ("correct" : jsstring, required Joi_boolean)]
           stripUnknown) 0));
     ("timeTaken" : jsstring, required (Joi_number (Some 0%Z)))]
    stripUnknown).

Definition quizHistorySchema (stripUnknown : bool) : schema :=
  required (Joi_object
    [("quizId" : jsstring, required (Joi_number None));
     ("promptUsed" : jsstring, required (Joi_string false None));
     ("generationParameters" : jsstring,
      required (Joi_object
        [("topic" : jsstring, required (Joi_string false None));
         ("difficulty" : jsstring, required (Joi_valid difficulties));
         ("numQuestions" : jsstring, required (Joi_number (Some 1%Z)));
         ("questionType" : jsstring, required (Joi_valid questionTypes));
         ("language" : jsstring,
          default_ (VStr "english") (Joi_valid languages))]
        stripUnknown))]
    stripUnknown).

(** [schema.validate(body, options)]: the error details, and the
    converted value. *)
Definition validate (s : schema) (body : value)
    : list detail * option value :=
  s [] (Some body).

Definition detailsMessage (details : list detail) : list jsstring :=
  map (fun d => detailMessage (fst d) (snd d)) details.
End Schemas.

(** ** Handlers as computations on a connection

    [db] is the committed state and [tx] the state inside an open
    transaction.  Each statement sent to the server consumes one entry of
    [faults]: [true] makes the statement fail without effect (a lost
    connection, a violated constraint, a value out of range).
    [statements] records the statements sent, the latest first. *)

Record World : Type := {
  db : Db;
  tx : option Db;
  faults : list bool;
  now : Z;
  statements : list string
}.

Definition M (A : Type) : Type := World -> result A * World.

#[global] Instance M_ret : MRet M := fun A a w => (Return a, w).
#[global] Instance M_bind : MBind M := fun A B f m w =>
  match m w with
  | (Return a, w') => f a w'
  | (Throw e, w') => (Throw e, w')
  end.

Definition throw {A : Type} (e : exn) : M A := fun w => (Throw e, w).

Definition lift {A : Type} (r : result A) : M A := fun w => (r, w).

(** [try { m } catch (error) { handler }] *)
Definition tryCatch {A : Type} (m : M A) (handler : exn -> M A) : M A :=
  fun w =>
    match m w with
    | (Throw e, w') => handler e w'
    | r => r
    end.

Definition current (w : World) : Db := default (db w) (tx w).

Definition failure : exn := DatabaseError "the statement failed".

(** One statement on the connection: [run] is its effect on the tables. *)
Definition statement {A : Type} (sql : string) (run : Db -> result (A * Db))
    : M A := fun w =>
  let sent := sql :: statements w in
  match faults w with
  | true :: fs =>
      (Throw failure,
       {| db := db w; tx := tx w; faults := fs; now := now w;
          statements := sent |})
  | fs =>
      match run (current w) with
      | Throw e =>
          (Throw e,
           {| db := db w; tx := tx w; faults := tail fs; now := now w;
              statements := sent |})
      | Return (a, d) =>
          (Return a,
           {| db := match tx w with Some _ => db w | None => d end;
              tx := match tx w with Some _ => Some d | None => None end;
              faults := tail fs; now := now w; statements := sent |})
      end
  end.

(** A statement that controls the transaction: [control] gives the new
    committed state and the new transaction state. *)
Definition control (sql : string) (change : World -> Db * option Db)
    : M unit := fun w =>
  let sent := sql :: statements w in
  match faults w with
  | true :: fs =>
      (Throw failure,
       {| db := db w; tx := tx w; faults := fs; now := now w;
          statements := sent |})
  | fs =>
      (Return (),
       {| db := fst (change w); tx := snd (change w); faults := tail fs;
          now := now w; statements := sent |})
  end.

Definition BEGIN : M unit :=
  control "BEGIN" (fun w => (db w, Some (current w))).
Definition COMMIT : M unit :=
  control "COMMIT" (fun w => (current w, None)).
Definition ROLLBACK : M unit :=
  control "ROLLBACK" (fun w => (db w, None)).

(** [pool.connect()] *)
Definition connect : M unit :=
  control "connect" (fun w => (db w, tx w)).

(** [try { m } finally { client.release() }]: the connection goes back to
    the pool on every way out of [m]. *)
Definition finally_release {A : Type} (m : M A) : M A := fun w =>
  let '(r, w') := m w in
  (r, {| db := db w'; tx := tx w'; faults := faults w'; now := now w';
         statements := "release"%string :: statements w' |}).

(** ** Requests and responses *)

Record Request : Type := {
  headers_user_id : option jsstring;
  headers_username : option jsstring;
  params_id : jsstring;
  query_page : option value;
  query_limit : option value;
  body : value
}.

Record Response : Type := {
  status : Z;
  json : value
}.

Definition field (k : string) (v : value) : jsstring * value := (str k, v).

(** A number as res.json prints it: NaN becomes null. *)
Definition number (n : option Z) : value :=
  match n with
  | Some n => VNum n
  | None => VNull
  end.

(** A nullable text column. *)
Definition text (s : option jsstring) : value :=
  match s with
  | Some s => VStr s
  | None => VNull
  end.

(** [err.statusCode]: only the application's error classes carry one. *)
Definition statusCode (err : exn) : option Z :=
  match err with
  | ValidationError _ => Some 400%Z
  | _ => None
  end.

(** The error-handling middleware, where [next(error)] ends. *)
Definition errorHandler (err : exn) : Response :=
  {| status := default 500%Z (statusCode err);
     json := VObj [field "status" (VStr "error");
                   field "message"
                     (VStr (if isEmpty (message err)
                            then "Internal server error" : jsstring
                            else message err))] |}.

Definition validationResponse (error : exn) : Response :=
  {| status := 400;
     json := VObj [field "status" (VStr "error");
                   field "type" (VStr "validation");
                   field "message" (VStr (message error))] |}.

Definition simpleAuth (handler : jsstring -> Request -> M Response)
    (req : Request) : M Response :=
  match headers_user_id req, headers_username req with
  | Some (c :: userId), Some (_ :: _) => handler (c :: userId) req
  | _, _ =>
      mret {| status := 401;
              json := VObj [field "status" (VStr "error");
                            field "message"
                              (VStr "Authentication required")] |}
  end.

(** ** POST /api/quizzes *)

(** INSERT INTO quizzes ... RETURNING: the key is the next value of the
    sequence and must be new (PRIMARY KEY). *)
Definition INSERT_quiz (created_at : Z) (user_id title : jsstring)
    (topic : option jsstring) (num_questions : Z)
    (difficulty question_type : jsstring) (questions : value)
    (language : jsstring) (d : Db) : result (QuizRow * Db) :=
  let id := (quizzes_id_seq d + 1)%Z in
  if existsb (fun q => (q_id q =? id)%Z) (quizzes d)
  then Throw (DatabaseError
                "duplicate key value violates unique constraint")
  else
    let row :=
      {| q_id := id; q_user_id := user_id; q_title := title;
         q_topic := topic; q_num_questions := num_questions;
         q_difficulty := difficulty; q_question_type := question_type;
         q_language := language; q_questions := questions;
         q_created_at := created_at |} in
    Return (row,
            {| quizzes := quizzes d ++ [row];
               quiz_results := quiz_results d;
               quiz_history := quiz_history d;
               quizzes_id_seq := id;
               quiz_results_id_seq := quiz_results_id_seq d;
               quiz_history_id_seq := quiz_history_id_seq d |}).

Definition asNumber (x : option value) : Z :=
  match x with
  | Some (VNum n) => n
  | _ => 0%Z
  end.

Definition asOptString (x : option value) : option jsstring :=
  match x with
  | Some (VStr s) => Some s
  | _ => None
  end.

Definition asObject (x : option value) : object :=
  match x with
  | Some (VObj o) => o
  | _ => []
  end.

Definition clock : M Z := fun w => (Return (now w), w).

Section CreateQuiz.
Context {L : Libraries}.

(** The [try] block of the handler. *)
Definition createQuiz_try (userId : jsstring) (req : Request)
    : M Response :=
  let body :=
    match body req with
    | VObj o =>
        VObj (if negb (truthy (get "language" o))
              then set "language" (VStr "english") o
              else o)
    | b => b
    end in
  let '(error, value) := validate (quizSchema true) body in
  if negb (length error =? 0)
  then throw (ValidationError (join ", " (detailsMessage error)))
  else
  let value := asObject value in
  match get "questions" value with
  | Some (VArr questions) =>
      if length questions =? 0
      then throw (ValidationError
                    "Questions array is required and must not be empty")
      else
      if negb (asNumber (get "numQuestions" value)
               =? Z.of_nat (length questions))%Z
      then throw (ValidationError
             ("numQuestions ("
              ++ NumberToString (asNumber (get "numQuestions" value))
              ++ ") does not match actual number of questions ("
              ++ NumberToString (Z.of_nat (length questions)) ++ ")"))
      else
      _ ← lift (forEach
             (fun q idx =>
                q ← props q "options";
                if eqs (asString (get "questionType" value)) "MCQ"
                   && match get "options" q with
                      | Some (VArr options) => length options <? 2
                      | _ => true
                      end
                then Throw (ValidationError
                       ("Question " ++ NumberToString (Z.of_nat (idx + 1))
                        ++ " must have at least 2 options for MCQ type"))
                else Return ())
             questions 0);
      time ← clock;
      createdQuiz ← statement "INSERT INTO quizzes"
        (INSERT_quiz time userId
           (asString (get "title" value))
           (asOptString (get "topic" value))
           (asNumber (get "numQuestions" value))
           (asString (get "difficulty" value))
           (asString (get "questionType" value))
           (VArr questions)
           (asString (or_ (get "language" value) (Some (VStr "english")))));
      mret
        {| status := 201;
           json := VObj
             [field "status" (VStr "success");
              field "message" (VStr "Quiz created successfully");
              field "quiz" (VObj
                [field "id" (VNum (q_id createdQuiz));
                 field "title" (VStr (q_title createdQuiz));
                 field "topic" (text (q_topic createdQuiz));
                 field "numQuestions" (VNum (q_num_questions createdQuiz));
                 field "difficulty" (VStr (q_difficulty createdQuiz));
                 field "questionType"
                   (VStr (q_question_type createdQuiz));
                 field "language" (VStr (q_language createdQuiz))])] |}
  | _ =>
      throw (ValidationError
               "Questions array is required and must not be empty")
  end.

Definition createQuiz : Request -> M Response :=
  simpleAuth (fun userId req =>
    tryCatch (createQuiz_try userId req)
      (fun error =>
         match error with
         | ValidationError _ => mret (validationResponse error)
         | _ => mret (errorHandler error)
         end)).
End CreateQuiz.

(** ** GET /api/quizzes *)

(** The results the LEFT JOIN attaches to a quiz: those of the quiz made
    by the owner of the quiz. *)
Definition joined_results (d : Db) (q : QuizRow) : list ResultRow :=
  List.filter
    (fun qr => (q_id q =? qr_quiz_id qr)%Z && eqs (qr_user_id qr) (q_user_id q))
    (quiz_results d).

(** MAX over a column: NULL on no row. *)
Definition MAX (l : list Z) : option Z :=
  match l with
  | [] => None
  | x :: l' => Some (fold_left Z.max l' x)
  end.

Definition MIN (l : list Z) : option Z :=
  match l with
  | [] => None
  | x :: l' => Some (fold_left Z.min l' x)
  end.

(** COUNT is a bigint, which the driver hands over as a string. *)
Definition COUNT {A : Type} (l : list A) : value :=
  VStr (NumberToString (Z.of_nat (length l))).

Definition owned_by (user_id : jsstring) (q : QuizRow) : bool :=
  eqs (q_user_id q) user_id.

Definition newest_first (a b : QuizRow) : Prop :=
  (q_created_at b <= q_created_at a)%Z.

#[global] Instance newest_first_dec a b : Decision (newest_first a b) :=
  Z_le_dec _ _.

Section ListQuizzes.
Context {L : Libraries}.

(** One row of the listing query.  The keys are unique, so each quiz is
    its own group. *)
Definition listing_row (d : Db) (q : QuizRow) : object :=
  [field "id" (VNum (q_id q));
   field "title" (VStr (q_title q));
   field "topic" (text (q_topic q));
   field "num_questions" (VNum (q_num_questions q));
   field "difficulty" (VStr (q_difficulty q));
   field "question_type" (VStr (q_question_type q));
   field "created_at" (VStr (toISOString (q_created_at q)));
   field "attempts_count" (COUNT (joined_results d q));
   field "highest_score"
     (number (MAX (map qr_score (joined_results d q))))].

(** The statement of the listing, SELECT ... WHERE q.user_id = $1
    GROUP BY q.id ORDER BY q.created_at DESC LIMIT $2 OFFSET $3 *)
Definition listing_sql : string :=
  "SELECT ... FROM quizzes q LEFT JOIN quiz_results".

(** The quizzes of a user, the newest first; quizzes created at the same
    instant come in the order PostgreSQL delivers them (the sort is
    stable). *)
Definition ordered_quizzes (user_id : jsstring) (d : Db) : list QuizRow :=
  merge_sort newest_first
    (row_order listing_sql [user_id] d
       (List.filter (owned_by user_id) (quizzes d))).

(** LIMIT $2 OFFSET $3: PostgreSQL looks at the offset first and refuses
    a negative one, then a negative limit.  Both are bigint: the numbers
    handed over are taken below 2^63. *)
Definition SELECT_quizzes (user_id : jsstring) (limit offset : Z) (d : Db)
    : result (list object * Db) :=
  if (offset <? 0)%Z then Throw (DatabaseError "OFFSET must not be negative")
  else if (limit <? 0)%Z
  then Throw (DatabaseError "LIMIT must not be negative")
  else
    Return
      (map (listing_row d)
         (take (Z.to_nat limit)
            (drop (Z.to_nat offset) (ordered_quizzes user_id d))),
       d).

(** SELECT COUNT( * ) FROM quizzes WHERE user_id = $1 *)
Definition SELECT_count (user_id : jsstring) (d : Db)
    : result (value * Db) :=
  Return (COUNT (List.filter (owned_by user_id) (quizzes d)), d).

(** [Math.ceil(a / b)] *)
Definition ceil_div (a b : Z) : Z := (- ((- a) / b))%Z.

(** [parseInt(x) || d] *)
Definition parseInt_or (x : option value) (d : Z) : Z :=
  match parseInt x None with
  | Some n => if (n =? 0)%Z then d else n
  | None => d
  end.

(** The callback of [quizzes.rows.map]. *)
Definition listing_json (quiz : object) : value :=
  VObj (set "highest_score"
          (number (parseInt
                     (or_ (get "highest_score" quiz) (Some (VNum 0))) None))
          (set "attempts_count"
             (number (parseInt
                        (or_ (get "attempts_count" quiz) (Some (VNum 0)))
                        None))
             quiz)).

Definition listQuizzes : Request -> M Response :=
  simpleAuth (fun userId req =>
    tryCatch
      (let page := parseInt_or (query_page req) 1 in
       let limit := parseInt_or (query_limit req) 10 in
       let offset := ((page - 1) * limit)%Z in
       quizzes ← statement listing_sql
                   (SELECT_quizzes userId limit offset);
       countResult ← statement "SELECT COUNT(*) FROM quizzes"
                       (SELECT_count userId);
       let totalQuizzes := parseInt (Some countResult) None in
       let totalPages := (fun t => ceil_div t limit) <$> totalQuizzes in
       mret
         {| status := 200;
            json := VObj
              [field "status" (VStr "success");
               field "quizzes" (VArr (map listing_json quizzes));
               field "pagination" (VObj
                 [field "currentPage" (VNum page);
                  field "totalPages" (number totalPages);
                  field "totalQuizzes" (number totalQuizzes);
                  field "hasMore"
                    (VBool (match totalPages with
                            | Some totalPages => (page <? totalPages)%Z
                            | None => false
                            end))])] |})
      (fun error => mret (errorHandler error))).
End ListQuizzes.

(** ** GET /api/quizzes/:id/take *)

Definition hexDigit (n : N) : N := (if n <? 10 then 48 + n else 87 + n)%N.

(** The text of a JSON string: quoted, with the escapes PostgreSQL
    writes. *)
Definition escape_json (s : jsstring) : jsstring :=
  [34%N]
  ++ flat_map
       (fun c =>
          if (c =? 34)%N then [92; 34]%N
          else if (c =? 92)%N then [92; 92]%N
          else if (c =? 8)%N then "\b" : jsstring
          else if (c =? 12)%N then "\f" : jsstring
          else if (c =? 10)%N then "\n" : jsstring
          else if (c =? 13)%N then "\r" : jsstring
          else if (c =? 9)%N then "\t" : jsstring
          else if (c <? 32)%N
          then "\u00" ++ [hexDigit (c / 16); hexDigit (c mod 16)]
          else [c])
       s
  ++ [34%N].

(** The text of a jsonb value. *)
Fixpoint jsonb_out (v : value) : jsstring :=
  match v with
  | VNull => "null"
  | VBool true => "true"
  | VBool false => "false"
  | VNum n => NumberToString n
  | VStr s => escape_json s
  | VArr items => "[" ++ join ", " (map jsonb_out items) ++ "]"
  | VObj props =>
      "{"
      ++ join ", "
           (map (fun kv => escape_json (fst kv) ++ ": " ++ jsonb_out (snd kv))
              props)
      ++ "}"
  end.

(** [q -> 'k']: the member of an object, NULL otherwise. *)
Definition arrow (q : value) (k : jsstring) : option value :=
  match q with
  | VObj o => get k o
  | _ => None
  end.

(** [q ->> 'k']: the member as text; a JSON null is NULL. *)
Definition arrow_text (q : value) (k : jsstring) : option jsstring :=
  match arrow q k with
  | None | Some VNull => None
  | Some (VStr s) => Some s
  | Some v => Some (jsonb_out v)
  end.

(** jsonb_agg over no row is NULL. *)
Definition jsonb_agg (l : list value) : value :=
  match l with
  | [] => VNull
  | _ => VArr l
  end.

Section TakeQuiz.
Context {L : Libraries}.

Definition take_row (q : QuizRow) : result object :=
  match q_questions q with
  | VArr questions =>
      Return
        [field "id" (VNum (q_id q));
         field "title" (VStr (q_title q));
         field "topic" (text (q_topic q));
         field "num_questions" (VNum (q_num_questions q));
         field "difficulty" (VStr (q_difficulty q));
         field "question_type" (VStr (q_question_type q));
         field "jsonb_agg"
           (jsonb_agg
              (map (fun q =>
                      VObj [field "question" (text (arrow_text q "question"));
                            field "options"
                              (default VNull (arrow q "options"))])
                 questions))]
  | _ => Throw (DatabaseError "cannot extract elements from a non-array")
  end.

(** SELECT id, title, ..., (SELECT jsonb_agg(...) FROM
    jsonb_array_elements(questions) q) FROM quizzes WHERE id = $1 *)
Definition SELECT_take (id : jsstring) (d : Db)
    : result (list object * Db) :=
  match int4in id with
  | None => Throw (DatabaseError "invalid input syntax for type integer")
  | Some id =>
      rows ← forEach (fun q _ => take_row q)
               (List.filter (fun q => (q_id q =? id)%Z) (quizzes d)) 0;
      Return (rows, d)
  end.

(** The handler names a class NotFoundError that server.js does not
    define: reaching the [throw] raises a ReferenceError. *)
Definition takeQuiz : Request -> M Response :=
  simpleAuth (fun userId req =>
    tryCatch
      (result ← statement "SELECT ... FROM quizzes WHERE id = $1"
                  (SELECT_take (params_id req));
       match result with
       | [] => throw (ReferenceError "NotFoundError is not defined")
       | row :: _ => mret {| status := 200; json := VObj row |}
       end)
      (fun error => mret (errorHandler error))).
End TakeQuiz.

(** ** POST /api/quiz-results and POST /api/quiz-history *)

(** The range of PostgreSQL's INTEGER. *)
Definition int4 (n : Z) : bool := ((- 2 ^ 31 <=? n) && (n <? 2 ^ 31))%Z.

(** value "n" is out of range for type integer *)
Definition out_of_range (n : Z) : jsstring :=
  "value " ++ [34%N] ++ NumberToString n ++ [34%N]
  ++ " is out of range for type integer".

(** SELECT id FROM quizzes WHERE id = $1.  The parameter is the number of
    the body, which PostgreSQL reads as an INTEGER: it refuses a number
    outside the range of the type.  The keys of the table are INTEGERs
    themselves, so the key of a row is never refused. *)
Definition SELECT_quiz_id (id : Z) (d : Db) : result (list Z * Db) :=
  match List.filter (fun q => (q_id q =? id)%Z) (quizzes d) with
  | [] =>
      if int4 id then Return ([], d)
      else Throw (DatabaseError (out_of_range id))
  | rows => Return (map q_id rows, d)
  end.

Definition references_quiz (quiz_id : Z) (d : Db) : bool :=
  existsb (fun q => (q_id q =? quiz_id)%Z) (quizzes d).

(** INSERT INTO quiz_results ... RETURNING *: the key is new and the quiz
    exists (FOREIGN KEY). *)
Definition INSERT_result (completed_at : Z) (user_id : jsstring)
    (quiz_id score total_questions : Z) (user_answers : value)
    (time_taken : Z) (d : Db) : result (ResultRow * Db) :=
  let id := (quiz_results_id_seq d + 1)%Z in
  if existsb (fun qr => (qr_id qr =? id)%Z) (quiz_results d)
  then Throw (DatabaseError
                "duplicate key value violates unique constraint")
  else if negb (references_quiz quiz_id d)
  then Throw (DatabaseError "violates foreign key constraint")
  else
    let row :=
      {| qr_id := id; qr_user_id := user_id; qr_quiz_id := quiz_id;
         qr_score := score; qr_total_questions := total_questions;
         qr_user_answers := user_answers; qr_completed_at := completed_at;
         qr_time_taken := time_taken |} in
    Return (row,
            {| quizzes := quizzes d;
               quiz_results := quiz_results d ++ [row];
               quiz_history := quiz_history d;
               quizzes_id_seq := quizzes_id_seq d;
               quiz_results_id_seq := id;
               quiz_history_id_seq := quiz_history_id_seq d |}).

(** INSERT INTO quiz_history ... RETURNING * *)
Definition INSERT_history (created_at : Z) (user_id : jsstring)
    (quiz_id : Z) (prompt_used : jsstring) (generation_parameters : value)
    (d : Db) : result (HistoryRow * Db) :=
  let id := (quiz_history_id_seq d + 1)%Z in
  if existsb (fun qh => (qh_id qh =? id)%Z) (quiz_history d)
  then Throw (DatabaseError
                "duplicate key value violates unique constraint")
  else if negb (references_quiz quiz_id d)
  then Throw (DatabaseError "violates foreign key constraint")
  else
    let row :=
      {| qh_id := id; qh_user_id := user_id; qh_quiz_id := quiz_id;
         qh_prompt_used := prompt_used;
         qh_generation_parameters := generation_parameters;
         qh_created_at := created_at |} in
    Return (row,
            {| quizzes := quizzes d;
               quiz_results := quiz_results d;
               quiz_history := quiz_history d ++ [row];
               quizzes_id_seq := quizzes_id_seq d;
               quiz_results_id_seq := quiz_results_id_seq d;
               quiz_history_id_seq := id |}).

Section Submissions.
Context {L : Libraries}.

(** The [catch] clause of both handlers. *)
Definition rollback_and_respond (error : exn) : M Response :=
  _ ← ROLLBACK;
  match error with
  | ValidationError _ => mret (validationResponse error)
  | _ => mret (errorHandler error)
  end.

Definition result_json (r : ResultRow) : value :=
  VObj [field "id" (VNum (qr_id r));
        field "user_id" (VStr (qr_user_id r));
        field "quiz_id" (VNum (qr_quiz_id r));
        field "score" (VNum (qr_score r));
        field "total_questions" (VNum (qr_total_questions r));
        field "user_answers" (qr_user_answers r);
        field "completed_at" (VStr (toISOString (qr_completed_at r)));
        field "time_taken" (VNum (qr_time_taken r))].

(** The [try] block of POST /api/quiz-results. *)
Definition recordResult_try (userId : jsstring) (req : Request)
    : M Response :=
  let '(error, value) := validate (quizResultSchema false) (body req) in
  match error with
  | d :: _ => throw (ValidationError (detailMessage (fst d) (snd d)))
  | [] =>
      let value := asObject value in
      quizCheck ← statement "SELECT id FROM quizzes WHERE id = $1"
                    (SELECT_quiz_id (asNumber (get "quizId" value)));
      if length quizCheck =? 0
      then throw (ValidationError "Invalid quiz ID")
      else
        _ ← BEGIN;
        time ← clock;
        result ← statement "INSERT INTO quiz_results"
          (INSERT_result time userId
             (asNumber (get "quizId" value))
             (asNumber (get "score" value))
             (asNumber (get "totalQuestions" value))
             (default VNull (get "userAnswers" value))
             (asNumber (get "timeTaken" value)));
        _ ← COMMIT;
        mret
          {| status := 201;
             json := VObj
               [field "status" (VStr "success");
                field "message" (VStr "Quiz result saved successfully");
                field "result" (result_json result)] |}
  end.

Definition recordResult : Request -> M Response :=
  simpleAuth (fun userId req =>
    _ ← connect;
    finally_release
      (tryCatch (recordResult_try userId req) rollback_and_respond)).

Definition history_json (h : HistoryRow) : value :=
  VObj [field "id" (VNum (qh_id h));
        field "user_id" (VStr (qh_user_id h));
        field "quiz_id" (VNum (qh_quiz_id h));
        field "prompt_used" (VStr (qh_prompt_used h));
        field "generation_parameters" (qh_generation_parameters h);
        field "created_at" (VStr (toISOString (qh_created_at h)))].

(** The [try] block of POST /api/quiz-history. *)
Definition recordHistory_try (userId : jsstring) (req : Request)
    : M Response :=
  let '(error, value) := validate (quizHistorySchema false) (body req) in
  match error with
  | d :: _ => throw (ValidationError (detailMessage (fst d) (snd d)))
  | [] =>
      let value := asObject value in
      quizCheck ← statement "SELECT id FROM quizzes WHERE id = $1"
                    (SELECT_quiz_id (asNumber (get "quizId" value)));
      if length quizCheck =? 0
      then throw (ValidationError "Invalid quiz ID")
      else
        _ ← BEGIN;
        time ← clock;
        result ← statement "INSERT INTO quiz_history"
          (INSERT_history time userId
             (asNumber (get "quizId" value))
             (asString (get "promptUsed" value))
             (default VNull (get "generationParameters" value)));
        _ ← COMMIT;
        mret
          {| status := 201;
             json := VObj
               [field "status" (VStr "success");
                field "message" (VStr "Quiz history saved successfully");
                field "history" (history_json result)] |}
  end.

Definition recordHistory : Request -> M Response :=
  simpleAuth (fun userId req =>
    _ ← connect;
    finally_release
      (tryCatch (recordHistory_try userId req) rollback_and_respond)).
End Submissions.

(** ** GET /api/statistics *)

(** *** float8

    PostgreSQL's float8 and the numbers of JavaScript are the binary64
    numbers of IEEE 754, and every operation rounds to the nearest one,
    to the even one on a tie.  PostgreSQL prints a float8 so that
    parseFloat reads the same number again. *)
Definition float8 : Type := spec_float.

Definition prec : Z := 53.
Definition emax : Z := 1024.

(** The cast of an integer. *)
Definition float8_of_Z (n : Z) : float8 :=
  binary_normalize prec emax n 0 false.

Definition float8_add : float8 -> float8 -> float8 := SFadd prec emax.
Definition float8_mul : float8 -> float8 -> float8 := SFmul prec emax.
Definition float8_div : float8 -> float8 -> float8 := SFdiv prec emax.

(** [score::float / total_questions * 100], and 0 for a total that is not
    positive. *)
Definition percentage (qr : ResultRow) : float8 :=
  if (0 <? qr_total_questions qr)%Z
  then float8_mul
         (float8_div (float8_of_Z (qr_score qr))
            (float8_of_Z (qr_total_questions qr)))
         (float8_of_Z 100)
  else float8_of_Z 0.

(** AVG over a float8 column: NULL on no row, and otherwise the sum, to
    which the rows are added one after the other from 0 on, divided by
    their number. *)
Definition AVG (l : list float8) : option float8 :=
  match l with
  | [] => None
  | _ =>
      Some (float8_div (fold_left float8_add l (float8_of_Z 0))
              (float8_of_Z (Z.of_nat (length l))))
  end.

(** [parseFloat(x)] on a number or null: the number itself, 0 for the
    negative zero, NaN for null. *)
Definition parseFloat (x : option float8) : float8 :=
  match x with
  | None => S754_nan
  | Some (S754_zero _) => S754_zero false
  | Some x => x
  end.

(** [x || 0] on a number or null *)
Definition or_zero (x : option float8) : option float8 :=
  match x with
  | None | Some (S754_zero _) | Some S754_nan => Some (S754_zero false)
  | _ => x
  end.

(** The two decimals of toFixed(2) for a positive rational below 10^21:
    the nearest multiple of 1/100, the larger one on a tie. *)
Definition fixed2 (a : Q) : jsstring :=
  let n := ((2 * 100 * Qnum a + Z.pos (Qden a)) / (2 * Z.pos (Qden a)))%Z in
  NumberToString (n / 100) ++ "."
  ++ NumberToString (n mod 100 / 10) ++ NumberToString (n mod 10).

(** [x.toFixed(2)] for a magnitude below 10^21; the value of the finite
    number with mantissa m and exponent e is m * 2^e. *)
Definition toFixed2 (x : float8) : jsstring :=
  match x with
  | S754_nan => "NaN"
  | S754_infinity s => if s then "-Infinity" else "Infinity"
  | S754_zero _ => "0.00"
  | S754_finite s m e =>
      (if s then "-" : jsstring else [])
      ++ fixed2 (match e with
                 | Zneg e => Z.pos m # 2 ^ e
                 | _ => inject_Z (Z.pos m * 2 ^ e)
                 end)
  end.

(** processQuizStatistics *)
Definition processQuizStatistics (rows : list object) : jsstring * jsstring :=
  let topics :=
    fold_left
      (fun topics quiz =>
         if truthy (get "topic" quiz)
         then ES6Set.add (asString (get "topic" quiz)) topics
         else topics)
      rows [] in
  let difficulties :=
    fold_left
      (fun difficulties quiz =>
         if truthy (get "difficulty" quiz)
         then ES6Set.add (asString (get "difficulty" quiz)) difficulties
         else difficulties)
      rows [] in
  (if isEmpty (join ", " topics) then "None" : jsstring else join ", " topics,
   if isEmpty (join ", " difficulties) then "None" : jsstring
   else join ", " difficulties).

Definition latest_first (a b : Z) : Prop := (b <= a)%Z.

#[global] Instance latest_first_dec a b : Decision (latest_first a b) :=
  Z_le_dec _ _.

Definition timestamp (f : Z -> jsstring) (t : option Z) : value :=
  match t with
  | Some t => VStr (f t)
  | None => VNull
  end.

Record OverallRow : Type := {
  total_quizzes_taken : value;
  total_attempts : value;
  average_score : float8;
  highest_score : Z;
  first_attempt : option Z;
  last_attempt : option Z
}.

Section Statistics.
Context {L : Libraries}.

Definition results_of (user_id : jsstring) (d : Db) : list ResultRow :=
  List.filter (fun qr => eqs (qr_user_id qr) user_id) (quiz_results d).

Definition overall_sql : string := "SELECT COUNT(DISTINCT quiz_id), ...".
Definition topics_sql : string := "SELECT DISTINCT topic, difficulty".
Definition monthly_sql : string :=
  "SELECT DATE_TRUNC('month', completed_at), ...".

(** SELECT COUNT(DISTINCT quiz_id), COUNT( * ), COALESCE(AVG(...), 0),
    COALESCE(MAX(score), 0), MIN(completed_at), MAX(completed_at)
    FROM quiz_results WHERE user_id = $1: always one row. *)
Definition SELECT_overall (user_id : jsstring) (d : Db)
    : result (OverallRow * Db) :=
  let rows := results_of user_id d in
  Return
    ({| total_quizzes_taken := COUNT (remove_dups (map qr_quiz_id rows));
        total_attempts := COUNT rows;
        average_score :=
          default (float8_of_Z 0)
            (AVG (map percentage (row_order overall_sql [user_id] d rows)));
        highest_score := default 0%Z (MAX (map qr_score rows));
        first_attempt := MIN (map qr_completed_at rows);
        last_attempt := MAX (map qr_completed_at rows) |},
     d).

(** SELECT DISTINCT topic, difficulty FROM quizzes WHERE user_id = $1
    AND id IN (SELECT quiz_id FROM quiz_results WHERE user_id = $1);
    there is no ORDER BY. *)
Definition SELECT_topics (user_id : jsstring) (d : Db)
    : result (list object * Db) :=
  Return
    (map (fun row => [field "topic" (text (fst row));
                      field "difficulty" (VStr (snd row))])
       (row_order topics_sql [user_id] d
          (remove_dups
             (map (fun q => (q_topic q, q_difficulty q))
                (List.filter
                   (fun q =>
                      owned_by user_id q
                      && existsb (fun qr => (qr_quiz_id qr =? q_id q)%Z)
                           (results_of user_id d))
                   (quizzes d))))),
     d).

(** The monthly query: the months with a result, the latest first, at
    most twelve. *)
Definition SELECT_monthly (user_id : jsstring) (d : Db)
    : result (list (Z * list ResultRow) * Db) :=
  let rows := results_of user_id d in
  Return
    (map (fun month =>
            (month,
             row_order monthly_sql [user_id] d
               (List.filter
                  (fun qr =>
                     (date_trunc_month (qr_completed_at qr) =? month)%Z)
                  rows)))
       (take 12
          (merge_sort latest_first
             (remove_dups
                (map (fun qr => date_trunc_month (qr_completed_at qr))
                   rows)))),
     d).

Definition statistics : Request -> M Response :=
  simpleAuth (fun userId req =>
    _ ← connect;
    finally_release (tryCatch
      (quizResults ← statement overall_sql (SELECT_overall userId);
       quizzes ← statement topics_sql (SELECT_topics userId);
       monthlyStats ← statement monthly_sql (SELECT_monthly userId);
       let '(topics_attempted, difficulty_levels_attempted) :=
         processQuizStatistics quizzes in
       mret
         {| status := 200;
            json := VObj
              [field "status" (VStr "success");
               field "statistics" (VObj
                 [field "overall" (VObj
                    [field "total_quizzes_taken"
                       (number (parseInt
                          (or_ (Some (total_quizzes_taken quizResults))
                             (Some (VNum 0))) None));
                     field "total_attempts"
                       (number (parseInt
                          (or_ (Some (total_attempts quizResults))
                             (Some (VNum 0))) None));
                     field "average_score"
                       (VStr (toFixed2
                          (parseFloat
                             (or_zero (Some (average_score quizResults))))));
                     field "highest_score"
                       (number (parseInt
                          (or_ (Some (VNum (highest_score quizResults)))
                             (Some (VNum 0))) None));
                     field "first_attempt"
                       (timestamp toISOString (first_attempt quizResults));
                     field "last_attempt"
                       (timestamp toISOString (last_attempt quizResults));
                     field "topics_attempted" (VStr topics_attempted);
                     field "difficulty_levels_attempted"
                       (VStr difficulty_levels_attempted)]);
                  field "monthly_progress" (VArr (map
                    (fun stat =>
                       VObj
                         [field "month" (VStr (toISOString (fst stat)));
                          field "attempts"
                            (number (parseInt (Some (COUNT (snd stat)))
                                       None));
                          field "average_score"
                            (VStr (toFixed2
                               (parseFloat
                                  (AVG (map percentage (snd stat))))))])
                    monthlyStats))])] |})
      (fun error => mret (errorHandler error)))).
End Statistics.

(** ** GET /api/quizzes/:id *)

Section QuizDetails.
Context {L : Libraries}.

(** One element of attempt_history, as jsonb_build_object builds it. *)
Definition attempt_json (qr : ResultRow) : value :=
  VObj [field "id" (VNum (qr_id qr));
        field "score" (VNum (qr_score qr));
        field "total_questions" (VNum (qr_total_questions qr));
        field "time_taken" (VNum (qr_time_taken qr));
        field "completed_at" (VStr (timestamp_to_json (qr_completed_at qr)));
        field "user_answers" (qr_user_answers qr);
        field "attempt_date"
          (VStr (timestamp_to_json (qr_completed_at qr)))].

Definition latest_attempt_first (a b : ResultRow) : Prop :=
  (qr_completed_at b <= qr_completed_at a)%Z.

#[global] Instance latest_attempt_first_dec a b
    : Decision (latest_attempt_first a b) := Z_le_dec _ _.

Definition details_sql : string :=
  "WITH quiz_attempts AS (...) SELECT ... FROM quizzes q".

(** The rows of the details query: the quiz with this key and this
    owner, with the owner's results for the key, over which the
    aggregates are taken (the LEFT JOIN leaves them NULL when there is
    none), in the order PostgreSQL delivers them. *)
Definition SELECT_details (id user_id : jsstring) (d : Db)
    : result (list (QuizRow * list ResultRow) * Db) :=
  match int4in id with
  | None => Throw (DatabaseError "invalid input syntax for type integer")
  | Some key =>
      Return
        (map (fun q =>
                (q,
                 row_order details_sql [id; user_id] d
                   (List.filter
                      (fun qr =>
                         (qr_quiz_id qr =? key)%Z
                         && eqs (qr_user_id qr) user_id)
                      (quiz_results d))))
           (List.filter
              (fun q => (q_id q =? key)%Z && eqs (q_user_id q) user_id)
              (quizzes d)),
         d)
  end.

(** The callback of [quizDetails.questions.map]. *)
Definition detailQuestion (q : value) (_ : nat) : result value :=
  q ← props q "question";
  Return
    (VObj (literal
       [("question" : jsstring, get "question" q);
        ("options" : jsstring, or_ (get "options" q) (Some (VArr [])));
        ("correctAnswer" : jsstring, get "correctAnswer" q);
        ("explanation" : jsstring,
         or_ (get "explanation" q)
           (Some (VStr "No explanation provided")))])).

(** The callback of [attempt_history.map]. *)
Definition detailAttempt (attempt : value) : value :=
  match attempt with
  | VObj attempt =>
      VObj (set "time_taken"
              (number (parseInt (get "time_taken" attempt) None))
              (set "total_questions"
                 (number (parseInt (get "total_questions" attempt) None))
                 (set "score" (number (parseInt (get "score" attempt) None))
                    attempt)))
  | _ => attempt
  end.

Definition getQuizDetail_try (userId : jsstring) (req : Request)
    : M Response :=
  result ← statement details_sql (SELECT_details (params_id req) userId);
  match result with
  | [] =>
      mret {| status := 404;
              json := VObj [field "status" (VStr "error");
                            field "message" (VStr "Quiz not found")] |}
  | (quizDetails, attempts) :: _ =>
      questions ←
        lift match q_questions quizDetails with
             | VArr questions => forEach detailQuestion questions 0
             | _ => Throw (TypeError
                             "quizDetails.questions.map is not a function")
             end;
      mret
        {| status := 200;
           json := VObj
             [field "status" (VStr "success");
              field "quiz" (VObj
                [field "id" (VNum (q_id quizDetails));
                 field "topic" (text (q_topic quizDetails));
                 field "title" (VStr (q_title quizDetails));
                 field "difficulty" (VStr (q_difficulty quizDetails));
                 field "question_type"
                   (VStr (q_question_type quizDetails));
                 field "num_questions"
                   (VNum (q_num_questions quizDetails));
                 field "created_at"
                   (VStr (toISOString (q_created_at quizDetails)));
                 field "highest_score"
                   (number (parseInt
                      (Some (VNum (default 0%Z
                                     (MAX (map qr_score attempts)))))
                      None));
                 field "attempts_count"
                   (number (parseInt (Some (COUNT attempts)) None));
                 field "questions" (VArr questions);
                 field "attempt_history"
                   (VArr (map detailAttempt
                            (map attempt_json
                               (merge_sort latest_attempt_first
                                  attempts))))])] |}
  end.

Definition getQuizDetail : Request -> M Response :=
  simpleAuth (fun userId req =>
    _ ← connect;
    finally_release (tryCatch (getQuizDetail_try userId req)
      (fun error => mret (errorHandler error)))).
End QuizDetails.

(** ** An instance of the library routines, to evaluate the handlers

    Numerals are plain decimal, months last thirty days, a timestamp
    prints as its number and rows are delivered in the order of the
    table. *)

Definition decimal (s : jsstring) : option Z :=
  let s := trim s in
  let digits := match s with 45%N :: s' | 43%N :: s' => s' | _ => s end in
  if forallb (fun c => ((48 <=? c) && (c <=? 57))%N) digits
  then parseInt (Some (VStr s)) (Some 10%Z)
  else None.

Definition plain : Libraries := {|
  numberOfString := decimal;
  detailMessage := fun path type => path ++ ": " ++ type;
  date_trunc_month := fun t => (t - t mod 2592000)%Z;
  toISOString := NumberToString;
  timestamp_to_json := NumberToString;
  int4in := decimal;
  row_order := fun _ _ _ _ l => l;
  row_order_Permutation := fun _ _ _ _ l => Permutation_refl l
|}.

(** * More of the client: QuizGenerator.jsx *)

(** ** cleanResponseText

    The replacement of every match of /```json\n?|\n?```/g by the empty
    string: the text is scanned from left to right; at each position the
    first alternative is tried before the second, an optional line feed is
    taken when it is there, and a match is removed before the scan goes on
    behind it.  [skip] counts the code units of the current match that are
    still to be removed. *)
Fixpoint removeFences (skip : nat) (text : jsstring) : jsstring :=
  match text with
  | [] => []
  | c :: rest =>
      match skip with
      | S skip' => removeFences skip' rest
      | 0 =>
          if startsWith text "```json"
          then removeFences
                 (if startsWith (drop 7 text) [10%N] then 7 else 6) rest
          else if startsWith text (10%N :: str "```")
          then removeFences 3 rest
          else if startsWith text "```" then removeFences 2 rest
          else c :: removeFences 0 rest
      end
  end.

Definition cleanResponseText (text : jsstring) : jsstring :=
  trim (removeFences 0 text).

(** ** Answers and score

    [userAnswers] is an object keyed by the index of the question: the key
    of an index is its decimal numeral.  The object is only read by key,
    so the order of its properties does not matter. *)

Definition indexKey (index : nat) : jsstring :=
  NumberToString (Z.of_nat index).

(** [a === b].  Arrays and objects are equal only when they are the same
    object; an answer and a question never share one. *)
Definition strictEquals (a b : option value) : bool :=
  match a, b with
  | None, None => true
  | Some VNull, Some VNull => true
  | Some (VBool x), Some (VBool y) => Bool.eqb x y
  | Some (VNum x), Some (VNum y) => (x =? y)%Z
  | Some (VStr x), Some (VStr y) => eqs x y
  | _, _ => false
  end.

(** handleAnswerSelect: the new state of [userAnswers]. *)
Definition handleAnswerSelect (questionIndex : nat) (answer : option value)
    (userAnswers : object) : object :=
  match parseInt answer (Some 10%Z) with
  | Some numericAnswer =>
      set (indexKey questionIndex) (VNum numericAnswer) userAnswers
  | None => userAnswers
  end.

(** A loop that updates a local variable: [l.forEach] with a callback
    that assigns to it. *)
Fixpoint forEach_state {A St : Type} (f : St -> A -> nat -> result St)
    (l : list A) (index : nat) (s : St) : result St :=
  match l with
  | [] => Return s
  | x :: l' =>
      s' ← f s x index;
      forEach_state f l' (S index) s'
  end.

(** The callback of [quiz.forEach] in calculateScore, on the score so
    far. *)
Definition countAnswer (userAnswers : object) (score : nat)
    (question : value) (index : nat) : result nat :=
  let userAnswer := get (indexKey index) userAnswers in
  match userAnswer with
  | None | Some VNull => Return score
  | _ =>
      q ← props question "correctAnswer";
      Return (if strictEquals userAnswer (get "correctAnswer" q)
              then S score
              else score)
  end.

Definition calculateScore (quiz : list value) (userAnswers : object)
    : result nat :=
  forEach_state (countAnswer userAnswers) quiz 0 0.

(** The callback of [quiz.map] in submitQuiz. *)
Definition formatUserAnswer (userAnswers : object) (question : value)
    (index : nat) : result value :=
  let userAnswer := get (indexKey index) userAnswers in
  q ← props question "correctAnswer";
  let isCorrect := strictEquals userAnswer (get "correctAnswer" q) in
  Return (VObj (literal [("userAnswer" : jsstring, userAnswer);
                         ("isCorrect" : jsstring, Some (VBool isCorrect))])).

(** The callback of [quizData.answers.map] in submitQuiz; the elements are
    the objects the callback above has built, so that reading their
    properties does not throw. *)
Definition submittedAnswer (index : nat) (answer : value) : value :=
  VObj (literal
    [("questionIndex" : jsstring, Some (VNum (Z.of_nat index)));
     ("answer" : jsstring, arrow answer "userAnswer");
     ("correct" : jsstring, arrow answer "isCorrect")]).

(** submitQuiz up to the request: the body posted to /api/quiz-results.
    [None] is the return without a request when [quizId] is not set; an
    exception is caught by the [catch] clause, and no request is sent
    either. *)
Definition submitQuiz_body (quizId : option value) (quiz : list value)
    (userAnswers : object) : result (option object) :=
  if negb (truthy quizId) then Return None
  else
    rawScore ← calculateScore quiz userAnswers;
    formattedUserAnswers ← forEach (formatUserAnswer userAnswers) quiz 0;
    Return (Some (literal
      [("quizId" : jsstring, quizId);
       ("score" : jsstring, Some (VNum (Z.of_nat rawScore)));
       ("totalQuestions" : jsstring, Some (VNum (Z.of_nat (length quiz))));
       ("userAnswers" : jsstring,
        Some (VArr (imap submittedAnswer formattedUserAnswers)));
       ("timeTaken" : jsstring, Some (VNum 0))])).


Section GenerateQuiz.
Variable topic : jsstring.
Variable numQuestions : Z.
Variable difficulty : jsstring.
Variable questionType : jsstring.
Variable language : jsstring.

End GenerateQuiz.

(** ** exportQuiz: the name of the downloaded file

    [topic.replace(/\s+/g, "_")]: every maximal run of white space becomes
    one underscore. *)
Fixpoint replaceWhiteSpace (inRun : bool) (s : jsstring) : jsstring :=
  match s with
  | [] => []
  | c :: s' =>
      if isWhiteSpace c
      then if inRun then replaceWhiteSpace true s'
           else 95%N :: replaceWhiteSpace true s'
      else c :: replaceWhiteSpace false s'
  end.

Definition exportFileName (topic : jsstring) : jsstring :=
  "quiz_" ++ replaceWhiteSpace false topic ++ ".json".

(** * More of the backend: GET /health *)

Section Health.
Context {L : Libraries}.

Definition health (req : Request) : M Response :=
  tryCatch
    (time ← clock;
     dbCheck ← statement "SELECT NOW()" (fun d => Return (time, d));
     timestamp ← clock;
     mret
       {| status := 200;
          json := VObj
            [field "status" (VStr "ok");
             field "timestamp" (VStr (toISOString timestamp));
             field "database" (VObj
               [field "status" (VStr "connected");
                field "timestamp" (VStr (toISOString dbCheck))])] |})
    (fun error =>
       mret {| status := 503;
               json := VObj [field "status" (VStr "error");
                             field "message"
                               (VStr "Service unavailable")] |}).
End Health.

(** * The vocabulary of the specification *)




(** The number a request declares in a property, read as Joi reads it. *)
Definition declaredNumber `{L : Libraries} (x : option value) : option Z :=
  match x with
  | Some (VNum n) => Some n
  | Some (VStr (c :: s)) => numberOfString (c :: s)
  | _ => None
  end.

(** A submitted question that lacks two options. *)
Definition fewerThanTwoOptions (q : value) : Prop :=
  match q with
  | VObj o =>
      match get "options" o with
      | Some (VArr options) => length options < 2
      | _ => True
      end
  | _ => True
  end.

(** A request that carries both identity headers. *)
Definition authenticated (req : Request) (userId : jsstring) : Prop :=
  headers_user_id req = Some userId /\ userId <> []
  /\ exists username, headers_username req = Some username /\ username <> [].

(** Two questions with the same prompt, options, answer and explanation. *)
Definition sameQuestion (q q' : value) : Prop :=
  exists o o',
    q = VObj o /\ q' = VObj o'
    /\ get "question" o' = get "question" o
    /\ get "options" o' = get "options" o
    /\ get "correctAnswer" o' = get "correctAnswer" o
    /\ get "explanation" o' = get "explanation" o.

(** The next [n] statements sent on the connection do not fail. *)
Definition healthy (n : nat) (w : World) : Prop :=
  forall i, i < n -> faults w !! i <> Some true.

(** The member at a path of a JSON value. *)
Fixpoint at_path (path : list string) (v : value) : option value :=
  match path with
  | [] => Some v
  | k :: path' =>
      match arrow v k with
      | Some v' => at_path path' v'
      | None => None
      end
  end.

(** What GET /api/quizzes/:id returns for a submitted question: the
    prompt, options and answer as they are; the explanation when it is
    truthy (a string that is not empty), and a placeholder otherwise. *)
Definition returnedAs (q q' : value) : Prop :=
  exists o o',
    q = VObj o /\ q' = VObj o'
    /\ get "question" o' = get "question" o
    /\ get "options" o' = get "options" o
    /\ get "correctAnswer" o' = get "correctAnswer" o
    /\ get "explanation" o'
       = if truthy (get "explanation" o) then get "explanation" o
         else Some (VStr "No explanation provided").

(** The three tables of a store. *)
Definition tables (d : Db)
    : list QuizRow * list ResultRow * list HistoryRow :=
  (quizzes d, quiz_results d, quiz_history d).

(** A request that did not end with the answer 201: another answer, or an
    exception that left the handler. *)
Definition failed (r : result Response) : Prop :=
  forall response, r = Return response -> status response <> 201%Z.

(** The transaction both submission handlers run once the body is valid:
    the check that the quiz exists, then BEGIN, the INSERT and COMMIT. *)
Definition checkedInsert {A : Type} (quizId : Z) (sql : string)
    (insert : Z -> Db -> result (A * Db)) (respond : A -> Response)
    : M Response :=
  quizCheck ← statement "SELECT id FROM quizzes WHERE id = $1"
                (SELECT_quiz_id quizId);
  if length quizCheck =? 0
  then throw (ValidationError "Invalid quiz ID")
  else
    _ ← BEGIN;
    time ← clock;
    result ← statement sql (insert time);
    _ ← COMMIT;
    mret (respond result).

(** The number a sequence of decimal digits denotes, after the digits read
    so far. *)
Fixpoint digitsValue (d : Decimal.uint) (acc : Z) : Z :=
  match d with
  | Decimal.Nil => acc
  | Decimal.D0 l => digitsValue l (10 * acc + 0)
  | Decimal.D1 l => digitsValue l (10 * acc + 1)
  | Decimal.D2 l => digitsValue l (10 * acc + 2)
  | Decimal.D3 l => digitsValue l (10 * acc + 3)
  | Decimal.D4 l => digitsValue l (10 * acc + 4)
  | Decimal.D5 l => digitsValue l (10 * acc + 5)
  | Decimal.D6 l => digitsValue l (10 * acc + 6)
  | Decimal.D7 l => digitsValue l (10 * acc + 7)
  | Decimal.D8 l => digitsValue l (10 * acc + 8)
  | Decimal.D9 l => digitsValue l (10 * acc + 9)
  end.

(** ** The vocabulary of the further properties *)

(** The keys of a stored question. *)
Definition questionKeys : list jsstring :=
  ["question" : jsstring; "correctAnswer" : jsstring;
   "explanation" : jsstring; "options" : jsstring].

(** What a user can see of a store: the quizzes the user owns and the
    results the user recorded. *)
Definition visible_to (user_id : jsstring) (d : Db)
    : list QuizRow * list ResultRow :=
  (List.filter (owned_by user_id) (quizzes d), results_of user_id d).

(** Two results are alike when they are the same exception, or values
    that a relation relates. *)
Definition alike {A : Type} (R : A -> A -> Prop) (r1 r2 : result A) : Prop :=
  match r1, r2 with
  | Return a1, Return a2 => R a1 a2
  | Throw e1, Throw e2 => e1 = e2
  | _, _ => False
  end.

(** The rows of the details on two stores: the same quiz, with the same
    results up to their order, completed at pairwise distinct instants. *)
Definition same_details (x y : QuizRow * list ResultRow) : Prop :=
  fst x = fst y /\ snd x ≡ₚ snd y /\ NoDup (map qr_completed_at (snd x)).

(** The row of the overall statistics on two stores: the same but for the
    average. *)
Definition same_counts (x y : OverallRow) : Prop :=
  total_quizzes_taken x = total_quizzes_taken y
  /\ total_attempts x = total_attempts y
  /\ highest_score x = highest_score y
  /\ first_attempt x = first_attempt y
  /\ last_attempt x = last_attempt y.

(** The months on two stores: the same months, with as many results. *)
Definition same_months (x y : Z * list ResultRow) : Prop :=
  fst x = fst y /\ length (snd x) = length (snd y).

(** The members of the answer of the statistics that do not depend on the
    order in which PostgreSQL delivers rows: all but the averages and the
    lists of the topics and of the difficulty levels. *)
Definition countPaths : list (list string) :=
  [["status"]; ["message"];
   ["statistics"; "overall"; "total_quizzes_taken"];
   ["statistics"; "overall"; "total_attempts"];
   ["statistics"; "overall"; "highest_score"];
   ["statistics"; "overall"; "first_attempt"];
   ["statistics"; "overall"; "last_attempt"]]%string.

(** The months of monthly_progress with their numbers of attempts. *)
Definition monthlyAttempts (json : value)
    : option (list (option value * option value)) :=
  match at_path ["statistics"; "monthly_progress"]%string json with
  | Some (VArr entries) =>
      Some (map (fun entry =>
                   (at_path ["month"%string] entry,
                    at_path ["attempts"%string] entry))
              entries)
  | _ => None
  end.

(** A question as the normalizer leaves it: a prompt that is not blank,
    an answer that is an index, an explanation that is a string and, but
    for True/False, four trimmed options that are not empty and differ. *)
Definition normalQuestion (questionType : jsstring) (q : object) : Prop :=
  exists (s e : jsstring) (a : Z),
    get "question" q = Some (VStr s) /\ trim s <> []
    /\ get "correctAnswer" q = Some (VNum a)
    /\ get "explanation" q = Some (VStr e)
    /\ if eqs questionType "True/False"
       then (a = 0%Z \/ a = 1%Z) /\ get "options" q = None
            /\ trim s = s
            /\ (endsWith s "?" = true \/ endsWith s "." = true)
       else
         (0 <= a <= 3)%Z
         /\ exists options : list jsstring,
              get "options" q = Some (VArr (map VStr options))
              /\ length options = 4
              /\ map trim options = options
              /\ existsb isEmpty options = false
              /\ ES6Set.size (ES6Set.from options) = length options
              /\ (eqs questionType "Fill in the Blanks" = true ->
                  includes s "___" = true /\ countBlanks s <= 1).

(** A question as formatQuizQuestions builds it: the properties in the
    order of the assignments. *)
Definition formattedQuestion (question explanation : jsstring)
    (correctAnswer : Z) (options : list jsstring) : value :=
  VObj [("question" : jsstring, VStr question);
        ("explanation" : jsstring, VStr explanation);
        ("correctAnswer" : jsstring, VNum correctAnswer);
        ("options" : jsstring, VArr (map VStr options))].


(** The code unit of the backtick, and a text without it. *)
Definition backtick : N := 96.

Definition noBacktick (text : jsstring) : bool :=
  forallb (fun c => negb (c =? backtick)%N) text.

(** * Sample data *)

Definition emptyDb : Db :=
  {| quizzes := []; quiz_results := []; quiz_history := [];
     quizzes_id_seq := 0; quiz_results_id_seq := 0;
     quiz_history_id_seq := 0 |}.

(** A connection on a store, with no transaction open and no failure
    ahead. *)
Definition world (d : Db) : World :=
  {| db := d; tx := None; faults := []; now := 1700000000;
     statements := [] |}.

Definition request (userId id : string) (page limit : option string)
    (body : value) : Request :=
  {| headers_user_id := Some (str userId);
     headers_username := Some (str userId);
     params_id := id;
     query_page := (fun s => VStr (str s)) <$> page;
     query_limit := (fun s => VStr (str s)) <$> limit;
     body := body |}.

Definition sampleQuestion (explanation : string) : value :=
  VObj [field "question" (VStr "What is 2+2?");
        field "options" (VArr [VStr "3"; VStr "4"; VStr "5"; VStr "6"]);
        field "correctAnswer" (VNum 1);
        field "explanation" (VStr explanation)].

Definition sampleQuiz (numQuestions : Z) (questions : list value) : value :=
  VObj [field "title" (VStr "Sums Quiz");
        field "topic" (VStr "Sums");
        field "numQuestions" (VNum numQuestions);
        field "difficulty" (VStr "Easy");
        field "questionType" (VStr "MCQ");
        field "language" (VStr "english");
        field "questions" (VArr questions)].

Definition aliceQuiz (id : Z) : QuizRow :=
  {| q_id := id; q_user_id := "alice"; q_title := "Sums Quiz";
     q_topic := Some (str "Sums"); q_num_questions := 1;
     q_difficulty := "Easy"; q_question_type := "MCQ";
     q_language := "english";
     q_questions := VArr [sampleQuestion "2+2=4"];
     q_created_at := 1600000000 + id |}.

Definition aliceStore (n : nat) : Db :=
  {| quizzes := map (fun i => aliceQuiz (Z.of_nat i)) (seq 1 n);
     quiz_results := []; quiz_history := [];
     quizzes_id_seq := Z.of_nat n; quiz_results_id_seq := 0;
     quiz_history_id_seq := 0 |}.



Definition sampleResult (quizId : Z) : value :=
  VObj [field "quizId" (VNum quizId);
        field "score" (VNum 1);
        field "totalQuestions" (VNum 1);
        field "userAnswers"
          (VArr [VObj [field "questionIndex" (VNum 0);
                       field "answer" (VNum 1);
                       field "correct" (VBool true)]]);
        field "timeTaken" (VNum 0)].

(** * Properties *)

(** ** Objects *)

Lemma eqs_true (a b : jsstring) : eqs a b = true <-> a = b.
Proof. unfold eqs. apply bool_decide_eq_true. Qed.

Lemma eqs_false (a b : jsstring) : eqs a b = false <-> a <> b.
Proof. unfold eqs. apply bool_decide_eq_false. Qed.

Lemma eqs_refl (a : jsstring) : eqs a a = true.
Proof. by apply eqs_true. Qed.

Lemma get_set (k k' : jsstring) (v : value) (o : object) :
  get k' (set k v o) = if eqs k k' then Some v else get k' o.
Proof.
  induction o as [|[k0 v0] o IH]; simpl.
  - destruct (eqs k k'); reflexivity.
  - destruct (eqs k0 k) eqn:E0; simpl.
    + apply eqs_true in E0. subst k0.
      destruct (eqs k k'); reflexivity.
    + destruct (eqs k0 k') eqn:E1.
      * apply eqs_true in E1. subst k0.
        destruct (eqs k k') eqn:E2; [|reflexivity].
        apply eqs_true in E2. apply eqs_false in E0. congruence.
      * exact IH.
Qed.

Lemma get_delete (k k' : jsstring) (o : object) :
  get k' (delete k o) = if eqs k k' then None else get k' o.
Proof.
  induction o as [|[k0 v0] o IH]; simpl.
  - destruct (eqs k k'); reflexivity.
  - destruct (eqs k0 k) eqn:E0; simpl.
    + apply eqs_true in E0. subst k0. rewrite IH.
      destruct (eqs k k'); reflexivity.
    + destruct (eqs k0 k') eqn:E1.
      * apply eqs_true in E1. subst k0.
        destruct (eqs k k') eqn:E2; [|reflexivity].
        apply eqs_true in E2. apply eqs_false in E0. congruence.
      * exact IH.
Qed.

Ltac keys :=
  repeat first [rewrite get_set | rewrite get_delete];
  repeat match goal with
         | |- context [eqs (str ?a) (str ?b)] =>
             let r := eval vm_compute in (eqs (str a) (str b)) in
             change (eqs (str a) (str b)) with r
         end;
  cbv iota.


(** ** The normalizer on a True/False question *)

Lemma trim_nil_inv (s : jsstring) : trim s <> [] -> s <> [].
Proof. intros H ->. by apply H. Qed.

Lemma isEmpty_false (s : jsstring) : s <> [] -> isEmpty s = false.
Proof. by destruct s. Qed.



(** The first two checks of the callback pass on a question with a valid
    prompt and an answer that is not null. *)
Lemma common_checks (q : object) (s : jsstring) (v : value) :
  get "question" q = Some (VStr s) -> trim s <> [] ->
  get "correctAnswer" q = Some v -> v <> VNull ->
  negb (truthy (get "question" q))
  || negb (String.eqb (typeof (get "question" q)) "string")
  || isEmpty (trim (asString (get "question" q))) = false
  /\ match get "correctAnswer" q with
     | None | Some VNull => true
     | _ => false
     end = false.
Proof.
  intros Hq Hs Hv Hn. rewrite Hq, Hv. simpl.
  rewrite (isEmpty_false s) by (by apply trim_nil_inv).
  rewrite (isEmpty_false (trim s)) by done.
  split; [reflexivity|]. by destruct v.
Qed.

(** A conditional assignment to a property leaves the other properties as
    they are. *)
Lemma get_if_set (c : bool) (k k' : jsstring) (v : value) (o : object) :
  eqs k k' = false ->
  get k' (if c then set k v o else o) = get k' o.
Proof. intros H. destruct c; [|reflexivity]. by rewrite get_set, H. Qed.





(** ** Loops with a callback that may throw *)

Lemma bind_Return {A B : Type} (m : result A) (f : A -> result B) (b : B) :
  m ≫= f = Return b -> exists a, m = Return a /\ f a = Return b.
Proof. destruct m as [a|e]; [eauto|discriminate]. Qed.

Lemma forEach_Return {A B : Type} (f : A -> nat -> result B) (l : list A)
    (index : nat) (ys : list B) :
  forEach f l index = Return ys ->
  length ys = length l
  /\ forall k x, l !! k = Some x ->
       exists y, ys !! k = Some y /\ f x (index + k) = Return y.
Proof.
  revert index ys. induction l as [|x l IH]; intros index ys; simpl.
  - intros [= <-]. split; [reflexivity|]. intros k x; by rewrite lookup_nil.
  - intros H. apply bind_Return in H as (y & Hy & H).
    apply bind_Return in H as (ys' & Hys & [= <-]).
    destruct (IH _ _ Hys) as [Hlen Hk]. split; [simpl; by rewrite Hlen|].
    intros [|k] x'; simpl.
    + intros [= <-]. exists y. by rewrite Nat.add_0_r.
    + intros Hx. destruct (Hk k x' Hx) as (y' & ? & ?). exists y'.
      by replace (index + S k) with (S index + k) by lia.
Qed.

Lemma forEach_total {A B : Type} (f : A -> nat -> result B) (l : list A)
    (index : nat) :
  (forall k x, l !! k = Some x -> exists y, f x (index + k) = Return y) ->
  exists ys, forEach f l index = Return ys.
Proof.
  revert index. induction l as [|x l IH]; intros index H; simpl.
  - by eexists.
  - destruct (H 0 x eq_refl) as [y Hy]. rewrite Nat.add_0_r in Hy.
    rewrite Hy. simpl.
    destruct (IH (S index)) as [ys Hys].
    + intros k x' Hx. destruct (H (S k) x' Hx) as [y' ?]. exists y'.
      by replace (S index + k) with (index + S k) by lia.
    + rewrite Hys. by eexists.
Qed.

(** The loop throws what the first offending element throws. *)
Lemma forEach_first_Throw {A B : Type} (f : A -> nat -> result B)
    (l : list A) (index k : nat) (x : A) (e : exn) :
  l !! k = Some x ->
  f x (index + k) = Throw e ->
  (forall j x', j < k -> l !! j = Some x' ->
     exists y, f x' (index + j) = Return y) ->
  forEach f l index = Throw e.
Proof.
  revert index k. induction l as [|x0 l IH]; intros index k Hk He Hbefore.
  - by rewrite lookup_nil in Hk.
  - destruct k as [|k]; simpl in *.
    + injection Hk as ->. rewrite Nat.add_0_r in He. by rewrite He.
    + destruct (Hbefore 0 x0 (Nat.lt_0_succ k) eq_refl) as [y Hy].
      rewrite Nat.add_0_r in Hy. rewrite Hy. simpl.
      rewrite (IH (S index) k); [reflexivity|done| |].
      * by replace (S index + k) with (index + S k) by lia.
      * intros j x' Hj Hx'. destruct (Hbefore (S j) x') as [y' ?];
          [lia|done|]. exists y'.
        by replace (S index + j) with (index + S j) by lia.
Qed.

(** ** formatQuizQuestions after the normalizer, on True/False questions *)

Lemma boolValue_index (i : Z) :
  i = 0%Z \/ i = 1%Z ->
  (if boolValue (Some (VNum i)) then 0 else 1)%Z = (1 - i)%Z.
Proof. intros [-> | ->]; reflexivity. Qed.

Lemma format_negates (q : object) (index : nat) (i : Z) :
  get "correctAnswer" q = Some (VNum i) ->
  i = 0%Z \/ i = 1%Z ->
  exists fq,
    formatQuestion "True/False" (VObj q) index = Return (VObj fq)
    /\ get "correctAnswer" fq = Some (VNum (1 - i))
    /\ get "options" fq = Some (VArr [VStr "True"; VStr "False"]).
Proof.
  intros Hq Hi. unfold formatQuestion. simpl.
  change (eqs "True/False" "True/False") with true. cbv iota.
  eexists. split; [reflexivity|]. keys.
  split; [|reflexivity]. by rewrite Hq, boolValue_index.
Qed.

Lemma normalized_trueFalse_index (q q' : object) (index : nat) :
  validateQuestion "True/False" q index = Return q' ->
  exists i, get "correctAnswer" q' = Some (VNum i) /\ (i = 0%Z \/ i = 1%Z).
Proof.
  unfold validateQuestion.
  destruct (_ || _ || _); [discriminate|].
  destruct (match get "correctAnswer" q with
            | None | Some VNull => true | _ => false end); [discriminate|].
  change (eqs "True/False" "True/False") with true. cbv iota.
  intros [= <-]. rewrite get_if_set by reflexivity. keys.
  eexists. split; [reflexivity|].
  destruct (boolValue _); auto.
Qed.

(** C3: formatQuizQuestions turns the index [i] the normalizer gave a
    True/False question into [1 - i]; so the body that generateQuiz posts
    to the backend carries, for every question, the negation of the
    normalizer's answer index. *)
Theorem save_negates_trueFalse_index
    (topic difficulty language : jsstring) (n : Z) (data : value)
    (quizData : list value) (log : list exn) :
  validateAndParseQuizData n "True/False" data = (Some quizData, log) ->
  exists payload questions,
    generateQuiz_payload topic n difficulty "True/False" language data
    = Return payload
    /\ formatQuizQuestions (Some quizData) "True/False" = Return questions
    /\ get "questions" payload = Some (VArr questions)
    /\ length questions = length quizData
    /\ forall k q, quizData !! k = Some q ->
         exists o i fq,
           q = VObj o
           /\ get "correctAnswer" o = Some (VNum i)
           /\ (i = 0%Z \/ i = 1%Z)
           /\ questions !! k = Some (VObj fq)
           /\ get "correctAnswer" fq = Some (VNum (1 - i)).
Proof.
  intros Hv.
  assert (Hnorm : forall k q, quizData !! k = Some q ->
            exists o i, q = VObj o /\ get "correctAnswer" o = Some (VNum i)
                        /\ (i = 0%Z \/ i = 1%Z)).
  { unfold validateAndParseQuizData in Hv.
    destruct (validateAndParseQuizData_try n "True/False" data)
      as [qd|e] eqn:Htry; [|discriminate].
    injection Hv as -> _. unfold validateAndParseQuizData_try in Htry.
    destruct data as [| | | |items|]; try discriminate.
    destruct (negb _); [discriminate|].
    apply forEach_Return in Htry as [Hlen Hk].
    intros k q Hq.
    destruct (lookup_lt_is_Some_2 items k) as [x Hx].
    { rewrite <- Hlen. by eapply lookup_lt_Some. }
    destruct (Hk k x Hx) as (y & Hy & Hval). rewrite Hq in Hy.
    injection Hy as <-. unfold validateElement in Hval.
    apply bind_Return in Hval as (o & _ & Hval).
    destruct (validateQuestion "True/False" o (0 + k)) as [q'|] eqn:Hq';
      [|discriminate].
    injection Hval as <-.
    destruct (normalized_trueFalse_index _ _ _ Hq') as (i & ? & ?).
    by exists q', i. }
  destruct (forEach_total (formatQuestion "True/False") quizData 0)
    as [questions Hf].
  { intros k q Hq. destruct (Hnorm k q Hq) as (o & i & -> & Ho & Hi).
    destruct (format_negates o (0 + k) i Ho Hi) as (fq & ? & _). eauto. }
  exists [field "title" (VStr (topic ++ " Quiz")); field "topic" (VStr topic);
          field "numQuestions" (VNum n); field "difficulty" (VStr difficulty);
          field "questionType" (VStr "True/False");
          field "language" (VStr (toLowerCase language));
          field "questions" (VArr questions)], questions.
  unfold generateQuiz_payload, requestPayload. rewrite Hv. simpl.
  rewrite Hf. simpl.
  split; [reflexivity|]. split; [reflexivity|]. split; [reflexivity|].
  destruct (forEach_Return _ _ _ _ Hf) as [Hlen Hk].
  split; [exact Hlen|].
  intros k q Hq. destruct (Hnorm k q Hq) as (o & i & -> & Ho & Hi).
  destruct (Hk k _ Hq) as (y & Hy & Hfy).
  destruct (format_negates o (0 + k) i Ho Hi) as (fq & Hfq & Hans & _).
  rewrite Hfq in Hfy. injection Hfy as <-.
  by exists o, i, fq.
Qed.

Definition flatEarthAnswer : value :=
  VArr [VObj [field "question" (VStr "The Earth is flat");
              field "correctAnswer" (VBool false);
              field "explanation" (VStr "It is a sphere")]].

(** Witness of C3: the answer false is normalized to the index 1 and
    posted as the index 0. *)
Lemma save_negates_trueFalse_index_witness :
  validateAndParseQuizData 1 "True/False" flatEarthAnswer
  = (Some [VObj [field "question" (VStr "The Earth is flat.");
                 field "correctAnswer" (VNum 1);
                 field "explanation" (VStr "It is a sphere")]], [])
  /\ exists payload questions fq,
       generateQuiz_payload "Earth" 1 "Easy" "True/False" "english"
         flatEarthAnswer = Return payload
       /\ get "questions" payload = Some (VArr questions)
       /\ questions !! 0 = Some (VObj fq)
       /\ get "correctAnswer" fq = Some (VNum 0).
Proof.
  assert (H : validateAndParseQuizData 1 "True/False" flatEarthAnswer
              = (Some [VObj [field "question" (VStr "The Earth is flat.");
                             field "correctAnswer" (VNum 1);
                             field "explanation" (VStr "It is a sphere")]],
                 [])) by (vm_compute; reflexivity).
  split; [exact H|].
  destruct (save_negates_trueFalse_index "Earth" "Easy" "english" 1
              flatEarthAnswer _ [] H)
    as (payload & questions & Hp & _ & Hq & _ & Hk).
  destruct (Hk 0 _ eq_refl) as (o & i & fq & [= <-] & [= <-] & _ & Hfq & Ha).
  by exists payload, questions, fq.
Defined.

(** ** The set of strings *)





(** ** The blank marker *)



(** ** The normalizer on an MCQ or Fill in the Blanks question *)



Definition capitalOfFrance : object :=
  [field "question" (VStr "The capital of France is ___");
   field "options"
     (VArr [VStr "London"; VStr " Paris"; VStr "Berlin"; VStr "Madrid"]);
   field "correctAnswer" (VStr "1");
   field "explanation" (VStr "Paris is the capital of France")].


(** The example of the specification: a prompt with two blanks is
    rejected, with a message that names the question. *)
Example two_blanks_rejected :
  validateAndParseQuizData 1 "Fill in the Blanks"
    (VArr [VObj [field "question" (VStr "Capital of France is ___ and ___");
                 field "options"
                   (VArr [VStr "London"; VStr "Paris"; VStr "Berlin";
                          VStr "Madrid"]);
                 field "correctAnswer" (VNum 1)]])
  = (None, [Error "Question 1 should have only one blank (___)"]).
Proof. vm_compute. reflexivity. Qed.

(** ** A batch with an offending question *)

Lemma forEach_Throw {A B : Type} (f : A -> nat -> result B) (l : list A)
    (index : nat) (e : exn) :
  forEach f l index = Throw e ->
  exists k x,
    l !! k = Some x
    /\ f x (index + k) = Throw e
    /\ forall j x', j < k -> l !! j = Some x' ->
         exists y, f x' (index + j) = Return y.
Proof.
  revert index. induction l as [|x0 l IH]; intros index; simpl;
    [discriminate|].
  destruct (f x0 index) as [y|e0] eqn:H0; simpl.
  - destruct (forEach f l (S index)) as [ys|e1] eqn:H1; simpl;
      [discriminate|].
    intros [= ->]. destruct (IH _ H1) as (k & x & Hk & Hx & Hbefore).
    exists (S k), x. split; [exact Hk|]. split.
    + by replace (index + S k) with (S index + k) by lia.
    + intros [|j] x' Hj; simpl.
      * intros [= <-]. exists y. by rewrite Nat.add_0_r.
      * intros Hx'. destruct (Hbefore j x') as [y' ?]; [lia|done|].
        exists y'. by replace (index + S j) with (S index + j) by lia.
  - intros [= ->]. exists 0, x0. split; [reflexivity|]. split.
    + by rewrite Nat.add_0_r.
    + intros j x' Hj. lia.
Qed.

(** Every exception the callback throws on an object names the question:
    its message is the question number followed by the reason. *)
Lemma validateQuestion_Throw (questionType : jsstring) (q : object)
    (index : nat) (e : exn) :
  validateQuestion questionType q index = Throw e ->
  exists reason : string, e = questionError (index + 1) reason.
Proof.
  unfold validateQuestion.
  destruct (_ || _ || _); [intros [= <-]; eauto|].
  destruct (match get "correctAnswer" q with
            | None | Some VNull => true | _ => false end);
    [intros [= <-]; eauto|].
  destruct (eqs questionType "True/False"); [discriminate|].
  match goal with
  | |- context [if ?c then set ?k ?v q else q] =>
      set (E := if c then set k v q else q)
  end.
  clearbody E.
  destruct (get "options" E) as [[| | | |raw|]|];
    try (intros [= <-]; eauto).
  destruct (negb (length raw =? 4)); [intros [= <-]; eauto|].
  destruct (existsb isEmpty _); [intros [= <-]; eauto|].
  destruct (negb (_ =? _)); [intros [= <-]; eauto|].
  destruct (eqs questionType "Fill in the Blanks").
  - destruct (negb (includes _ _)); [intros [= <-]; eauto|].
    destruct (1 <? _); [intros [= <-]; eauto|]. simpl.
    destruct (parseInt _ _) as [answer|]; [|intros [= <-]; eauto].
    destruct (_ || _); [intros [= <-]; eauto|discriminate].
  - simpl.
    destruct (parseInt _ _) as [answer|]; [|intros [= <-]; eauto].
    destruct (_ || _); [intros [= <-]; eauto|discriminate].
Qed.

Lemma validateElement_object (questionType : jsstring) (q : object)
    (index : nat) :
  validateElement questionType (VObj q) index
  = VObj <$> validateQuestion questionType q index.
Proof. reflexivity. Qed.

(** What the callback throws on an element: reading the question of null
    is a TypeError, every other exception names the question. *)
Lemma validateElement_Throw (questionType : jsstring) (x : value)
    (index : nat) (e : exn) :
  validateElement questionType x index = Throw e ->
  match x with
  | VNull =>
      e = TypeError "Cannot read properties of null (reading 'question')"
  | _ => exists reason : string, e = questionError (index + 1) reason
  end.
Proof.
  unfold validateElement.
  destruct x as [| | | | |o]; cbn [props mbind result_bind];
    try (by intros [= <-]);
    (destruct (validateQuestion questionType _ index) as [r|e'] eqn:Hv;
     [discriminate|]; intros [= <-];
     exact (validateQuestion_Throw _ _ _ _ Hv)).
Qed.

(** C5, as amended: validateAndParseQuizData returns no failure value, it
    returns null and writes the exception it caught with console.error.
    For every parsed answer: when it is not an array of the configured
    number of elements, null is returned and the exception is the one of
    the array mismatch, which names no question, whatever the elements
    are.  When it is such an array and some element fails a check, null is
    returned, so that no question of the batch is emitted, and the
    exception is the one of the first failing element: a TypeError that
    names no question when that element is null, and otherwise an Error
    whose message is the number of the question, index + 1, followed by
    the reason.  When no element fails, the array of the questions is
    returned and nothing is written. *)
Theorem first_offender_fails_batch
    (numQuestions : Z) (questionType : jsstring) (data : value) :
  let answer := validateAndParseQuizData numQuestions questionType data in
  let mismatch := Error "Invalid quiz format - questions array mismatch" in
  match data with
  | VArr items =>
      if (Z.of_nat (length items) =? numQuestions)%Z
      then
        ((exists k x e,
            items !! k = Some x
            /\ validateElement questionType x k = Throw e) ->
         exists i x e,
           items !! i = Some x
           /\ (forall j x', j < i -> items !! j = Some x' ->
                 exists y, validateElement questionType x' j = Return y)
           /\ validateElement questionType x i = Throw e
           /\ answer = (None, [e])
           /\ match x with
              | VNull =>
                  e = TypeError
                        "Cannot read properties of null (reading 'question')"
              | _ =>
                  exists reason : string, e = questionError (i + 1) reason
              end)
        /\ ((forall k x, items !! k = Some x ->
               exists y, validateElement questionType x k = Return y) ->
            exists out,
              answer = (Some out, [])
              /\ length out = length items
              /\ forall k x, items !! k = Some x ->
                   exists y,
                     out !! k = Some y
                     /\ validateElement questionType x k = Return y)
      else answer = (None, [mismatch])
  | _ => answer = (None, [mismatch])
  end.
Proof.
  cbv zeta. destruct data as [| | | |items|]; try reflexivity.
  unfold validateAndParseQuizData, validateAndParseQuizData_try.
  destruct (Z.of_nat (length items) =? numQuestions)%Z; [|reflexivity].
  cbn [negb]. split.
  - intros (k & x & e & Hk & He).
    destruct (forEach (validateElement questionType) items 0)
      as [ys|e'] eqn:Hf.
    { apply forEach_Return in Hf as [_ Hf].
      destruct (Hf k x Hk) as (y & _ & Hy). cbn [Nat.add] in Hy.
      rewrite He in Hy. discriminate. }
    apply forEach_Throw in Hf as (i & xi & Hi & Hx & Hbefore).
    cbn [Nat.add] in Hx. exists i, xi, e'.
    split; [exact Hi|]. split; [exact Hbefore|]. split; [exact Hx|].
    split; [reflexivity|]. exact (validateElement_Throw _ _ _ _ Hx).
  - intros Hall.
    destruct (forEach_total (validateElement questionType) items 0 Hall)
      as [ys Hys].
    rewrite Hys. exists ys. split; [reflexivity|].
    exact (forEach_Return _ _ _ _ Hys).
Qed.

Definition twoBlanks : object :=
  [field "question" (VStr "Capital of France is ___ and ___");
   field "options"
     (VArr [VStr "London"; VStr "Paris"; VStr "Berlin"; VStr "Madrid"]);
   field "correctAnswer" (VNum 1)].

(** C5 as stated does not hold.  The second question of this batch fails
    the check of the blanks; with 5 questions configured the exception
    written is the one of the array mismatch, and a batch whose only
    element is null ends with a TypeError: neither names a question, and
    in both cases the value returned is null, not a failure. *)
Lemma mismatch_names_no_question :
  validateQuestion "Fill in the Blanks" twoBlanks 1
  = Throw (Error "Question 2 should have only one blank (___)")
  /\ validateAndParseQuizData 5 "Fill in the Blanks"
       (VArr (map VObj [capitalOfFrance; twoBlanks]))
     = (None, [Error "Invalid quiz format - questions array mismatch"])
  /\ validateAndParseQuizData 1 "Fill in the Blanks" (VArr [VNull])
     = (None,
        [TypeError "Cannot read properties of null (reading 'question')"]).
Proof. repeat split; vm_compute; reflexivity. Qed.

(** The amended C5 on a valid question followed by one with two blanks:
    the exception written names question 2. *)
Lemma first_offender_fails_batch_witness :
  exists i x e,
    [VObj capitalOfFrance; VObj twoBlanks] !! i = Some x
    /\ (forall j x', j < i ->
          [VObj capitalOfFrance; VObj twoBlanks] !! j = Some x' ->
          exists y, validateElement "Fill in the Blanks" x' j = Return y)
    /\ validateElement "Fill in the Blanks" x i = Throw e
    /\ validateAndParseQuizData 2 "Fill in the Blanks"
         (VArr [VObj capitalOfFrance; VObj twoBlanks]) = (None, [e])
    /\ match x with
       | VNull =>
           e = TypeError "Cannot read properties of null (reading 'question')"
       | _ => exists reason : string, e = questionError (i + 1) reason
       end.
Proof.
  apply (first_offender_fails_batch 2 "Fill in the Blanks"
           (VArr [VObj capitalOfFrance; VObj twoBlanks])).
  exists 1, (VObj twoBlanks),
    (Error "Question 2 should have only one blank (___)").
  split; [reflexivity|]. vm_compute. reflexivity.
Defined.

(** ** Joi: what a value that passes a schema looks like *)

Section JoiFacts.
Context {L : Libraries}.

Lemma app_nil_inv {A : Type} (l1 l2 : list A) :
  l1 ++ l2 = [] -> l1 = [] /\ l2 = [].
Proof. by destruct l1. Qed.

Lemma Joi_string_valid (trimmed : bool) (max : option nat)
    (path : jsstring) (v v' : value) :
  Joi_string trimmed max path v = ([], v') ->
  exists s, v = VStr s
            /\ v' = VStr (if trimmed then trim s else s)
            /\ (if trimmed then trim s else s) <> [].
Proof.
  unfold Joi_string. destruct v as [| | |s| |]; try discriminate.
  destruct (isEmpty _) eqn:He; [discriminate|].
  destruct (match max with Some n => _ | None => false end);
    [discriminate|].
  intros [= <-]. exists s. split; [reflexivity|]. split; [reflexivity|].
  intros Hs. by rewrite Hs in He.
Qed.

Lemma Joi_number_valid (min : option Z) (path : jsstring) (v v' : value) :
  Joi_number min path v = ([], v') ->
  exists n, declaredNumber (Some v) = Some n /\ v' = VNum n
            /\ match min with Some m => (m <= n)%Z | None => True end.
Proof.
  assert (Hc : forall n, checkInteger min path n = ([], v') ->
                 v' = VNum n
                 /\ match min with Some m => (m <= n)%Z | None => True end).
  { intros n. unfold checkInteger.
    destruct (_ <? _)%Z; [discriminate|].
    destruct min as [m|].
    - destruct (n <? m)%Z eqn:Hm; [discriminate|].
      intros [= <-]. split; [reflexivity|]. by apply Z.ltb_ge.
    - by intros [= <-]. }
  unfold Joi_number. destruct v as [| |n|[|c s]| |]; try discriminate.
  - intros H. destruct (Hc n H). by exists n.
  - simpl. destruct (numberOfString (c :: s)) as [n|]; [|discriminate].
    intros H. destruct (Hc n H). by exists n.
Qed.

(** The answer of a question passes unchanged. *)
Lemma answer_valid (path : jsstring) (v v' : value) :
  Joi_alternatives [Joi_string false None; Joi_number None; Joi_boolean]
    path v = ([], v') ->
  v' = v.
Proof.
  simpl. destruct v as [|b|n|[|c s]|l|o]; simpl; try discriminate.
  - by intros [= <-].
  - unfold checkInteger. destruct (_ <? _)%Z; simpl; [discriminate|].
    by intros [= <-].
  - by intros [= <-].
Qed.

Lemma validateItems_valid (items : rule) (path : jsstring)
    (l l' : list value) (index : nat) :
  validateItems items path l index = ([], l') ->
  Forall2 (fun v v' => exists p, items p v = ([], v')) l l'.
Proof.
  revert l' index. induction l as [|v l IH]; intros l' index; simpl.
  - intros [= <-]. constructor.
  - destruct (items _ v) as [e v'] eqn:Hv.
    destruct (validateItems items path l (S index)) as [es vs] eqn:Hl.
    intros [= He <-]. apply app_nil_inv in He as [-> ->].
    constructor; [eauto|]. by eapply IH.
Qed.

Lemma Joi_array_valid (items : rule) (min : nat) (path : jsstring)
    (v v' : value) :
  Joi_array items min path v = ([], v') ->
  exists l l', v = VArr l /\ v' = VArr l' /\ min <= length l
               /\ Forall2 (fun v v' => exists p, items p v = ([], v')) l l'.
Proof.
  unfold Joi_array. destruct v as [| | | |l|]; try discriminate.
  destruct (validateItems items path l 0) as [errors l'] eqn:Hl.
  intros [= He <-]. apply app_nil_inv in He as [-> He].
  exists l, l'. split; [reflexivity|]. split; [reflexivity|]. split.
  - destruct (length l <? min) eqn:Hm; [discriminate|].
    by apply Nat.ltb_ge.
  - by eapply validateItems_valid.
Qed.

(** An array of strings passes unchanged. *)
Lemma strings_valid (l l' : list value) :
  Forall2 (fun v v' => exists p, Joi_string false None p v = ([], v')) l l' ->
  l' = l.
Proof.
  induction 1 as [|v v' l l' [p Hv] _ IH]; [reflexivity|].
  apply Joi_string_valid in Hv as (s & -> & -> & _). by rewrite IH.
Qed.

Lemma get_literal_cons (k k' : jsstring) (x : option value)
    (kept : list (jsstring * option value)) :
  get k (literal ((k', x) :: kept))
  = if eqs k' k
    then match x with Some v => Some v | None => get k (literal kept) end
    else get k (literal kept).
Proof. destruct x as [v|]; simpl; by destruct (eqs k' k). Qed.
End JoiFacts.

Ltac literal_keys :=
  repeat rewrite get_literal_cons;
  repeat match goal with
         | |- context [eqs (str ?a) (str ?b)] =>
             let r := eval vm_compute in (eqs (str a) (str b)) in
             change (eqs (str a) (str b)) with r
         end;
  cbv iota; cbn [literal get].

Section SchemaFacts.
Context {L : Libraries}.

Lemma required_valid (r : rule) (path : jsstring) (x x' : option value) :
  required r path x = ([], x') ->
  exists v v', x = Some v /\ x' = Some v' /\ r path v = ([], v').
Proof.
  unfold required. destruct x as [v|]; [|discriminate].
  destruct (r path v) as [e v'] eqn:Hr. intros [= -> <-]. eauto.
Qed.

Lemma optional_valid (r : rule) (path : jsstring) (x x' : option value) :
  optional r path x = ([], x') ->
  (x = None /\ x' = None)
  \/ exists v v', x = Some v /\ x' = Some v' /\ r path v = ([], v').
Proof.
  unfold optional. destruct x as [v|]; [|intros [= <-]; by left].
  destruct (r path v) as [e v'] eqn:Hr. intros [= -> <-]. right. eauto.
Qed.

Lemma explanation_valid (path : jsstring) (v v' : value) :
  Joi_allow [VStr ""; VNull] (Joi_string false None) path v = ([], v') ->
  v' = v.
Proof.
  unfold Joi_allow. destruct (existsb _ _); [by intros [= <-]|].
  intros H. by apply Joi_string_valid in H as (s & -> & -> & _).
Qed.

(** A question that passes the schema: its four properties are kept as
    they were sent, and it has at least two options. *)
Lemma questionSchema_valid (path : jsstring) (v v' : value) :
  questionSchema true path v = ([], v') ->
  sameQuestion v v' /\ ~ fewerThanTwoOptions v.
Proof.
  unfold questionSchema, Joi_object.
  destruct v as [| | | | |o]; try discriminate.
  cbn [validateKeys].
  repeat match goal with
         | |- context [required ?r ?p (get ?k o)] =>
             destruct (required r p (get k o)) as [? ?] eqn:?
         | |- context [optional ?r ?p (get ?k o)] =>
             destruct (optional r p (get k o)) as [? ?] eqn:?
         end.
  intros [= He <-]. rewrite !app_nil_r in He.
  repeat match goal with
         | H : _ ++ _ = [] |- _ => apply app_nil_inv in H as [-> H]
         end.
  subst.
  repeat match goal with
         | H : required _ _ _ = _ |- _ =>
             apply required_valid in H as (? & ? & ? & -> & H)
         end.
  match goal with
  | H : Joi_string _ _ _ _ = _ |- _ =>
      apply Joi_string_valid in H as (s & -> & -> & _)
  end.
  match goal with
  | H : Joi_alternatives _ _ _ = _ |- _ => apply answer_valid in H as ->
  end.
  match goal with
  | H : Joi_array _ _ _ _ = _ |- _ =>
      apply Joi_array_valid in H as (l & l' & -> & -> & Hmin & Hl);
      apply strings_valid in Hl as ->
  end.
  split.
  - exists o. eexists. split; [reflexivity|]. split; [reflexivity|].
    match goal with
    | H : optional _ _ _ = _ |- _ =>
        apply optional_valid in H
          as [[He' ->]|(? & ? & He' & -> & H%explanation_valid)]; subst
    end; cbn [get]; keys; by repeat split.
  - unfold fewerThanTwoOptions.
    match goal with H : get _ o = Some (VArr _) |- _ => rewrite H end. lia.
Qed.
End SchemaFacts.

Section QuizSchemaFacts.
Context {L : Libraries}.

Lemma questions_valid (l l' : list value) :
  Forall2 (fun v v' => exists p, questionSchema true p v = ([], v')) l l' ->
  Forall2 sameQuestion l l' /\ Forall (fun q => ~ fewerThanTwoOptions q) l.
Proof.
  induction 1 as [|v v' l l' [p Hv] _ [IH1 IH2]].
  - split; constructor.
  - apply questionSchema_valid in Hv as [Hs Hn].
    split; by constructor.
Qed.

(** A body that passes quizSchema: the declared number and the questions
    of the converted value. *)
Lemma quizSchema_valid (body : value) (converted : option value) :
  validate (quizSchema true) body = ([], converted) ->
  exists o v n qs qs',
    body = VObj o /\ converted = Some (VObj v)
    /\ declaredNumber (get "numQuestions" o) = Some n
    /\ get "numQuestions" v = Some (VNum n)
    /\ get "questions" o = Some (VArr qs)
    /\ get "questions" v = Some (VArr qs')
    /\ 1 <= length qs
    /\ Forall2 sameQuestion qs qs'
    /\ Forall (fun q => ~ fewerThanTwoOptions q) qs.
Proof.
  unfold validate, quizSchema. intros H.
  apply required_valid in H as (v0 & v1 & [= <-] & -> & H).
  unfold Joi_object in H. destruct body as [| | | | |o]; try discriminate.
  cbn [validateKeys] in H.
  repeat match type of H with
         | context [required ?r ?p (get ?k o)] =>
             destruct (required r p (get k o)) as [? ?] eqn:?
         | context [optional ?r ?p (get ?k o)] =>
             destruct (optional r p (get k o)) as [? o5] eqn:?
         | context [default_ ?d ?r ?p (get ?k o)] =>
             destruct (default_ d r p (get k o)) as [? o6] eqn:?
         end.
  injection H as He <-. rewrite !app_nil_r in He.
  repeat match goal with
         | H : _ ++ _ = [] |- _ => apply app_nil_inv in H as [-> H]
         end.
  subst.
  repeat match goal with
         | H : required _ _ _ = _ |- _ =>
             apply required_valid in H as (? & ? & ? & -> & H)
         end.
  match goal with
  | H : Joi_number _ _ _ = _ |- _ =>
      apply Joi_number_valid in H as (n & Hn & -> & _)
  end.
  match goal with
  | H : Joi_array _ _ _ _ = _ |- _ =>
      apply Joi_array_valid in H as (qs & qs' & -> & -> & Hmin & Hqs);
      apply questions_valid in Hqs as [Hsame Htwo]
  end.
  exists o. eexists. exists n, qs, qs'.
  split; [reflexivity|]. split; [reflexivity|].
  split; [by match goal with H : get _ o = Some _ |- _ =>
               rewrite H in Hn || rewrite H end|].
  split; [destruct o5, o6; cbn [get]; keys; reflexivity|].
  split; [done|].
  split; [destruct o5, o6; cbn [get]; keys; reflexivity|].
  done.
Qed.
End QuizSchemaFacts.

(** ** POST /api/quizzes *)

Section CreateQuizFacts.
Context {L : Libraries}.

Lemma simpleAuth_authenticated (handler : jsstring -> Request -> M Response)
    (req : Request) (userId : jsstring) :
  authenticated req userId ->
  simpleAuth handler req = handler userId req.
Proof.
  intros (Hu & Hne & username & Hn & Hnne). unfold simpleAuth.
  rewrite Hu, Hn. destruct userId; [done|]. by destruct username.
Qed.

Lemma Forall2_sameQuestion_length (qs qs' : list value) :
  Forall2 sameQuestion qs qs' -> length qs' = length qs.
Proof. intros H. symmetry. by eapply Forall2_length. Qed.

(** C7: createQuiz answers 400 and sends no statement to the database,
    so that nothing is inserted, whenever the number the request declares
    in numQuestions is not the length of the submitted questions array,
    or a submitted question has fewer than two options (whatever the
    question type). *)
Theorem createQuiz_rejects
    (req : Request) (userId : jsstring) (w : World) (o : object)
    (qs : list value) :
  authenticated req userId ->
  body req = VObj o ->
  get "questions" o = Some (VArr qs) ->
  declaredNumber (get "numQuestions" o) <> Some (Z.of_nat (length qs))
  \/ Exists fewerThanTwoOptions qs ->
  exists response,
    createQuiz req w = (Return response, w)
    /\ status response = 400%Z.
Proof.
  intros Hauth Hbody Hqs Hbad.
  unfold createQuiz. rewrite (simpleAuth_authenticated _ _ _ Hauth).
  unfold tryCatch, createQuiz_try. rewrite Hbody.
  match goal with
  | |- context [validate (quizSchema true) ?b] =>
      destruct (validate (quizSchema true) b) as [error value] eqn:Hval
  end.
  destruct error as [|d error]; cbn [length Nat.eqb negb];
    [|eexists; split; reflexivity].
  apply quizSchema_valid in Hval
    as (o' & v & n & qs0 & qs' & [= <-] & -> & Hn & Hvn & Hqs0 & Hvq
        & Hmin & Hsame & Htwo).
  rewrite get_if_set in Hn, Hqs0 by reflexivity.
  rewrite Hqs in Hqs0. injection Hqs0 as <-.
  destruct Hbad as [Hbad|Hbad].
  - cbn [asObject]. rewrite Hvq, Hvn. cbn [asNumber].
    rewrite (Forall2_sameQuestion_length _ _ Hsame).
    destruct (length qs =? 0); [eexists; split; reflexivity|].
    destruct (n =? Z.of_nat (length qs))%Z eqn:Heq.
    + apply Z.eqb_eq in Heq. congruence.
    + eexists. split; reflexivity.
  - exfalso. apply Exists_exists in Hbad as (q & Hin & Hq).
    rewrite Forall_forall in Htwo. by apply (Htwo q).
Qed.
End CreateQuizFacts.

(** ** Statements on the connection *)

Lemma healthy_S (n : nat) (w w' : World) :
  healthy (S n) w -> faults w' = tail (faults w) -> healthy n w'.
Proof.
  intros H Hw i Hi. rewrite Hw, lookup_tail. apply H. lia.
Qed.

Lemma healthy_head (n : nat) (w : World) :
  healthy (S n) w ->
  match faults w with true :: _ => False | _ => True end.
Proof.
  intros H. destruct (faults w) as [|[] fs] eqn:Hf; [done| |done].
  apply (H 0); [lia|]. by rewrite Hf.
Qed.

(** A statement that does not fail, outside a transaction. *)
Lemma statement_healthy {A : Type} (sql : string)
    (run : Db -> result (A * Db)) (n : nat) (w : World) :
  healthy (S n) w -> tx w = None ->
  exists w',
    statement sql run w
    = (match run (db w) with
       | Return (a, _) => Return a
       | Throw e => Throw e
       end, w')
    /\ db w' = match run (db w) with
               | Return (_, d) => d
               | Throw _ => db w
               end
    /\ tx w' = None /\ healthy n w' /\ now w' = now w.
Proof.
  intros H Htx. pose proof (healthy_head _ _ H) as Hh.
  unfold statement, current. rewrite Htx. simpl.
  destruct (faults w) as [|[] fs] eqn:Hf; [|done|].
  - destruct (run (db w)) as [[a d]|e]; eexists; (split; [reflexivity|]);
      simpl; repeat split; try done; eapply healthy_S; eauto; by rewrite Hf.
  - destruct (run (db w)) as [[a d]|e]; eexists; (split; [reflexivity|]);
      simpl; repeat split; try done; eapply healthy_S; eauto; by rewrite Hf.
Qed.

Lemma connect_healthy (n : nat) (w : World) :
  healthy (S n) w ->
  exists w',
    connect w = (Return (), w')
    /\ db w' = db w /\ tx w' = tx w /\ healthy n w' /\ now w' = now w.
Proof.
  intros H. pose proof (healthy_head _ _ H) as Hh.
  unfold connect, control.
  destruct (faults w) as [|[] fs] eqn:Hf; [|done|];
    eexists; (split; [reflexivity|]); simpl; repeat split; try done;
    eapply healthy_S; eauto; by rewrite Hf.
Qed.

(** Whatever a statement does, the committed state changes only outside a
    transaction. *)
Lemma statement_in_tx {A : Type} (sql : string)
    (run : Db -> result (A * Db)) (w w' : World) (r : result A) (d : Db) :
  statement sql run w = (r, w') -> tx w = Some d ->
  db w' = db w /\ exists d', tx w' = Some d'.
Proof.
  unfold statement. intros H Htx. rewrite Htx in H.
  destruct (faults w) as [|[] fs]; simpl in H;
    repeat match type of H with
           | context [match ?x with _ => _ end] => destruct x
           end;
    injection H as <- <-; simpl; rewrite ?Htx; eauto.
Qed.

Ltac run_monad :=
  cbv beta iota
    delta [throw mret M_ret mbind M_bind lift clock tryCatch finally_release].

Lemma statement_Return {A : Type} (sql : string)
    (run : Db -> result (A * Db)) (w w' : World) (a : A) :
  statement sql run w = (Return a, w') -> tx w = None ->
  exists d, run (db w) = Return (a, d) /\ db w' = d /\ tx w' = None.
Proof.
  unfold statement, current. intros H Htx. rewrite Htx in H. simpl in H.
  destruct (faults w) as [|[] fs]; try discriminate;
    destruct (run (db w)) as [[a' d]|e]; try discriminate;
    injection H as <- <-; by exists d.
Qed.

Lemma INSERT_quiz_Return (created_at : Z) (user_id title : jsstring)
    (topic : option jsstring) (num_questions : Z)
    (difficulty question_type : jsstring) (questions : value)
    (language : jsstring) (d d' : Db) (row : QuizRow) :
  INSERT_quiz created_at user_id title topic num_questions difficulty
    question_type questions language d = Return (row, d') ->
  quizzes d' = quizzes d ++ [row]
  /\ quiz_results d' = quiz_results d
  /\ q_user_id row = user_id
  /\ q_questions row = questions
  /\ forall q, q ∈ quizzes d -> q_id q <> q_id row.
Proof.
  unfold INSERT_quiz.
  destruct (existsb _ (quizzes d)) eqn:Hex; [discriminate|].
  intros [= <- <-]. simpl. repeat split.
  intros q Hq Hid. apply not_true_iff_false in Hex. apply Hex.
  apply existsb_exists. exists q. split; [by apply list_elem_of_In|].
  by apply Z.eqb_eq.
Qed.

Section RoundTrip.
Context {L : Libraries}.

(** What a 201 answer of createQuiz means for the store. *)
Lemma createQuiz_created (req : Request) (userId : jsstring)
    (w w1 : World) (response : Response) :
  authenticated req userId -> tx w = None ->
  createQuiz req w = (Return response, w1) ->
  status response = 201%Z ->
  exists o qs qs' row,
    body req = VObj o
    /\ get "questions" o = Some (VArr qs)
    /\ Forall2 sameQuestion qs qs'
    /\ quizzes (db w1) = quizzes (db w) ++ [row]
    /\ quiz_results (db w1) = quiz_results (db w)
    /\ q_user_id row = userId
    /\ q_questions row = VArr qs'
    /\ (forall q, q ∈ quizzes (db w) -> q_id q <> q_id row)
    /\ at_path ["quiz"; "id"] (json response) = Some (VNum (q_id row))
    /\ Forall (fun q => ~ fewerThanTwoOptions q) qs.
Proof.
  intros Hauth Htx. unfold createQuiz.
  rewrite (simpleAuth_authenticated _ _ _ Hauth).
  unfold createQuiz_try.
  match goal with
  | |- context [validate (quizSchema true) ?b] =>
      destruct (validate (quizSchema true) b) as [error value] eqn:Hval
  end.
  destruct error as [|d error]; cbn [length Nat.eqb negb]; run_monad;
    [|intros [= <- <-]; discriminate].
  apply quizSchema_valid in Hval
    as (o' & v & n & qs & qs' & Hbody & -> & Hn & Hvn & Hqs & Hvq
        & Hmin & Hsame & Htwo).
  destruct (body req) as [| | | | |o] eqn:Hreq; try discriminate.
  injection Hbody as <-. rewrite get_if_set in Hqs by reflexivity.
  cbn [asObject]. rewrite Hvq, Hvn. cbn [asNumber].
  destruct (length qs' =? 0); run_monad;
    [intros [= <- <-]; discriminate|].
  destruct (n =? Z.of_nat (length qs'))%Z; cbn [negb]; run_monad;
    [|intros [= <- <-]; discriminate].
  destruct (forEach _ qs' 0) as [u|e]; run_monad;
    [|destruct e; intros [= <- <-]; discriminate].
  match goal with
  | |- context [statement ?sql ?run w] =>
      destruct (statement sql run w) as [[row|e] w'] eqn:Hst
  end; run_monad; [|destruct e; intros [= <- <-]; discriminate].
  apply statement_Return in Hst as (d' & Hins & <- & _); [|done].
  apply INSERT_quiz_Return in Hins as (Hq & Hr & Hu & Hquestions & Hnew).
  intros [= <- <-] _.
  exists o, qs, qs', row. by repeat split.
Qed.

Lemma detailQuestions (qs qs' : list value) (index : nat) :
  Forall2 sameQuestion qs qs' ->
  Forall (fun q => ~ fewerThanTwoOptions q) qs ->
  exists questions,
    forEach detailQuestion qs' index = Return questions
    /\ Forall2 returnedAs qs questions.
Proof.
  intros H. revert index.
  induction H as [|q q' qs qs' Hq _ IH]; intros index Htwo.
  - exists []. split; [reflexivity|constructor].
  - apply Forall_cons in Htwo as [Hq2 Htwo].
    destruct (IH (S index) Htwo) as (questions & Hf & Hr).
    destruct Hq as (o & o' & -> & -> & Hquestion & Hoptions & Hanswer
                    & Hexplanation).
    eexists. cbn [forEach]. rewrite Hf. split; [reflexivity|].
    constructor; [|exact Hr].
    exists o. eexists. split; [reflexivity|]. split; [reflexivity|].
    unfold fewerThanTwoOptions in Hq2.
    destruct (get "options" o) as [[| | | |options|]|] eqn:Ho;
      try (exfalso; by apply Hq2).
    rewrite Hquestion, Hoptions, Hanswer, Hexplanation.
    unfold or_. cbn [truthy].
    destruct (get "question" o), (get "correctAnswer" o),
      (truthy (get "explanation" o)) eqn:Ht;
      try (destruct (get "explanation" o); [|discriminate]);
      cbn [literal get]; keys; by repeat split.
Qed.

Lemma filter_other_keys (id : Z) (user_id : jsstring) (l : list QuizRow) :
  (forall q, q ∈ l -> q_id q <> id) ->
  List.filter (fun q => (q_id q =? id)%Z && eqs (q_user_id q) user_id) l
  = [].
Proof.
  induction l as [|q l IH]; intros H; [reflexivity|]. simpl.
  destruct (q_id q =? id)%Z eqn:Hid.
  - apply Z.eqb_eq in Hid. exfalso. apply (H q); [left|done].
  - simpl. apply IH. intros q' Hq'. apply H. by right.
Qed.

(** C6, as amended: after a 201 answer of createQuiz, getQuizDetail by
    the same owner for the key of the answer returns as many questions as
    were submitted, in the same order, each with the prompt, options and
    answer that were submitted; the explanation is the submitted one only
    when that is a non-empty string, and is the text No explanation
    provided when it was absent, null or empty. *)
Theorem created_quiz_detail
    (req : Request) (userId : jsstring) (w w1 : World)
    (response : Response) :
  authenticated req userId -> tx w = None ->
  createQuiz req w = (Return response, w1) ->
  status response = 201%Z ->
  exists o qs id,
    body req = VObj o
    /\ get "questions" o = Some (VArr qs)
    /\ at_path ["quiz"; "id"] (json response) = Some (VNum id)
    /\ forall req' w2,
         authenticated req' userId ->
         int4in (params_id req') = Some id ->
         db w2 = db w1 -> tx w2 = None -> healthy 2 w2 ->
         exists response' w3 questions,
           getQuizDetail req' w2 = (Return response', w3)
           /\ status response' = 200%Z
           /\ at_path ["quiz"; "questions"] (json response')
              = Some (VArr questions)
           /\ Forall2 returnedAs qs questions.
Proof.
  intros Hauth Htx Hcreate Hstatus.
  destruct (createQuiz_created _ _ _ _ _ Hauth Htx Hcreate Hstatus)
    as (o & qs & qs' & row & Hbody & Hqs & Hsame & Hquizzes & _ & Huser
        & Hquestions & Hnew & Hid & Htwo).
  exists o, qs, (q_id row). split; [exact Hbody|]. split; [exact Hqs|].
  split; [exact Hid|].
  intros req' w2 Hauth' Hparam Hdb Htx2 Hhealthy.
  destruct (detailQuestions qs qs' 0 Hsame Htwo) as (questions & Hf & Hr).
  unfold getQuizDetail. rewrite (simpleAuth_authenticated _ _ _ Hauth').
  destruct (connect_healthy 1 w2 Hhealthy)
    as (wc & Hc & Hdbc & Htxc & Hhc & _).
  run_monad. rewrite Hc. unfold getQuizDetail_try. run_monad.
  destruct (statement_healthy
              details_sql
              (SELECT_details (params_id req') userId) 0 wc Hhc)
    as (ws & Hs & _); [congruence|].
  rewrite Hs. unfold SELECT_details. rewrite Hparam, Hdbc, Hdb, Hquizzes.
  rewrite List.filter_app, filter_other_keys by exact Hnew.
  cbn [List.filter app]. rewrite Z.eqb_refl, Huser, eqs_refl.
  cbn [andb map]. rewrite Hquestions. rewrite Hf.
  do 3 eexists. split; [reflexivity|]. split; [reflexivity|].
  split; [reflexivity|exact Hr].
Qed.
End RoundTrip.

(** ** POST /api/quiz-results and POST /api/quiz-history *)

Lemma control_cases (sql : string) (change : World -> Db * option Db)
    (w w' : World) (r : result ()) :
  control sql change w = (r, w') ->
  now w' = now w
  /\ ((r = Throw failure /\ db w' = db w /\ tx w' = tx w)
      \/ (r = Return () /\ db w' = fst (change w) /\ tx w' = snd (change w))).
Proof.
  unfold control. destruct (faults w) as [|[] fs]; intros [= <- <-]; simpl;
    (split; [reflexivity|]); auto.
Qed.

Lemma statement_cases {A : Type} (sql : string)
    (run : Db -> result (A * Db)) (w w' : World) (r : result A) :
  statement sql run w = (r, w') ->
  now w' = now w
  /\ ((exists e, r = Throw e /\ db w' = db w /\ tx w' = tx w)
      \/ (exists a d,
            r = Return a /\ run (current w) = Return (a, d)
            /\ db w' = match tx w with Some _ => db w | None => d end
            /\ tx w' = match tx w with Some _ => Some d | None => None end)).
Proof.
  unfold statement.
  destruct (faults w) as [|[] fs];
    try (intros [= <- <-]; simpl; split; [reflexivity|]; left; eauto);
    destruct (run (current w)) as [[a d]|e] eqn:Hrun;
    intros [= <- <-]; simpl; (split; [reflexivity|]); eauto 10.
Qed.

Lemma SELECT_quiz_id_Return (id : Z) (d d' : Db) (rows : list Z) :
  SELECT_quiz_id id d = Return (rows, d') ->
  d' = d /\ ((length rows =? 0) = false -> references_quiz id d = true).
Proof.
  unfold SELECT_quiz_id, references_quiz.
  destruct (List.filter _ (quizzes d)) as [|q found] eqn:Hf.
  - destruct (int4 id); [|discriminate]. intros [= <- <-].
    split; [reflexivity|discriminate].
  - intros [= <- <-]. split; [reflexivity|]. intros _.
    apply existsb_exists. exists q.
    apply (filter_In (fun q => (q_id q =? id)%Z)). rewrite Hf. by left.
Qed.

(** The transaction either commits the row the INSERT made, or leaves the
    committed state as it was. *)
Lemma checkedInsert_cases {A : Type} (quizId : Z) (sql : string)
    (insert : Z -> Db -> result (A * Db)) (respond : A -> Response)
    (w w' : World) (r : result Response) :
  checkedInsert quizId sql insert respond w = (r, w') ->
  (exists e, r = Throw e /\ db w' = db w)
  \/ (exists a d,
        r = Return (respond a)
        /\ references_quiz quizId (current w) = true
        /\ insert (now w) (current w) = Return (a, d)
        /\ db w' = d /\ tx w' = None).
Proof.
  unfold checkedInsert. run_monad.
  destruct (statement _ (SELECT_quiz_id quizId) w) as [[rows|e] w1] eqn:H1;
    apply statement_cases in H1 as [Hnow1 H1];
    destruct H1 as [(e1 & [= ] & Hdb1 & Htx1)
                   |(a1 & d1 & [= ] & Hrun1 & Hdb1 & Htx1)]; subst;
    [|intros [= <- <-]; left; eauto].
  apply SELECT_quiz_id_Return in Hrun1 as [-> Hfound].
  assert (Hcur1 : current w1 = current w /\ db w1 = db w).
  { unfold current in *. rewrite Hdb1, Htx1. by destruct (tx w). }
  destruct Hcur1 as [Hcur1 Hdb1'].
  destruct (length a1 =? 0) eqn:Hlen; [intros [= <- <-]; left; eauto|].
  destruct (BEGIN w1) as [[[]|e] w2] eqn:H2;
    apply control_cases in H2 as [Hnow2 H2];
    destruct H2 as [([= ] & Hdb2 & Htx2)|([= ] & Hdb2 & Htx2)]; subst;
    [|intros [= <- <-]; left; exists failure; split; [done|congruence]].
  simpl in Hdb2, Htx2.
  destruct (statement sql (insert (now w2)) w2) as [[a|e] w3] eqn:H3;
    apply statement_cases in H3 as [Hnow3 H3];
    destruct H3 as [(e3 & [= ] & Hdb3 & Htx3)
                   |(a3 & d3 & [= ] & Hrun3 & Hdb3 & Htx3)]; subst;
    [|intros [= <- <-]; left; eexists; split; [done|congruence]].
  rewrite Htx2 in Hdb3, Htx3.
  assert (Hcur2 : current w2 = current w)
    by (unfold current at 1; by rewrite Htx2).
  destruct (COMMIT w3) as [[[]|e] w4] eqn:H4;
    apply control_cases in H4 as [Hnow4 H4];
    destruct H4 as [([= ] & Hdb4 & Htx4)|([= ] & Hdb4 & Htx4)]; subst;
    [|intros [= <- <-]; left; exists failure; split; [done|congruence]].
  simpl in Hdb4, Htx4. intros [= <- <-]. right. exists a3, d3.
  split; [reflexivity|]. split; [by apply Hfound|].
  split; [by rewrite <- Hcur2, <- Hnow1, <- Hnow2|].
  split; [|done]. rewrite Hdb4. unfold current. by rewrite Htx3.
Qed.

Section SubmissionFacts.
Context {L : Libraries}.

(** The catch clause answers 400 or 500 and leaves the committed state
    as it is. *)
Lemma rollback_and_respond_cases (error : exn) (w w' : World)
    (r : result Response) :
  rollback_and_respond error w = (r, w') ->
  db w' = db w /\ failed r
  /\ forall response, r = Return response -> tx w' = None.
Proof.
  unfold rollback_and_respond. run_monad.
  destruct (ROLLBACK w) as [[[]|e] w1] eqn:H1;
    apply control_cases in H1 as [_ H1];
    destruct H1 as [([= ] & Hdb & Htx)|([= ] & Hdb & Htx)]; subst.
  - simpl in Hdb, Htx.
    destruct error; intros [= <- <-]; (split; [done|]);
      (split; [|done]); intros response [= <-]; discriminate.
  - intros [= <- <-]. split; [done|]. split; discriminate.
Qed.

Lemma simpleAuth_cases (handler : jsstring -> Request -> M Response)
    (req : Request) (w : World) :
  (exists userId, authenticated req userId
                  /\ simpleAuth handler req w = handler userId req w)
  \/ (exists response, simpleAuth handler req w = (Return response, w)
                       /\ status response = 401%Z
                       /\ forall userId, ~ authenticated req userId).
Proof.
  unfold simpleAuth, authenticated.
  destruct (headers_user_id req) as [[|c userId]|];
    try (right; eexists; split; [reflexivity|]; split; [reflexivity|];
         intros u (Hu & Hne & _); congruence).
  destruct (headers_username req) as [[|c' username]|];
    try (right; eexists; split; [reflexivity|]; split; [reflexivity|];
         intros u (_ & _ & n & Hn & Hne); congruence).
  left. exists (c :: userId). split; [|reflexivity].
  split; [reflexivity|]. split; [done|]. by exists (c' :: username).
Qed.

(** What both handlers do, given what the try block does. *)
Lemma submission_cases (body : M Response)
    (Q : World -> Db -> Prop) (w w' : World) (r : result Response) :
  (forall w1 w2 r1, body w1 = (r1, w2) ->
     (exists e, r1 = Throw e /\ db w2 = db w1)
     \/ (exists response,
           r1 = Return response /\ status response = 201%Z
           /\ Q w1 (db w2) /\ tx w2 = None)) ->
  (_ ← connect; finally_release (tryCatch body rollback_and_respond)) w
  = (r, w') ->
  (failed r -> db w' = db w)
  /\ (forall response, r = Return response -> tx w' = None)
  /\ (forall response, r = Return response -> status response = 201%Z ->
      exists wc, db wc = db w /\ tx wc = tx w /\ now wc = now w
                 /\ Q wc (db w')).
Proof.
  intros Hbody. run_monad.
  destruct (connect w) as [[[]|e] wc] eqn:Hc;
    apply control_cases in Hc as [Hnowc Hc];
    destruct Hc as [([= ] & Hdbc & Htxc)|([= ] & Hdbc & Htxc)]; subst;
    [|intros [= <- <-]; split; [done|split; discriminate]].
  simpl in Hdbc, Htxc.
  destruct (body wc) as [[response|e] w1] eqn:Hb.
  - destruct (Hbody _ _ _ Hb) as [(e & [= ] & _)
                                 |(response' & [= <-] & Hs & HQ & Ht)].
    intros [= <- <-]. simpl. split.
    + intros Hf. exfalso. by apply (Hf response).
    + split; [done|]. intros ? [= <-] _. by exists wc.
  - destruct (Hbody _ _ _ Hb) as [(e' & [= <-] & Hd)|(? & [= ] & _)].
    destruct (rollback_and_respond e w1) as [r2 w2] eqn:Hr.
    apply rollback_and_respond_cases in Hr as (Hdb2 & Hfail & Htx2).
    intros [= <- <-]. simpl. split; [congruence|]. split; [exact Htx2|].
    intros response Hresp Hstatus. exfalso. by apply (Hfail response).
Qed.

Lemma INSERT_result_Return (completed_at : Z) (user_id : jsstring)
    (quiz_id score total_questions : Z) (user_answers : value)
    (time_taken : Z) (d d' : Db) (row : ResultRow) :
  INSERT_result completed_at user_id quiz_id score total_questions
    user_answers time_taken d = Return (row, d') ->
  quizzes d' = quizzes d
  /\ quiz_results d' = quiz_results d ++ [row]
  /\ quiz_history d' = quiz_history d
  /\ qr_quiz_id row = quiz_id /\ qr_user_id row = user_id.
Proof.
  unfold INSERT_result. destruct (existsb _ _); [discriminate|].
  destruct (negb _); [discriminate|]. by intros [= <- <-].
Qed.

Lemma INSERT_history_Return (created_at : Z) (user_id : jsstring)
    (quiz_id : Z) (prompt_used : jsstring) (generation_parameters : value)
    (d d' : Db) (row : HistoryRow) :
  INSERT_history created_at user_id quiz_id prompt_used
    generation_parameters d = Return (row, d') ->
  quizzes d' = quizzes d
  /\ quiz_results d' = quiz_results d
  /\ quiz_history d' = quiz_history d ++ [row]
  /\ qh_quiz_id row = quiz_id /\ qh_user_id row = user_id.
Proof.
  unfold INSERT_history. destruct (existsb _ _); [discriminate|].
  destruct (negb _); [discriminate|]. by intros [= <- <-].
Qed.

Lemma submission_handler (try_ : jsstring -> Request -> M Response)
    (Q : jsstring -> World -> Db -> Prop) (req : Request) (w w' : World)
    (r : result Response) :
  (forall userId w1 w2 r1, try_ userId req w1 = (r1, w2) ->
     (exists e, r1 = Throw e /\ db w2 = db w1)
     \/ (exists response,
           r1 = Return response /\ status response = 201%Z
           /\ Q userId w1 (db w2) /\ tx w2 = None)) ->
  simpleAuth
    (fun userId req =>
       _ ← connect;
       finally_release (tryCatch (try_ userId req) rollback_and_respond))
    req w = (r, w') ->
  (failed r -> db w' = db w)
  /\ (forall response userId,
        r = Return response -> authenticated req userId -> tx w' = None)
  /\ (forall response userId,
        r = Return response -> status response = 201%Z ->
        authenticated req userId -> tx w = None ->
        exists wc, db wc = db w /\ tx wc = None /\ Q userId wc (db w')).
Proof.
  intros Htry.
  match goal with
  | |- context [simpleAuth ?h req w] =>
      destruct (simpleAuth_cases h req w)
        as [(userId & Hauth & ->)|(response & -> & Hstatus & Hno)]
  end.
  - intros H. apply (submission_cases _ (Q userId)) in H; [|by apply Htry].
    destruct H as (Hfail & Htx & Hok).
    split; [exact Hfail|]. split; [eauto|].
    intros response userId' Hr Hs Hauth' Htxw.
    destruct (Hok response Hr Hs) as (wc & Hdb & Htxc & _ & HQ).
    exists wc. destruct Hauth as (Hu & _), Hauth' as (Hu' & _).
    rewrite Hu in Hu'. injection Hu' as <-.
    split; [exact Hdb|]. split; [congruence|exact HQ].
  - intros [= <- <-]. split; [done|]. split.
    + intros ? userId _ Hauth. exfalso. by apply (Hno userId).
    + intros ? ? [= <-] Hs. congruence.
Qed.

(** C8: recordResult and recordHistory leave the three tables as they
    were whenever the request does not end with the answer 201 (the body
    is rejected by the schema, the quiz does not exist, a statement fails,
    or the identity is missing), and every answer they send after the
    connection was taken is sent with no transaction left open (ROLLBACK
    or COMMIT was executed).  With the answer 201 the quiz existed and
    exactly one row, which refers to it and belongs to the caller, was
    added to the table of the handler. *)
Theorem submissions_are_atomic (req : Request) (w : World) :
  (forall r w',
     recordResult req w = (r, w') ->
     (failed r -> tables (db w') = tables (db w))
     /\ (forall response userId,
           r = Return response -> authenticated req userId ->
           tx w' = None)
     /\ (forall response userId,
           r = Return response -> status response = 201%Z ->
           authenticated req userId -> tx w = None ->
           exists row,
             references_quiz (qr_quiz_id row) (db w) = true
             /\ qr_user_id row = userId
             /\ tables (db w')
                = (quizzes (db w), quiz_results (db w) ++ [row],
                   quiz_history (db w))))
  /\ (forall r w',
       recordHistory req w = (r, w') ->
       (failed r -> tables (db w') = tables (db w))
       /\ (forall response userId,
             r = Return response -> authenticated req userId ->
             tx w' = None)
       /\ (forall response userId,
             r = Return response -> status response = 201%Z ->
             authenticated req userId -> tx w = None ->
             exists row,
               references_quiz (qh_quiz_id row) (db w) = true
               /\ qh_user_id row = userId
               /\ tables (db w')
                  = (quizzes (db w), quiz_results (db w),
                     quiz_history (db w) ++ [row]))).
Proof.
  split; intros r w' H.
  - apply (submission_handler recordResult_try
             (fun userId wc d =>
                exists row,
                  references_quiz (qr_quiz_id row) (current wc) = true
                  /\ qr_user_id row = userId
                  /\ tables d
                     = (quizzes (current wc),
                        quiz_results (current wc) ++ [row],
                        quiz_history (current wc)))) in H.
    + destruct H as (Hfail & Htx & Hok).
      split; [intros Hf; by rewrite Hfail|]. split; [exact Htx|].
      intros response userId Hr Hs Hauth Htxw.
      destruct (Hok response userId Hr Hs Hauth Htxw)
        as (wc & Hdb & Htxc & row & HQ).
      unfold current in HQ. rewrite Htxc, Hdb in HQ. by exists row.
    + intros userId w1 w2 r1. unfold recordResult_try.
      destruct (validate _ _) as [[|d error] value];
        [|intros [= <- <-]; left; eauto].
      intros Hb. apply checkedInsert_cases in Hb
        as [?|(row & d & -> & Href & Hins & Hd & Ht)]; [by left|].
      right. eexists. split; [reflexivity|]. split; [reflexivity|].
      split; [|exact Ht].
      apply INSERT_result_Return in Hins as (Hq & Hr & Hh & Hid & Hu).
      exists row. rewrite Hid. split; [exact Href|]. split; [exact Hu|].
      unfold tables. by rewrite Hd, Hq, Hr, Hh.
  - apply (submission_handler recordHistory_try
             (fun userId wc d =>
                exists row,
                  references_quiz (qh_quiz_id row) (current wc) = true
                  /\ qh_user_id row = userId
                  /\ tables d
                     = (quizzes (current wc), quiz_results (current wc),
                        quiz_history (current wc) ++ [row]))) in H.
    + destruct H as (Hfail & Htx & Hok).
      split; [intros Hf; by rewrite Hfail|]. split; [exact Htx|].
      intros response userId Hr Hs Hauth Htxw.
      destruct (Hok response userId Hr Hs Hauth Htxw)
        as (wc & Hdb & Htxc & row & HQ).
      unfold current in HQ. rewrite Htxc, Hdb in HQ. by exists row.
    + intros userId w1 w2 r1. unfold recordHistory_try.
      destruct (validate _ _) as [[|d error] value];
        [|intros [= <- <-]; left; eauto].
      intros Hb. apply checkedInsert_cases in Hb
        as [?|(row & d & -> & Href & Hins & Hd & Ht)]; [by left|].
      right. eexists. split; [reflexivity|]. split; [reflexivity|].
      split; [|exact Ht].
      apply INSERT_history_Return in Hins as (Hq & Hr & Hh & Hid & Hu).
      exists row. rewrite Hid. split; [exact Href|]. split; [exact Hu|].
      unfold tables. by rewrite Hd, Hq, Hr, Hh.
Qed.
End SubmissionFacts.

(** ** The order of the rows *)

Section RowOrder.
Context {L : Libraries}.



Lemma row_order_length {A : Type} (sql : string)
    (parameters : list jsstring) (d : Db) (l : list A) :
  length (row_order sql parameters d l) = length l.
Proof. apply Permutation_length, row_order_Permutation. Qed.

Lemma row_order_elem_of {A : Type} (sql : string)
    (parameters : list jsstring) (d : Db) (l : list A) (x : A) :
  x ∈ row_order sql parameters d l <-> x ∈ l.
Proof. by rewrite row_order_Permutation. Qed.
End RowOrder.

(** ** GET /api/statistics *)

Ltac path :=
  repeat (cbn [at_path arrow json get field fst snd]; keys).

Section StatisticsFacts.
Context {L : Libraries}.



End StatisticsFacts.

(** ** parseInt reads back the decimal numeral of a number *)

Lemma of_uint_acc_value (d : Decimal.uint) (acc : positive) :
  Z.pos (Pos.of_uint_acc d acc) = digitsValue d (Z.pos acc).
Proof.
  revert acc. induction d; intros acc; simpl; [reflexivity|..];
    rewrite IHd; f_equal; lia.
Qed.

Lemma of_uint_value (d : Decimal.uint) :
  Z.of_N (Pos.of_uint d) = digitsValue d 0.
Proof.
  induction d; simpl; [reflexivity|exact IHd|..];
    by rewrite of_uint_acc_value.
Qed.

Lemma readDigits_value (d : Decimal.uint) (acc : Z) :
  readDigits 10 (str (NilEmpty.string_of_uint d)) (Some acc)
  = Some (digitsValue d acc).
Proof.
  revert acc. induction d; intros acc; [reflexivity|..];
    cbn [NilEmpty.string_of_uint str list_ascii_of_string map readDigits
         digitsValue];
    match goal with
    | |- context [digitValue ?c] =>
        let r := eval vm_compute in (digitValue c) in
        change (digitValue c) with r
    end;
    cbv iota;
    match goal with
    | |- context [(?k <? 10)%Z] => change (k <? 10)%Z with true
    end;
    cbv iota; apply IHd.
Qed.

Lemma readNumber_numeral (radix : option Z) (d : Decimal.uint) :
  radix = None \/ radix = Some 10%Z ->
  readNumber radix (str (NilZero.string_of_uint d)) = Some (digitsValue d 0).
Proof.
  intros Hr.
  assert (H : forall k c l,
            digitValue c = Some k -> (k <? 10)%Z = true ->
            (c =? 48)%N = false \/ True ->
            startsWith (c :: str (NilEmpty.string_of_uint l)) "0x" = false ->
            startsWith (c :: str (NilEmpty.string_of_uint l)) "0X" = false ->
            readNumber radix (c :: str (NilEmpty.string_of_uint l))
            = Some (digitsValue l (10 * 0 + k))).
  { intros k c l Hc Hk _ Hx HX.
    destruct Hr as [-> | ->]; unfold readNumber.
    - rewrite Hx, HX. cbn [orb readDigits]. rewrite Hc, Hk.
      apply readDigits_value.
    - change ((10 <? 2)%Z || (36 <? 10)%Z) with false.
      change (10 =? 16)%Z with false. cbn [andb readDigits].
      rewrite Hc, Hk. apply readDigits_value. }
  destruct d as [|l|l|l|l|l|l|l|l|l|l];
    [destruct Hr as [-> | ->]; reflexivity|..];
    cbn [NilZero.string_of_uint NilEmpty.string_of_uint str
         list_ascii_of_string map digitsValue];
    (apply H; [reflexivity|reflexivity|by right| |]);
    try reflexivity; destruct l; reflexivity.
Qed.

Lemma parseInt_NumberToString (radix : option Z) (n : Z) :
  radix = None \/ radix = Some 10%Z ->
  parseInt (Some (VStr (NumberToString n))) radix = Some n.
Proof.
  intros Hr. rewrite <- (DecimalZ.of_to n) at 2.
  unfold parseInt, String_, ToString, NumberToString.
  destruct (Z.to_int n) as [d|d]; cbn [NilZero.string_of_int Z.of_int].
  - unfold Z.of_uint. rewrite of_uint_value.
    rewrite <- (readNumber_numeral radix d Hr).
    destruct d as [|l|l|l|l|l|l|l|l|l|l]; reflexivity.
  - unfold Z.of_uint. rewrite of_uint_value.
    cbn [str list_ascii_of_string map].
    change (N_of_ascii "-") with 45%N. cbn [trimStart].
    change (isWhiteSpace 45) with false. cbv iota.
    change (str (NilZero.string_of_uint d))
      with (map N_of_ascii (list_ascii_of_string (NilZero.string_of_uint d))).
    fold (str (NilZero.string_of_uint d)).
    by rewrite (readNumber_numeral radix d Hr).
Qed.

(** ** Numbers that travel as text *)

Lemma NumberToString_not_empty (n : Z) : NumberToString n <> [].
Proof.
  unfold NumberToString.
  destruct (Z.to_int n) as [d|d]; cbn [NilZero.string_of_int].
  - destruct d; discriminate.
  - discriminate.
Qed.

Lemma parseInt_number (radix : option Z) (n : Z) :
  radix = None \/ radix = Some 10%Z ->
  parseInt (Some (VNum n)) radix = Some n.
Proof. intros Hr. exact (parseInt_NumberToString radix n Hr). Qed.

(** [parseInt(COUNT || 0)] is the count. *)
Lemma parseInt_COUNT {A : Type} (l : list A) :
  parseInt (or_ (Some (COUNT l)) (Some (VNum 0))) None
  = Some (Z.of_nat (length l)).
Proof.
  unfold or_, COUNT. cbn [truthy].
  rewrite (isEmpty_false _ (NumberToString_not_empty _)). cbn [negb].
  apply parseInt_NumberToString. by left.
Qed.

(** [parseInt(MAX || 0)] is the maximum, and 0 when there is none. *)
Lemma parseInt_MAX (m : option Z) :
  parseInt (or_ (Some (number m)) (Some (VNum 0))) None
  = Some (default 0%Z m).
Proof.
  destruct m as [m|]; [|reflexivity]. unfold or_. cbn [number truthy].
  destruct (m =? 0)%Z eqn:Hm; cbn [negb default].
  - apply Z.eqb_eq in Hm as ->. reflexivity.
  - apply parseInt_number. by left.
Qed.

Lemma parseInt_or_zero (m : Z) :
  parseInt (or_ (Some (VNum m)) (Some (VNum 0))) None = Some m.
Proof. exact (parseInt_MAX (Some m)). Qed.

(** ** Lists filtered twice *)

Lemma filter_andb {A : Type} (p q : A -> bool) (l : list A) :
  List.filter (fun x => p x && q x) l = List.filter p (List.filter q l).
Proof.
  induction l as [|x l IH]; [reflexivity|]. simpl.
  destruct (p x) eqn:Hp, (q x) eqn:Hq; simpl; rewrite ?Hp, IH; reflexivity.
Qed.

Lemma filter_andb_r {A : Type} (p q : A -> bool) (l : list A) :
  List.filter (fun x => p x && q x) l = List.filter q (List.filter p l).
Proof.
  induction l as [|x l IH]; [reflexivity|]. simpl.
  destruct (p x) eqn:Hp, (q x) eqn:Hq; simpl; rewrite ?Hq, IH; reflexivity.
Qed.

(** The results joined to a quiz of a user are results of that user. *)
Lemma joined_results_owned (user_id : jsstring) (d : Db) (q : QuizRow) :
  owned_by user_id q = true ->
  joined_results d q
  = List.filter (fun qr => (q_id q =? qr_quiz_id qr)%Z) (results_of user_id d).
Proof.
  intros Ho. apply eqs_true in Ho. unfold joined_results, results_of.
  rewrite Ho. apply filter_andb.
Qed.

(** ** GET /api/quizzes *)

#[global] Instance newest_first_total : Total newest_first.
Proof. intros a b. unfold newest_first. lia. Qed.

Lemma ceil_div_spec (total limit : Z) :
  (0 < limit)%Z ->
  (limit * (ceil_div total limit - 1) < total <= limit * ceil_div total limit)%Z.
Proof.
  intros H. unfold ceil_div.
  pose proof (Z.mul_div_le (- total) limit H).
  pose proof (Z.mul_succ_div_gt (- total) limit H).
  lia.
Qed.

Section ListQuizzesFacts.
Context {L : Libraries}.

(** The quizzes of a user in the order of the listing: a rearrangement of
    them in which no quiz comes before a newer one. *)
Lemma ordered_quizzes_sorted (user_id : jsstring) (d : Db) :
  Sorted newest_first (ordered_quizzes user_id d)
  /\ ordered_quizzes user_id d ≡ₚ List.filter (owned_by user_id) (quizzes d).
Proof.
  unfold ordered_quizzes. split; [apply Sorted_merge_sort, _|].
  by rewrite merge_sort_Permutation, row_order_Permutation.
Qed.

Lemma listing_json_row (d : Db) (q : QuizRow) :
  listing_json (listing_row d q)
  = VObj [field "id" (VNum (q_id q));
          field "title" (VStr (q_title q));
          field "topic" (text (q_topic q));
          field "num_questions" (VNum (q_num_questions q));
          field "difficulty" (VStr (q_difficulty q));
          field "question_type" (VStr (q_question_type q));
          field "created_at" (VStr (toISOString (q_created_at q)));
          field "attempts_count"
            (VNum (Z.of_nat (length (joined_results d q))));
          field "highest_score"
            (VNum (default 0%Z (MAX (map qr_score (joined_results d q)))))].
Proof.
  unfold listing_json, listing_row.
  unfold field. repeat (cbn [get set]; keys).
  rewrite parseInt_COUNT, parseInt_MAX. reflexivity.
Qed.

(** The answer of listQuizzes on a valid page of a store that does not
    fail. *)
Lemma listQuizzes_answer (req : Request) (userId : jsstring) (w : World) :
  authenticated req userId -> tx w = None -> healthy 2 w ->
  (1 <= parseInt_or (query_page req) 1)%Z ->
  (1 <= parseInt_or (query_limit req) 10)%Z ->
  exists response w',
    listQuizzes req w = (Return response, w')
    /\ status response = 200%Z
    /\ at_path ["quizzes"] (json response)
       = Some (VArr (map (fun q => listing_json (listing_row (db w) q))
                       (take (Z.to_nat (parseInt_or (query_limit req) 10))
                          (drop (Z.to_nat
                                   ((parseInt_or (query_page req) 1 - 1)
                                    * parseInt_or (query_limit req) 10))
                             (ordered_quizzes userId (db w))))))
    /\ at_path ["pagination"; "totalQuizzes"] (json response)
       = Some (VNum (Z.of_nat
                       (length (List.filter (owned_by userId)
                                  (quizzes (db w))))))
    /\ at_path ["pagination"; "hasMore"] (json response)
       = Some (VBool
                 (parseInt_or (query_page req) 1
                  <? ceil_div
                       (Z.of_nat
                          (length (List.filter (owned_by userId)
                                     (quizzes (db w)))))
                       (parseInt_or (query_limit req) 10))%Z).
Proof.
  intros Hauth Htx Hhealthy Hpage Hlimit.
  unfold listQuizzes. rewrite (simpleAuth_authenticated _ _ _ Hauth).
  run_monad.
  set (page := parseInt_or (query_page req) 1) in *.
  set (limit := parseInt_or (query_limit req) 10) in *.
  destruct (statement_healthy listing_sql
              (SELECT_quizzes userId limit ((page - 1) * limit)) 1 w
              Hhealthy Htx)
    as (w1 & H1 & Hdb1 & Htx1 & Hh1 & _).
  rewrite H1. unfold SELECT_quizzes in *.
  rewrite (proj2 (Z.ltb_ge limit 0)) in * by lia.
  rewrite (proj2 (Z.ltb_ge ((page - 1) * limit) 0)) in * by nia.
  cbv iota in *.
  destruct (statement_healthy "SELECT COUNT(*) FROM quizzes"
              (SELECT_count userId) 0 w1 Hh1 Htx1)
    as (w2 & H2 & _).
  rewrite H2. unfold SELECT_count, COUNT. rewrite Hdb1.
  rewrite parseInt_NumberToString by (by left).
  do 2 eexists. split; [reflexivity|]. split; [reflexivity|].
  cbn [at_path json arrow fmap option_fmap option_map number].
  rewrite map_map. repeat split.
Qed.

(** A negative offset or limit: PostgreSQL refuses the statement of the
    listing, and the error handler answers. *)
Lemma listQuizzes_refused (req : Request) (userId : jsstring) (w : World) :
  authenticated req userId -> tx w = None -> healthy 2 w ->
  let page := parseInt_or (query_page req) 1 in
  let limit := parseInt_or (query_limit req) 10 in
  ((page - 1) * limit < 0 \/ limit < 0)%Z ->
  exists w',
    listQuizzes req w
    = (Return
         (errorHandler
            (DatabaseError
               (if ((page - 1) * limit <? 0)%Z
                then "OFFSET must not be negative"
                else "LIMIT must not be negative"))), w')
    /\ db w' = db w.
Proof.
  intros Hauth Htx Hhealthy page limit Hneg.
  unfold listQuizzes. rewrite (simpleAuth_authenticated _ _ _ Hauth).
  run_monad. fold page limit.
  destruct (statement_healthy listing_sql
              (SELECT_quizzes userId limit ((page - 1) * limit)) 1 w
              Hhealthy Htx)
    as (w1 & H1 & Hdb1 & _).
  rewrite H1. unfold SELECT_quizzes in *.
  destruct ((page - 1) * limit <? 0)%Z eqn:Ho.
  - eexists. split; [reflexivity|exact Hdb1].
  - apply Z.ltb_ge in Ho.
    rewrite (proj2 (Z.ltb_lt limit 0)) in * by lia.
    eexists. split; [reflexivity|exact Hdb1].
Qed.

(** What parseInt(x) || d leaves is never 0. *)
Lemma parseInt_or_not_zero (x : option value) (d : Z) :
  d <> 0%Z -> parseInt_or x d <> 0%Z.
Proof.
  intros Hd. unfold parseInt_or.
  destruct (parseInt x None) as [n|]; [|exact Hd].
  destruct (n =? 0)%Z eqn:Hn; [exact Hd|]. by apply Z.eqb_neq.
Qed.
End ListQuizzesFacts.

Section ListQuizzesClaim.
Context {L : Libraries}.

(** C10, as amended: page and limit are what parseInt reads in the query,
    with 1 and 10 for what reads as 0 or as no number, so that neither is
    0; they are taken in the range in which the numbers of JavaScript are
    exact.  For a page and a limit of at least 1, listQuizzes answers 200
    with the caller's quizzes in an order in which no quiz comes before a
    newer one, from the offset (page - 1) * limit on and at most limit of
    them, each with its columns, the number of results the caller
    recorded for it and the best score among them, and with
    hasMore = page < ceil(total / limit), where total is the number of
    quizzes of the caller.  For a caller with exactly 15 quizzes, page 2
    with limit 10 gives 5 quizzes and hasMore = false.  For a negative
    page or limit PostgreSQL refuses the offset or the limit, and
    listQuizzes answers 500 with the message of PostgreSQL. *)
Theorem listQuizzes_pagination
    (req : Request) (userId : jsstring) (w : World) :
  let page := parseInt_or (query_page req) 1 in
  let limit := parseInt_or (query_limit req) 10 in
  let owned := List.filter (owned_by userId) (quizzes (db w)) in
  let total := Z.of_nat (length owned) in
  let attempts q :=
    List.filter (fun qr => (q_id q =? qr_quiz_id qr)%Z)
      (results_of userId (db w)) in
  authenticated req userId -> tx w = None -> healthy 2 w ->
  (Z.abs page <= MAX_SAFE_INTEGER)%Z ->
  (Z.abs limit <= MAX_SAFE_INTEGER)%Z ->
  (Z.abs ((page - 1) * limit) <= MAX_SAFE_INTEGER)%Z ->
  (page <> 0 /\ limit <> 0)%Z
  /\ ((1 <= page)%Z -> (1 <= limit)%Z ->
      exists response w' sorted,
        let rows :=
          take (Z.to_nat limit)
            (drop (Z.to_nat ((page - 1) * limit)) sorted) in
        listQuizzes req w = (Return response, w')
        /\ status response = 200%Z
        /\ Sorted newest_first sorted
        /\ sorted ≡ₚ owned
        /\ (Z.of_nat (length rows) <= limit)%Z
        /\ at_path ["quizzes"] (json response)
           = Some (VArr (map
               (fun q =>
                  VObj
                    [field "id" (VNum (q_id q));
                     field "title" (VStr (q_title q));
                     field "topic" (text (q_topic q));
                     field "num_questions" (VNum (q_num_questions q));
                     field "difficulty" (VStr (q_difficulty q));
                     field "question_type" (VStr (q_question_type q));
                     field "created_at"
                       (VStr (toISOString (q_created_at q)));
                     field "attempts_count"
                       (VNum (Z.of_nat (length (attempts q))));
                     field "highest_score"
                       (VNum (default 0%Z
                                (MAX (map qr_score (attempts q)))))])
               rows))
        /\ (limit * (ceil_div total limit - 1) < total
            <= limit * ceil_div total limit)%Z
        /\ at_path ["pagination"; "hasMore"] (json response)
           = Some (VBool (page <? ceil_div total limit)%Z)
        /\ (length owned = 15 -> page = 2%Z -> limit = 10%Z ->
            length rows = 5
            /\ at_path ["pagination"; "hasMore"] (json response)
               = Some (VBool false)))
  /\ ((page < 0 \/ limit < 0)%Z ->
      exists response w',
        listQuizzes req w = (Return response, w')
        /\ status response = 500%Z
        /\ at_path ["message"] (json response)
           = Some (VStr (if ((page - 1) * limit <? 0)%Z
                         then "OFFSET must not be negative"
                         else "LIMIT must not be negative"))
        /\ db w' = db w).
Proof.
  intros page limit owned total attempts Hauth Htx Hhealthy _ _ _.
  split; [split; by apply parseInt_or_not_zero|]. split.
  - intros Hpage Hlimit.
    destruct (listQuizzes_answer req userId w Hauth Htx Hhealthy Hpage
                Hlimit)
      as (response & w' & Hl & Hs & Hq & _ & Hm).
    destruct (ordered_quizzes_sorted userId (db w)) as [Hsorted Hperm].
    exists response, w', (ordered_quizzes userId (db w)). cbv zeta.
    fold page limit in Hq. fold page limit owned total in Hm.
    split; [exact Hl|]. split; [exact Hs|]. split; [exact Hsorted|].
    split; [exact Hperm|].
    split; [rewrite length_take; lia|].
    split.
    { rewrite Hq. do 2 f_equal. apply map_ext_in. intros q Hin.
      rewrite listing_json_row. rewrite (joined_results_owned userId);
        [reflexivity|].
      apply list_elem_of_In in Hin.
      assert (H : q ∈ owned).
      { unfold owned. rewrite <- Hperm.
        eapply elem_of_sublist; [|apply sublist_drop].
        eapply elem_of_sublist; [exact Hin|apply sublist_take]. }
      by apply list_elem_of_In, filter_In in H as [_ H]. }
    split; [apply ceil_div_spec; lia|].
    split; [exact Hm|].
    intros H15 Hp Hlim. rewrite Hm.
    rewrite length_take, length_drop, (Permutation_length Hperm).
    unfold total. fold owned. rewrite Hp, Hlim, H15. split; reflexivity.
  - intros Hneg.
    destruct (listQuizzes_refused req userId w Hauth Htx Hhealthy)
      as (w' & Hl & Hdb).
    { fold page limit. destruct Hneg as [Hneg|Hneg]; [|by right].
      destruct (Z.lt_ge_cases limit 0); [by right|]. left.
      assert (limit <> 0%Z) by (by apply parseInt_or_not_zero). nia. }
    fold page limit in Hl.
    do 2 eexists. split; [exact Hl|]. split; [reflexivity|].
    split; [|exact Hdb].
    destruct ((page - 1) * limit <? 0)%Z; reflexivity.
Qed.
End ListQuizzesClaim.

(** ** Ownership *)

Section OwnershipFacts.
Context {L : Libraries}.


End OwnershipFacts.

(** ** The claims on sample data *)

Lemma healthy_world (n : nat) (d : Db) : healthy n (world d).
Proof. intros i _. simpl. by rewrite lookup_nil. Qed.

Lemma authenticated_request (userId id : string) (page limit : option string)
    (b : value) :
  str userId <> [] ->
  authenticated (request userId id page limit b) (str userId).
Proof.
  intros H. split; [reflexivity|]. split; [exact H|].
  by exists (str userId).
Qed.



(** Witness of C6: a quiz with an explanation comes back as it was sent. *)
Lemma created_quiz_detail_witness :
  status <$> fst (createQuiz (L := plain)
                    (request "alice" "" None None
                       (sampleQuiz 1 [sampleQuestion "2+2=4"]))
                    (world emptyDb))
  = Return 201%Z
  /\ exists questions,
       (fun r => at_path ["quiz"; "questions"] (json r))
       <$> fst (getQuizDetail (L := plain)
                  (request "alice" "1" None None VNull)
                  (world (db (snd (createQuiz (L := plain)
                                     (request "alice" "" None None
                                        (sampleQuiz 1
                                           [sampleQuestion "2+2=4"]))
                                     (world emptyDb))))))
       = Return (Some (VArr questions))
       /\ Forall2 returnedAs [sampleQuestion "2+2=4"] questions.
Proof.
  destruct (createQuiz (L := plain)
              (request "alice" "" None None
                 (sampleQuiz 1 [sampleQuestion "2+2=4"]))
              (world emptyDb)) as [r w1] eqn:Hc.
  assert (Hr : r = Return
                 {| status := 201;
                    json := VObj
                      [field "status" (VStr "success");
                       field "message" (VStr "Quiz created successfully");
                       field "quiz" (VObj
                         [field "id" (VNum 1);
                          field "title" (VStr "Sums Quiz");
                          field "topic" (VStr "Sums");
                          field "numQuestions" (VNum 1);
                          field "difficulty" (VStr "Easy");
                          field "questionType" (VStr "MCQ");
                          field "language" (VStr "english")])] |})
    by (apply (f_equal fst) in Hc; vm_compute in Hc; by rewrite <- Hc).
  subst r. split; [reflexivity|].
  destruct (created_quiz_detail (L := plain) _ (str "alice")
              (world emptyDb) _ _
              (authenticated_request "alice" "" None None _
                 ltac:(vm_compute; discriminate))
              eq_refl Hc eq_refl)
    as (o & qs & id & Hbody & Hqs & Hid & Hdetail).
  injection Hbody as <-. injection Hqs as <-. injection Hid as <-.
  destruct (Hdetail (request "alice" "1" None None VNull) (world (db w1)))
    as (response & w3 & questions & Hg & _ & Hp & Hq);
    [apply authenticated_request; vm_compute; discriminate
    |reflexivity|reflexivity|reflexivity|apply healthy_world|].
  exists questions. cbn [snd]. rewrite Hg. cbn [fst].
  unfold fmap, result_fmap. by rewrite Hp.
Defined.

(** C6, as stated, fails: a question submitted with an empty explanation
    comes back with the explanation No explanation provided. *)
Lemma empty_explanation_replaced :
  status <$> fst (createQuiz (L := plain)
                    (request "alice" "" None None
                       (sampleQuiz 1 [sampleQuestion ""]))
                    (world emptyDb))
  = Return 201%Z
  /\ (fun r => at_path ["quiz"; "questions"] (json r))
     <$> fst (getQuizDetail (L := plain)
                (request "alice" "1" None None VNull)
                (world (db (snd (createQuiz (L := plain)
                                   (request "alice" "" None None
                                      (sampleQuiz 1 [sampleQuestion ""]))
                                   (world emptyDb))))))
     = Return (Some (VArr [sampleQuestion "No explanation provided"]))
  /\ sampleQuestion "No explanation provided" <> sampleQuestion "".
Proof.
  split; [vm_compute; reflexivity|]. split; [vm_compute; reflexivity|].
  vm_compute. discriminate.
Qed.

(** Witness of C7: three questions declared, two submitted. *)
Lemma createQuiz_rejects_witness :
  declaredNumber (L := plain) (Some (VNum 3)) <> Some (Z.of_nat 2)
  /\ exists response,
       createQuiz (L := plain)
         (request "alice" "" None None
            (sampleQuiz 3 [sampleQuestion "a"; sampleQuestion "b"]))
         (world emptyDb)
       = (Return response, world emptyDb)
       /\ status response = 400%Z.
Proof.
  assert (H : declaredNumber (L := plain) (Some (VNum 3)) <> Some (Z.of_nat 2))
    by (vm_compute; discriminate).
  split; [exact H|].
  apply (createQuiz_rejects (L := plain) _ (str "alice") (world emptyDb)
           [field "title" (VStr "Sums Quiz"); field "topic" (VStr "Sums");
            field "numQuestions" (VNum 3); field "difficulty" (VStr "Easy");
            field "questionType" (VStr "MCQ");
            field "language" (VStr "english");
            field "questions"
              (VArr [sampleQuestion "a"; sampleQuestion "b"])]
           [sampleQuestion "a"; sampleQuestion "b"]).
  - apply authenticated_request. vm_compute. discriminate.
  - reflexivity.
  - reflexivity.
  - left. exact H.
Defined.

(** Witness of C8: a result for a quiz that does not exist is answered
    with 400 and leaves the tables as they were. *)
Lemma submissions_are_atomic_witness :
  status <$> fst (recordResult (L := plain)
                    (request "bob" "" None None (sampleResult 7))
                    (world (aliceStore 1)))
  = Return 400%Z
  /\ tables (db (snd (recordResult (L := plain)
                        (request "bob" "" None None (sampleResult 7))
                        (world (aliceStore 1)))))
     = tables (aliceStore 1).
Proof.
  assert (H : status <$> fst (recordResult (L := plain)
                                (request "bob" "" None None (sampleResult 7))
                                (world (aliceStore 1)))
              = Return 400%Z) by (vm_compute; reflexivity).
  split; [exact H|].
  destruct (recordResult (L := plain)
              (request "bob" "" None None (sampleResult 7))
              (world (aliceStore 1))) as [r w'] eqn:Hr.
  destruct (proj1 (submissions_are_atomic (L := plain) _ _) r w' Hr)
    as (Hfail & _).
  apply Hfail. intros response ->. simpl in H. injection H as H.
  rewrite H. discriminate.
Defined.



(** Witness of C10: alice has 15 quizzes and asks for page 2 with limit
    10. *)
Lemma listQuizzes_pagination_witness :
  length (List.filter (owned_by "alice") (quizzes (aliceStore 15))) = 15
  /\ exists response w' quizzes,
       listQuizzes (L := plain)
         (request "alice" "" (Some "2"%string) (Some "10"%string) VNull)
         (world (aliceStore 15))
       = (Return response, w')
       /\ at_path ["quizzes"] (json response) = Some (VArr quizzes)
       /\ length quizzes = 5
       /\ at_path ["pagination"; "hasMore"] (json response)
          = Some (VBool false).
Proof.
  assert (H15 : length (List.filter (owned_by "alice")
                          (quizzes (aliceStore 15))) = 15) by reflexivity.
  split; [exact H15|].
  destruct (listQuizzes_pagination (L := plain)
              (request "alice" "" (Some "2"%string) (Some "10"%string) VNull)
              (str "alice") (world (aliceStore 15))
              (authenticated_request "alice" "" _ _ VNull
                 ltac:(vm_compute; discriminate))
              eq_refl (healthy_world 2 _)
              ltac:(vm_compute; discriminate)
              ltac:(vm_compute; discriminate)
              ltac:(vm_compute; discriminate))
    as (_ & Hpage & _).
  destruct (Hpage ltac:(vm_compute; discriminate)
              ltac:(vm_compute; discriminate))
    as (response & w' & sorted & Hl & _ & _ & _ & _ & Hq & _ & _ & Hex).
  destruct (Hex H15 eq_refl eq_refl) as [Hlen Hmore].
  exists response, w'. eexists. split; [exact Hl|]. split; [exact Hq|].
  split; [by rewrite length_map|exact Hmore].
Defined.

(** C10, as stated, fails for a negative page: the offset is negative,
    PostgreSQL refuses it and the answer is 500. *)
Lemma negative_page_refused :
  (fun r => (status r, at_path ["message"] (json r)))
  <$> fst (listQuizzes (L := plain)
             (request "alice" "" (Some "-1"%string) None VNull)
             (world (aliceStore 15)))
  = Return (500%Z, Some (VStr "OFFSET must not be negative")).
Proof. vm_compute. reflexivity. Qed.

(** * Further properties of the backend *)

(** ** Requests without an identity *)

Section Identity.
Context {L : Libraries}.

Lemma simpleAuth_unauthenticated
    (handler : jsstring -> Request -> M Response) (req : Request)
    (w : World) :
  (forall userId, ~ authenticated req userId) ->
  simpleAuth handler req w
  = (Return {| status := 401;
               json := VObj [field "status" (VStr "error");
                             field "message"
                               (VStr "Authentication required")] |}, w).
Proof.
  intros Hno. unfold simpleAuth.
  destruct (headers_user_id req) as [[|c userId]|] eqn:Hu; try reflexivity.
  destruct (headers_username req) as [[|c' username]|] eqn:Hn;
    try reflexivity.
  exfalso. apply (Hno (c :: userId)).
  split; [exact Hu|]. split; [done|]. by exists (c' :: username).
Qed.

(** X1. Every route behind simpleAuth answers a request that lacks one of the
    two identity headers, or carries an empty one, with 401 Authentication
    required, and does nothing else: no statement is sent and the connection
    is left as it was. *)
Theorem identity_required (req : Request) (w : World) :
  (forall userId, ~ authenticated req userId) ->
  Forall
    (fun route : Request -> M Response =>
       route req w
       = (Return {| status := 401;
                    json := VObj [field "status" (VStr "error");
                                  field "message"
                                    (VStr "Authentication required")] |},
          w))
    [createQuiz; listQuizzes; takeQuiz; recordResult; recordHistory;
     statistics; getQuizDetail].
Proof.
  intros Hno.
  repeat constructor; by apply simpleAuth_unauthenticated.
Qed.
End Identity.

(** ** What a route can do to the store *)

Lemma statement_readonly {A : Type} (sql : string)
    (run : Db -> result (A * Db)) (w w' : World) (r : result A) :
  (forall d a d', run d = Return (a, d') -> d' = d) ->
  statement sql run w = (r, w') ->
  db w' = db w /\ tx w' = tx w.
Proof.
  intros Hro H. apply statement_cases in H as [_ H].
  destruct H as [(e & _ & Hdb & Htx)|(a & d & _ & Hrun & Hdb & Htx)];
    [done|].
  apply Hro in Hrun. subst d. unfold current in *.
  destruct (tx w); simpl in *; by rewrite Hdb, Htx.
Qed.

Lemma connect_cases (w w' : World) (r : result ()) :
  connect w = (r, w') -> db w' = db w /\ tx w' = tx w.
Proof.
  intros H. apply control_cases in H as [_ H].
  by destruct H as [(_ & ? & ?)|(_ & ? & ?)].
Qed.

Section Store.
Context {L : Libraries}.

Lemma SELECT_quizzes_readonly (user_id : jsstring) (limit offset : Z)
    (d d' : Db) (a : list object) :
  SELECT_quizzes user_id limit offset d = Return (a, d') -> d' = d.
Proof.
  unfold SELECT_quizzes. destruct (_ <? _)%Z; [discriminate|].
  destruct (_ <? _)%Z; [discriminate|]. by intros [= _ <-].
Qed.

Lemma SELECT_take_readonly (id : jsstring) (d d' : Db) (a : list object) :
  SELECT_take id d = Return (a, d') -> d' = d.
Proof.
  unfold SELECT_take. destruct (int4in id); [|discriminate].
  destruct (forEach _ _ _); [|discriminate]. by intros [= _ <-].
Qed.

Lemma SELECT_details_readonly (id user_id : jsstring) (d d' : Db)
    (a : list (QuizRow * list ResultRow)) :
  SELECT_details id user_id d = Return (a, d') -> d' = d.
Proof.
  unfold SELECT_details. destruct (int4in id); [|discriminate].
  by intros [= _ <-].
Qed.

(** X2. The routes that read (the listing, the quiz to take, the details of a
    quiz, the statistics and the health check) leave the committed state and
    the transaction state as they found them, whatever they answer and
    whichever statement fails. *)
Theorem reads_do_not_write (req : Request) (w : World) :
  Forall
    (fun route : Request -> M Response =>
       db (snd (route req w)) = db w /\ tx (snd (route req w)) = tx w)
    [listQuizzes; takeQuiz; getQuizDetail; statistics; health].
Proof.
  repeat (apply List.Forall_cons;
          [cbv beta;
           match goal with
           | |- db (snd ?x) = _ /\ _ =>
               let H := fresh in
               destruct x as [r w'] eqn:H; cbn [snd]; revert H
           end|]);
    [| | | | |apply List.Forall_nil].
  - unfold listQuizzes.
    match goal with
    | |- context [simpleAuth ?h req w] =>
        destruct (simpleAuth_cases h req w)
          as [(userId & _ & ->)|(response & -> & _)]
    end; [|by intros [= _ <-]].
    run_monad.
    destruct (statement _ (SELECT_quizzes _ _ _) w) as [[rows|e] w1] eqn:H1;
      apply statement_readonly in H1 as [Hd1 Ht1];
      try (intros; by eapply SELECT_quizzes_readonly);
      [|intros [= _ <-]; done].
    destruct (statement _ (SELECT_count _) w1) as [[n|e] w2] eqn:H2;
      apply statement_readonly in H2 as [Hd2 Ht2];
      try (unfold SELECT_count; by intros ? ? ? [= _ <-]);
      intros [= _ <-]; split; congruence.
  - unfold takeQuiz.
    match goal with
    | |- context [simpleAuth ?h req w] =>
        destruct (simpleAuth_cases h req w)
          as [(userId & _ & ->)|(response & -> & _)]
    end; [|by intros [= _ <-]].
    run_monad.
    destruct (statement _ (SELECT_take _) w) as [[rows|e] w1] eqn:H1;
      apply statement_readonly in H1 as [Hd1 Ht1];
      try (intros; by eapply SELECT_take_readonly);
      [destruct rows|]; by intros [= _ <-].
  - unfold getQuizDetail.
    match goal with
    | |- context [simpleAuth ?h req w] =>
        destruct (simpleAuth_cases h req w)
          as [(userId & _ & ->)|(response & -> & _)]
    end; [|by intros [= _ <-]].
    run_monad.
    destruct (connect w) as [[[]|e] wc] eqn:Hc;
      apply connect_cases in Hc as [Hdc Htc]; [|by intros [= _ <-]].
    unfold getQuizDetail_try. run_monad.
    destruct (statement _ (SELECT_details _ _) wc) as [[rows|e] w1] eqn:H1;
      apply statement_readonly in H1 as [Hd1 Ht1];
      try (intros; by eapply SELECT_details_readonly);
      [|intros [= _ <-]; simpl; split; congruence].
    destruct rows as [|[quizDetails attempts] rows];
      [intros [= _ <-]; simpl; split; congruence|].
    destruct (match q_questions quizDetails with
              | VArr questions => forEach detailQuestion questions 0
              | _ => _
              end);
      intros [= _ <-]; simpl; split; congruence.
  - unfold statistics.
    match goal with
    | |- context [simpleAuth ?h req w] =>
        destruct (simpleAuth_cases h req w)
          as [(userId & _ & ->)|(response & -> & _)]
    end; [|by intros [= _ <-]].
    run_monad.
    destruct (connect w) as [[[]|e] wc] eqn:Hc;
      apply connect_cases in Hc as [Hdc Htc]; [|by intros [= _ <-]].
    destruct (statement _ (SELECT_overall _) wc) as [[a1|e] w1] eqn:H1;
      apply statement_readonly in H1 as [Hd1 Ht1];
      try (unfold SELECT_overall; by intros ? ? ? [= _ <-]);
      [|intros [= _ <-]; simpl; split; congruence].
    destruct (statement _ (SELECT_topics _) w1) as [[a2|e] w2] eqn:H2;
      apply statement_readonly in H2 as [Hd2 Ht2];
      try (unfold SELECT_topics; by intros ? ? ? [= _ <-]);
      [|intros [= _ <-]; simpl; split; congruence].
    destruct (statement _ (SELECT_monthly _) w2) as [[a3|e] w3] eqn:H3;
      apply statement_readonly in H3 as [Hd3 Ht3];
      try (unfold SELECT_monthly; by intros ? ? ? [= _ <-]);
      [|intros [= _ <-]; simpl; split; congruence].
    destruct (processQuizStatistics a2).
    intros [= _ <-]; simpl; split; congruence.
  - unfold health. run_monad.
    match goal with
    | |- context [statement ?sql ?run w] =>
        destruct (statement sql run w) as [[t|e] w1] eqn:H1;
          apply statement_readonly in H1 as [Hd1 Ht1];
          try (by intros ? ? ? [= _ <-])
    end; by intros [= _ <-].
Qed.
End Store.

(** ** POST /api/quizzes: what is stored *)

Section JoiObjects.
Context {L : Libraries}.

Lemma Joi_valid_valid (allowed : list value) (path : jsstring)
    (v v' : value) :
  Joi_valid allowed path v = ([], v') ->
  v' = v /\ existsb (sameScalar v) allowed = true.
Proof.
  unfold Joi_valid. destruct (existsb _ _); [|discriminate].
  by intros [= <-].
Qed.

Lemma default_valid (d : value) (r : rule) (path : jsstring)
    (x x' : option value) :
  default_ d r path x = ([], x') ->
  (x = None /\ x' = Some d)
  \/ exists v v', x = Some v /\ x' = Some v' /\ r path v = ([], v').
Proof.
  unfold default_. destruct x as [v|]; [|intros [= <-]; by left].
  destruct (r path v) as [e v'] eqn:Hr. intros [= -> <-]. right. eauto.
Qed.

(** The properties of the object a Joi.object() yields are among the keys
    of the schema. *)
Lemma validateKeys_keys (keys : list (jsstring * schema)) (path : jsstring)
    (o : object) :
  map fst (snd (validateKeys keys path o)) = map fst keys.
Proof.
  induction keys as [|[k s] keys IH]; [reflexivity|]. simpl.
  destruct (s _ _) as [e v'].
  destruct (validateKeys keys path o) as [es vs]. simpl in *.
  by rewrite IH.
Qed.

Lemma get_literal_keys (kept : list (jsstring * option value))
    (k : jsstring) :
  get k (literal kept) <> None -> k ∈ map fst kept.
Proof.
  induction kept as [|[k' [v|]] kept IH]; simpl; [done| |].
  - destruct (eqs k' k) eqn:Hk.
    + apply eqs_true in Hk as ->. intros _. by left.
    + intros H. right. by apply IH.
  - intros H. right. by apply IH.
Qed.

Lemma Joi_object_keys (keys : list (jsstring * schema))
    (stripUnknown : bool) (path : jsstring) (v v' : value)
    (errors : list detail) (k : jsstring) :
  Joi_object keys stripUnknown path v = (errors, v') ->
  (exists o, v = VObj o) ->
  arrow v' k <> None -> k ∈ map fst keys.
Proof.
  intros H [o ->]. unfold Joi_object in H.
  pose proof (validateKeys_keys keys path o) as Hk.
  destruct (validateKeys keys path o) as [e kept]. simpl in Hk.
  injection H as _ <-. simpl. intros Hget.
  rewrite <- Hk. by apply get_literal_keys.
Qed.
End JoiObjects.


Section CreateQuizStores.
Context {L : Libraries}.

Lemma questionSchema_keys (path : jsstring) (v v' : value) (k : jsstring) :
  questionSchema true path v = ([], v') ->
  arrow v' k <> None -> k ∈ questionKeys.
Proof.
  intros H Hk.
  assert (Ho : exists o, v = VObj o).
  { destruct v; try discriminate. eauto. }
  exact (Joi_object_keys _ _ _ _ _ _ _ H Ho Hk).
Qed.

Lemma questions_keys (l l' : list value) :
  Forall2 (fun v v' => exists p, questionSchema true p v = ([], v')) l l' ->
  Forall (fun q' => forall k, arrow q' k <> None -> k ∈ questionKeys) l'.
Proof.
  induction 1 as [|v v' l l' [p Hv] _ IH]; constructor; [|exact IH].
  intros k. by eapply questionSchema_keys.
Qed.

(** A body that passes quizSchema, and the value the schema converts it
    to. *)
Lemma quizSchema_converted (o : object) (converted : option value) :
  validate (quizSchema true) (VObj o) = ([], converted) ->
  exists title n difficulty questionType language qs qs',
    get "title" o = Some (VStr title)
    /\ declaredNumber (get "numQuestions" o) = Some n
    /\ get "difficulty" o = Some difficulty
    /\ get "questionType" o = Some questionType
    /\ language = default (VStr "english") (get "language" o)
    /\ existsb (sameScalar language) languages = true
    /\ get "questions" o = Some (VArr qs)
    /\ Forall2 (fun v v' => exists p, questionSchema true p v = ([], v'))
         qs qs'
    /\ existsb (sameScalar difficulty) difficulties = true
    /\ existsb (sameScalar questionType) questionTypes = true
    /\ converted
       = Some (VObj (literal
           [("title" : jsstring, Some (VStr (trim title)));
            ("topic" : jsstring,
             (fun t => VStr (trim (asString (Some t))))
               <$> get "topic" o);
            ("numQuestions" : jsstring, Some (VNum n));
            ("difficulty" : jsstring, Some difficulty);
            ("questionType" : jsstring, Some questionType);
            ("language" : jsstring, Some language);
            ("questions" : jsstring, Some (VArr qs'))])).
Proof.
  unfold validate, quizSchema. intros H.
  apply required_valid in H as (v0 & v1 & [= <-] & -> & H).
  unfold Joi_object in H. cbn [validateKeys] in H.
  repeat match type of H with
         | context [required ?r ?p (get ?k o)] =>
             destruct (required r p (get k o)) as [? ?] eqn:?
         | context [optional ?r ?p (get ?k o)] =>
             destruct (optional r p (get k o)) as [? o5] eqn:Htopic
         | context [default_ ?d ?r ?p (get ?k o)] =>
             destruct (default_ d r p (get k o)) as [? o6] eqn:Hlanguage
         end.
  injection H as He <-. rewrite !app_nil_r in He.
  repeat match goal with
         | H : _ ++ _ = [] |- _ => apply app_nil_inv in H as [-> H]
         end.
  subst.
  repeat match goal with
         | H : required _ _ _ = _ |- _ =>
             apply required_valid in H as (? & ? & ? & -> & H)
         end.
  match goal with
  | H : Joi_string _ _ _ _ = _ |- _ =>
      apply Joi_string_valid in H as (title & -> & -> & _)
  end.
  match goal with
  | H : Joi_number _ _ _ = _ |- _ =>
      apply Joi_number_valid in H as (n & Hn & -> & _)
  end.
  repeat match goal with
         | H : Joi_valid _ _ _ = _ |- _ =>
             apply Joi_valid_valid in H as [-> ?]
         end.
  match goal with
  | H : Joi_array _ _ _ _ = _ |- _ =>
      apply Joi_array_valid in H as (qs & qs' & -> & -> & Hmin & Hqs)
  end.
  apply optional_valid in Htopic
    as [[Ht ->]|(t & t' & Ht & -> & Htopic)];
    apply default_valid in Hlanguage
      as [[Hl ->]|(l & l' & Hl & -> & Hlanguage)];
    try (apply Joi_valid_valid in Hlanguage as [-> Hlanguage]);
    try (apply Joi_string_valid in Htopic as (s & -> & -> & _));
    exists title, n; do 2 eexists;
    exists (default (VStr "english") (get "language" o)), qs, qs';
    repeat match goal with H : get _ o = _ |- _ => rewrite H in * end;
    repeat split; try done.
Qed.

Lemma INSERT_quiz_row (created_at : Z) (user_id title : jsstring)
    (topic : option jsstring) (num_questions : Z)
    (difficulty question_type : jsstring) (questions : value)
    (language : jsstring) (d d' : Db) (row : QuizRow) :
  INSERT_quiz created_at user_id title topic num_questions difficulty
    question_type questions language d = Return (row, d') ->
  row = {| q_id := quizzes_id_seq d + 1; q_user_id := user_id;
           q_title := title; q_topic := topic;
           q_num_questions := num_questions; q_difficulty := difficulty;
           q_question_type := question_type; q_language := language;
           q_questions := questions; q_created_at := created_at |}
  /\ tables d' = (quizzes d ++ [row], quiz_results d, quiz_history d)
  /\ forall q, q ∈ quizzes d -> q_id q <> q_id row.
Proof.
  intros H. pose proof (INSERT_quiz_Return _ _ _ _ _ _ _ _ _ _ _ _ H)
    as (_ & _ & _ & _ & Hnew).
  unfold INSERT_quiz in H. destruct (existsb _ _); [discriminate|].
  injection H as <- <-. by repeat split.
Qed.

(** X3. A quiz that createQuiz accepts (201) is stored as one new row, and
    nothing else changes: the owner of the row is the user-id header of the
    request, whatever the body says; the title is the submitted title without
    its surrounding white space; the language is english when the body gives
    none; the number of questions is the length of the submitted array; each
    stored question has the prompt, options, answer and explanation that were
    submitted and no other property (unknown properties are stripped); the key
    of the row is new and is the id of the answer. *)
Theorem createQuiz_stores
    (req : Request) (userId : jsstring) (w w1 : World)
    (response : Response) :
  authenticated req userId -> tx w = None ->
  createQuiz req w = (Return response, w1) ->
  status response = 201%Z ->
  exists o title qs qs' row,
    body req = VObj o
    /\ get "title" o = Some (VStr title)
    /\ get "questions" o = Some (VArr qs)
    /\ tables (db w1)
       = (quizzes (db w) ++ [row], quiz_results (db w), quiz_history (db w))
    /\ q_user_id row = userId
    /\ q_title row = trim title
    /\ q_num_questions row = Z.of_nat (length qs)
    /\ (truthy (get "language" o) = false -> q_language row = "english")
    /\ (forall l, get "language" o = Some (VStr l) -> l <> [] ->
          q_language row = l)
    /\ q_created_at row = now w
    /\ q_questions row = VArr qs'
    /\ Forall2 sameQuestion qs qs'
    /\ Forall (fun q' => forall k, arrow q' k <> None -> k ∈ questionKeys)
         qs'
    /\ (forall q, q ∈ quizzes (db w) -> q_id q <> q_id row)
    /\ at_path ["quiz"; "id"] (json response) = Some (VNum (q_id row)).
Proof.
  intros Hauth Htx. unfold createQuiz.
  rewrite (simpleAuth_authenticated _ _ _ Hauth).
  unfold createQuiz_try.
  destruct (body req) as [| | | | |o] eqn:Hreq;
    try (cbv; intros [= <- <-]; discriminate).
  match goal with
  | |- context [validate (quizSchema true) ?b] =>
      destruct (validate (quizSchema true) b) as [error value] eqn:Hval
  end.
  destruct error as [|d error]; cbn [length Nat.eqb negb]; run_monad;
    [|intros [= <- <-]; discriminate].
  apply quizSchema_converted in Hval
    as (title & n & difficulty & questionType & language & qs & qs'
        & Htitle & Hn & Hdiff & Htype & Hlang & Hlangs & Hqs & Hvalid
        & Hdiffs & Htypes & ->).
  rewrite get_if_set in Htitle, Hqs by reflexivity.
  cbn [asObject]. literal_keys.
  destruct (length qs' =? 0); run_monad;
    [intros [= <- <-]; discriminate|].
  cbn [asNumber].
  destruct (n =? Z.of_nat (length qs'))%Z eqn:Hlen; cbn [negb]; run_monad;
    [|intros [= <- <-]; discriminate].
  apply Z.eqb_eq in Hlen.
  destruct (forEach _ qs' 0) as [u|e]; run_monad;
    [|destruct e; intros [= <- <-]; discriminate].
  match goal with
  | |- context [statement ?sql ?run w] =>
      destruct (statement sql run w) as [[row|e] w'] eqn:Hst
  end; run_monad; [|destruct e; intros [= <- <-]; discriminate].
  apply statement_Return in Hst as (d' & Hins & <- & _); [|done].
  apply INSERT_quiz_row in Hins as (Hrow & Htables & Hnew).
  intros [= <- <-] _.
  pose proof (questions_valid _ _ Hvalid) as [Hsame _].
  exists o, title, qs, qs', row.
  split; [reflexivity|]. split; [exact Htitle|]. split; [exact Hqs|].
  split; [exact Htables|].
  rewrite Hrow. cbn [q_user_id q_title q_num_questions q_language
                     q_created_at q_questions q_id].
  split; [reflexivity|]. split; [reflexivity|].
  split; [rewrite Hlen; f_equal; symmetry; by eapply Forall2_length|].
  split.
  { intros Hfalsy. rewrite Hlang. rewrite Hfalsy. cbn [negb].
    rewrite get_set. reflexivity. }
  split.
  { intros l Hl Hne.
    assert (Ht : truthy (Some (VStr l)) = true)
      by (simpl; by rewrite isEmpty_false).
    rewrite Hlang, Hl, Ht. cbn [negb]. rewrite Hl.
    change (default (VStr "english") (Some (VStr l))) with (VStr l).
    unfold or_. by rewrite Ht. }
  split; [reflexivity|]. split; [reflexivity|]. split; [exact Hsame|].
  split; [exact (questions_keys _ _ Hvalid)|].
  split; [by rewrite Hrow in Hnew|reflexivity].
Qed.
End CreateQuizStores.

(** ** Rows are only added, and only for the caller *)

Section Writes.
Context {L : Libraries}.

Lemma createQuiz_cases (req : Request) (userId : jsstring) (w w' : World)
    (r : result Response) :
  authenticated req userId -> tx w = None ->
  createQuiz req w = (r, w') ->
  db w' = db w
  \/ exists row,
       tables (db w')
       = (quizzes (db w) ++ [row], quiz_results (db w), quiz_history (db w))
       /\ q_user_id row = userId.
Proof.
  intros Hauth Htx. unfold createQuiz.
  rewrite (simpleAuth_authenticated _ _ _ Hauth).
  unfold createQuiz_try.
  destruct (validate _ _) as [error value].
  destruct error as [|d error]; cbn [length Nat.eqb negb]; run_monad;
    [|intros [= <- <-]; by left].
  destruct (get "questions" (asObject value)) as [[| | | |questions|]|];
    run_monad; try (intros [= <- <-]; by left).
  destruct (length questions =? 0); run_monad;
    [intros [= <- <-]; by left|].
  destruct (negb _); run_monad; [intros [= <- <-]; by left|].
  destruct (forEach _ questions 0) as [u|e]; run_monad;
    [|destruct e; intros [= <- <-]; by left].
  match goal with
  | |- context [statement ?sql ?run w] =>
      destruct (statement sql run w) as [[row|e] w1] eqn:Hst
  end; run_monad.
  - apply statement_Return in Hst as (d' & Hins & <- & _); [|done].
    apply INSERT_quiz_row in Hins as (Hrow & Htables & _).
    intros [= <- <-]. right. exists row. split; [exact Htables|].
    by rewrite Hrow.
  - apply statement_cases in Hst as [_ Hst].
    destruct Hst as [(e' & _ & Hdb & _)|(a & d & [= ] & _)].
    destruct e; intros [= <- <-]; by left.
Qed.

Lemma recordResult_try_cases (userId : jsstring) (req : Request)
    (w1 w2 : World) (r1 : result Response) :
  recordResult_try userId req w1 = (r1, w2) ->
  (exists e, r1 = Throw e /\ db w2 = db w1)
  \/ (exists response,
        r1 = Return response /\ status response = 201%Z
        /\ (exists row,
              qr_user_id row = userId
              /\ tables (db w2)
                 = (quizzes (current w1), quiz_results (current w1) ++ [row],
                    quiz_history (current w1)))
        /\ tx w2 = None).
Proof.
  unfold recordResult_try.
  destruct (validate _ _) as [[|d error] value];
    [|intros [= <- <-]; left; eauto].
  intros Hb. apply checkedInsert_cases in Hb
    as [?|(row & d & -> & Href & Hins & Hd & Ht)]; [by left|].
  right. eexists. split; [reflexivity|]. split; [reflexivity|].
  split; [|exact Ht].
  apply INSERT_result_Return in Hins as (Hq & Hr & Hh & Hid & Hu).
  exists row. split; [exact Hu|]. unfold tables. by rewrite Hd, Hq, Hr, Hh.
Qed.

Lemma recordHistory_try_cases (userId : jsstring) (req : Request)
    (w1 w2 : World) (r1 : result Response) :
  recordHistory_try userId req w1 = (r1, w2) ->
  (exists e, r1 = Throw e /\ db w2 = db w1)
  \/ (exists response,
        r1 = Return response /\ status response = 201%Z
        /\ (exists row,
              qh_user_id row = userId
              /\ tables (db w2)
                 = (quizzes (current w1), quiz_results (current w1),
                    quiz_history (current w1) ++ [row]))
        /\ tx w2 = None).
Proof.
  unfold recordHistory_try.
  destruct (validate _ _) as [[|d error] value];
    [|intros [= <- <-]; left; eauto].
  intros Hb. apply checkedInsert_cases in Hb
    as [?|(row & d & -> & Href & Hins & Hd & Ht)]; [by left|].
  right. eexists. split; [reflexivity|]. split; [reflexivity|].
  split; [|exact Ht].
  apply INSERT_history_Return in Hins as (Hq & Hr & Hh & Hid & Hu).
  exists row. split; [exact Hu|]. unfold tables. by rewrite Hd, Hq, Hr, Hh.
Qed.

Lemma failed_or_created (r : result Response) :
  failed r \/ exists response, r = Return response /\ status response = 201%Z.
Proof.
  destruct r as [response|e]; [|left; intros ? [= ]].
  destruct (decide (status response = 201%Z)) as [Hs|Hs]; [right; eauto|].
  left. by intros ? [= <-].
Qed.

(** X4. The routes that write (a new quiz, a result, a history entry) never
    change or remove a row, whatever they answer and whichever statement
    fails: the tables after the request are the tables before it with at most
    one row added at the end of one of them, and that row belongs to the user
    of the identity header. *)
Theorem writes_add_own_rows (req : Request) (userId : jsstring) (w : World) :
  authenticated req userId -> tx w = None ->
  Forall
    (fun route : Request -> M Response =>
       exists qs rs hs,
         tables (db (snd (route req w)))
         = (quizzes (db w) ++ qs, quiz_results (db w) ++ rs,
            quiz_history (db w) ++ hs)
         /\ Forall (fun q => q_user_id q = userId) qs
         /\ Forall (fun qr => qr_user_id qr = userId) rs
         /\ Forall (fun qh => qh_user_id qh = userId) hs
         /\ length qs + length rs + length hs <= 1)
    [createQuiz; recordResult; recordHistory].
Proof.
  intros Hauth Htx.
  assert (Hsame : forall d : Db,
            d = db w ->
            exists qs rs hs,
              tables d
              = (quizzes (db w) ++ qs, quiz_results (db w) ++ rs,
                 quiz_history (db w) ++ hs)
              /\ Forall (fun q => q_user_id q = userId) qs
              /\ Forall (fun qr => qr_user_id qr = userId) rs
              /\ Forall (fun qh => qh_user_id qh = userId) hs
              /\ length qs + length rs + length hs <= 1).
  { intros d ->. exists [], [], []. unfold tables. rewrite !app_nil_r.
    repeat split; try (by repeat constructor); simpl; lia. }
  repeat (apply List.Forall_cons; [|]); [| | |apply List.Forall_nil].
  - destruct (createQuiz req w) as [r w'] eqn:H. cbn [snd].
    apply (createQuiz_cases _ userId) in H as [H|(row & H & Hu)]; try done.
    + by apply Hsame.
    + exists [row], [], []. rewrite H, !app_nil_r.
      repeat split; try (by repeat constructor); simpl; lia.
  - destruct (recordResult req w) as [r w'] eqn:H. cbn [snd].
    unfold recordResult in H.
    apply (submission_handler recordResult_try
             (fun userId wc d =>
                exists row,
                  qr_user_id row = userId
                  /\ tables d
                     = (quizzes (current wc),
                        quiz_results (current wc) ++ [row],
                        quiz_history (current wc)))) in H;
      [|intros; by eapply recordResult_try_cases].
    destruct H as (Hfail & _ & Hok).
    destruct (failed_or_created r) as [Hf|(response & Hr & Hs)];
      [by apply Hsame, Hfail|].
    destruct (Hok response userId Hr Hs Hauth Htx)
      as (wc & Hdb & Htxc & row & Hu & Ht).
    unfold current in Ht. rewrite Htxc in Ht. simpl in Ht. rewrite Hdb in Ht.
    exists [], [row], []. rewrite Ht, !app_nil_r.
    repeat split; try (by repeat constructor); simpl; lia.
  - destruct (recordHistory req w) as [r w'] eqn:H. cbn [snd].
    unfold recordHistory in H.
    apply (submission_handler recordHistory_try
             (fun userId wc d =>
                exists row,
                  qh_user_id row = userId
                  /\ tables d
                     = (quizzes (current wc), quiz_results (current wc),
                        quiz_history (current wc) ++ [row]))) in H;
      [|intros; by eapply recordHistory_try_cases].
    destruct H as (Hfail & _ & Hok).
    destruct (failed_or_created r) as [Hf|(response & Hr & Hs)];
      [by apply Hsame, Hfail|].
    destruct (Hok response userId Hr Hs Hauth Htx)
      as (wc & Hdb & Htxc & row & Hu & Ht).
    unfold current in Ht. rewrite Htxc in Ht. simpl in Ht. rewrite Hdb in Ht.
    exists [], [], [row]. rewrite Ht, !app_nil_r.
    repeat split; try (by repeat constructor); simpl; lia.
Qed.
End Writes.

(** ** What a user reads depends on the rows of that user only *)

Lemma alike_eq {A : Type} (r1 r2 : result A) : alike eq r1 r2 -> r1 = r2.
Proof. destruct r1, r2; simpl; try done; by intros ->. Qed.

Lemma eq_alike {A : Type} (r1 r2 : result A) : r1 = r2 -> alike eq r1 r2.
Proof. intros ->. by destruct r2. Qed.

(** A statement that only reads gives alike answers on two connections
    that fail at the same statements, when it reads alike from the two
    stores. *)
Lemma statement_alike {A : Type} (R : A -> A -> Prop) (sql : string)
    (run : Db -> result (A * Db)) (w1 w2 : World) :
  tx w1 = None -> tx w2 = None -> faults w1 = faults w2 ->
  (forall d a d', run d = Return (a, d') -> d' = d) ->
  alike R (fst <$> run (db w1)) (fst <$> run (db w2)) ->
  alike R (fst (statement sql run w1)) (fst (statement sql run w2))
  /\ tx (snd (statement sql run w1)) = None
  /\ tx (snd (statement sql run w2)) = None
  /\ faults (snd (statement sql run w1)) = faults (snd (statement sql run w2))
  /\ db (snd (statement sql run w1)) = db w1
  /\ db (snd (statement sql run w2)) = db w2.
Proof.
  intros Ht1 Ht2 Hf Hro Hrun. unfold statement, current.
  rewrite Ht1, Ht2, Hf. simpl.
  destruct (faults w2) as [|[] fs]; simpl; [|done|];
    destruct (run (db w1)) as [[a1 d1]|e1] eqn:H1,
             (run (db w2)) as [[a2 d2]|e2] eqn:H2;
    try done;
    try (apply Hro in H1; apply Hro in H2; subst d1 d2);
    simpl; by rewrite ?Ht1, ?Ht2.
Qed.

Lemma connect_alike (w1 w2 : World) :
  tx w1 = None -> tx w2 = None -> faults w1 = faults w2 ->
  fst (connect w1) = fst (connect w2)
  /\ tx (snd (connect w1)) = None
  /\ tx (snd (connect w2)) = None
  /\ faults (snd (connect w1)) = faults (snd (connect w2))
  /\ db (snd (connect w1)) = db w1
  /\ db (snd (connect w2)) = db w2.
Proof.
  intros Ht1 Ht2 Hf. unfold connect, control. rewrite Hf.
  destruct (faults w2) as [|[] fs]; simpl; by rewrite ?Ht1, ?Ht2.
Qed.

(** *** Rows in an order that the statement fixes *)

#[global] Instance newest_first_transitive : Transitive newest_first.
Proof. intros a b c. unfold newest_first. lia. Qed.

#[global] Instance latest_attempt_first_transitive
  : Transitive latest_attempt_first.
Proof. intros a b c. unfold latest_attempt_first. lia. Qed.

#[global] Instance latest_attempt_first_total : Total latest_attempt_first.
Proof. intros a b. unfold latest_attempt_first. lia. Qed.

Lemma NoDup_map_inj {A B : Type} (f : A -> B) (l : list A) (x y : A) :
  NoDup (map f l) -> x ∈ l -> y ∈ l -> f x = f y -> x = y.
Proof.
  induction l as [|a l IH]; intros Hnd Hx Hy Hf; [by inversion Hx|].
  cbn [map] in Hnd. apply NoDup_cons in Hnd as [Ha Hnd].
  apply elem_of_cons in Hx as [->|Hx], Hy as [->|Hy]; try done.
  - exfalso. apply Ha. rewrite Hf. by apply (list_elem_of_fmap_2 f).
  - exfalso. apply Ha. rewrite <- Hf. by apply (list_elem_of_fmap_2 f).
  - by apply IH.
Qed.

Lemma NoDup_map_filter {A B : Type} (f : A -> B) (p : A -> bool)
    (l : list A) :
  NoDup (map f l) -> NoDup (map f (List.filter p l)).
Proof.
  induction l as [|a l IH]; intros Hnd; [done|].
  cbn [map] in Hnd. apply NoDup_cons in Hnd as [Ha Hnd]. cbn [List.filter].
  destruct (p a); [|by apply IH]. cbn [map]. apply NoDup_cons.
  split; [|by apply IH]. intros Hin. apply Ha.
  apply list_elem_of_fmap in Hin as (x & -> & Hx).
  apply (list_elem_of_fmap_2 f).
  by apply list_elem_of_In, filter_In in Hx as [Hx%list_elem_of_In _].
Qed.

(** Rows with pairwise distinct sort keys have one sorted arrangement. *)
Lemma sorted_arrangement {A : Type} (R : relation A)
    `{!forall x y, Decision (R x y)} `{!Total R} `{!Transitive R}
    (key : A -> Z) (l1 l2 : list A) :
  (forall a b, R a b -> R b a -> key a = key b) ->
  NoDup (map key l1) -> l1 ≡ₚ l2 ->
  merge_sort R l1 = merge_sort R l2.
Proof.
  intros Hkey Hnd Hperm.
  apply (Sorted_unique_strong R).
  - intros x1 x2 H1 H2 Hle Hge.
    rewrite merge_sort_Permutation in H1, H2. rewrite <- Hperm in H2.
    apply (NoDup_map_inj key l1); [done..|by apply Hkey].
  - by apply Sorted_merge_sort.
  - by apply Sorted_merge_sort.
  - by rewrite !merge_sort_Permutation.
Qed.

Lemma MAX_elem_of (l : list Z) (m : Z) :
  MAX l = Some m <-> m ∈ l /\ forall x, x ∈ l -> (x <= m)%Z.
Proof.
  destruct l as [|a l]; cbn [MAX].
  - split; [discriminate|]. intros [H _]. by inversion H.
  - assert (H : forall l a,
              fold_left Z.max l a ∈ a :: l
              /\ forall x, x ∈ a :: l -> (x <= fold_left Z.max l a)%Z).
    { clear. induction l as [|b l IH]; intros a; cbn [fold_left].
      - split; [by left|]. intros x Hx. apply list_elem_of_singleton in Hx.
        lia.
      - destruct (IH (Z.max a b)) as [Hin Hle]. split.
        + apply elem_of_cons in Hin as [Hin|Hin].
          * rewrite Hin. destruct (Z.max_spec a b) as [[_ ->]|[_ ->]];
              [right; by left|by left].
          * right; by right.
        + intros x Hx. apply elem_of_cons in Hx as [->|Hx].
          * pose proof (Hle (Z.max a b) ltac:(by left)). lia.
          * apply elem_of_cons in Hx as [->|Hx].
            -- pose proof (Hle (Z.max a b) ltac:(by left)). lia.
            -- apply Hle. by right. }
    destruct (H l a) as [Hin Hle]. split.
    + by intros [= <-].
    + intros [Hm Hmax]. f_equal. pose proof (Hle m Hm).
      pose proof (Hmax _ Hin). lia.
Qed.

Lemma MAX_Permutation (l1 l2 : list Z) : l1 ≡ₚ l2 -> MAX l1 = MAX l2.
Proof.
  intros Hperm. destruct (MAX l1) as [m|] eqn:H1.
  - symmetry. apply MAX_elem_of. apply MAX_elem_of in H1 as [Hin Hle].
    split; [by rewrite <- Hperm|]. intros x Hx. apply Hle.
    by rewrite Hperm.
  - destruct l1; [|discriminate]. apply Permutation_nil_l in Hperm. by subst.
Qed.

Section Isolation.
Context {L : Libraries}.

Lemma ordered_quizzes_visible (user_id : jsstring) (d1 d2 : Db) :
  List.filter (owned_by user_id) (quizzes d1)
  = List.filter (owned_by user_id) (quizzes d2) ->
  NoDup (map q_created_at (List.filter (owned_by user_id) (quizzes d1))) ->
  ordered_quizzes user_id d1 = ordered_quizzes user_id d2.
Proof.
  intros Hq Hnd. unfold ordered_quizzes.
  apply (sorted_arrangement newest_first q_created_at).
  - unfold newest_first. intros a b. lia.
  - by rewrite row_order_Permutation.
  - by rewrite !row_order_Permutation, Hq.
Qed.

Lemma SELECT_quizzes_visible (user_id : jsstring) (limit offset : Z)
    (d1 d2 : Db) :
  visible_to user_id d1 = visible_to user_id d2 ->
  NoDup (map q_created_at (List.filter (owned_by user_id) (quizzes d1))) ->
  fst <$> SELECT_quizzes user_id limit offset d1
  = fst <$> SELECT_quizzes user_id limit offset d2.
Proof.
  intros [= Hq Hr] Hnd. unfold SELECT_quizzes.
  destruct (offset <? 0)%Z; [reflexivity|].
  destruct (limit <? 0)%Z; [reflexivity|].
  simpl. rewrite (ordered_quizzes_visible _ _ _ Hq Hnd). f_equal.
  apply map_ext_in. intros q Hin.
  assert (Ho : owned_by user_id q = true).
  { apply list_elem_of_In in Hin.
    assert (H : q ∈ List.filter (owned_by user_id) (quizzes d2)).
    { rewrite <- (proj2 (ordered_quizzes_sorted user_id d2)).
      eapply elem_of_sublist; [|apply sublist_drop].
      eapply elem_of_sublist; [exact Hin|apply sublist_take]. }
    apply list_elem_of_In, filter_In in H. tauto. }
  unfold listing_row. by rewrite !(joined_results_owned user_id _ _ Ho), Hr.
Qed.

Lemma SELECT_count_visible (user_id : jsstring) (d1 d2 : Db) :
  visible_to user_id d1 = visible_to user_id d2 ->
  fst <$> SELECT_count user_id d1 = fst <$> SELECT_count user_id d2.
Proof. intros [= Hq Hr]. unfold SELECT_count. simpl. by rewrite Hq. Qed.

Lemma SELECT_details_visible (id user_id : jsstring) (d1 d2 : Db) :
  visible_to user_id d1 = visible_to user_id d2 ->
  NoDup (map qr_completed_at (results_of user_id d1)) ->
  alike (Forall2 same_details)
    (fst <$> SELECT_details id user_id d1)
    (fst <$> SELECT_details id user_id d2).
Proof.
  intros [= Hq Hr] Hnd. unfold SELECT_details.
  destruct (int4in id) as [n|]; [|reflexivity]. simpl.
  rewrite !(filter_andb (fun q => (q_id q =? n)%Z)
              (fun q => eqs (q_user_id q) user_id)).
  rewrite !(filter_andb (fun qr => (qr_quiz_id qr =? n)%Z)
              (fun qr => eqs (qr_user_id qr) user_id)).
  unfold results_of in Hr, Hnd. unfold owned_by in Hq. rewrite Hq, Hr.
  induction (List.filter (fun q => (q_id q =? n)%Z) _) as [|q l IH];
    [constructor|].
  cbn [map]. constructor; [|exact IH]. split; [reflexivity|]. cbn [snd].
  split; [by rewrite !row_order_Permutation|].
  rewrite row_order_Permutation, <- Hr. by apply NoDup_map_filter.
Qed.

Lemma SELECT_overall_visible (user_id : jsstring) (d1 d2 : Db) :
  visible_to user_id d1 = visible_to user_id d2 ->
  alike same_counts
    (fst <$> SELECT_overall user_id d1) (fst <$> SELECT_overall user_id d2).
Proof.
  intros [= Hq Hr]. unfold SELECT_overall. simpl. rewrite Hr.
  by repeat split.
Qed.

Lemma SELECT_monthly_visible (user_id : jsstring) (d1 d2 : Db) :
  visible_to user_id d1 = visible_to user_id d2 ->
  alike (Forall2 same_months)
    (fst <$> SELECT_monthly user_id d1) (fst <$> SELECT_monthly user_id d2).
Proof.
  intros [= Hq Hr]. unfold SELECT_monthly. simpl. rewrite Hr.
  induction (take 12 _) as [|m l IH]; [constructor|].
  cbn [map]. constructor; [|exact IH]. split; [reflexivity|]. cbn [snd].
  by rewrite !row_order_length.
Qed.

Ltac alike_statement R Ht1 Ht2 Hf :=
  match goal with
  | |- context [statement ?sql ?run ?w1] =>
      match goal with
      | |- context [statement sql run ?w2] =>
          lazymatch w1 with
          | w2 => fail
          | _ =>
              let H := fresh "H" in
              assert (H := statement_alike R sql run w1 w2 Ht1 Ht2 Hf);
              destruct (statement sql run w1) as [? ?],
                       (statement sql run w2) as [? ?];
              cbn [fst snd] in H
          end
      end
  end.

(** X5. On two stores in which a user owns the same quizzes and has
    recorded the same results, the rows of the other users, and the
    results they recorded on quizzes of this user, have no influence on
    what this user reads, whichever statement fails: the listing is the
    same when the quizzes of the user were created at pairwise distinct
    instants, the details of a quiz are the same when the results of the
    user were completed at pairwise distinct instants (PostgreSQL is free
    in the order of rows that are equal under ORDER BY), and the
    statistics have the same status, counts, highest score, first and
    last attempt, and the same months with the same numbers of attempts.
    The averages and the lists of topics and difficulty levels are left
    out: they depend on the order in which PostgreSQL delivers the
    rows. *)
Theorem reads_are_isolated
    (req : Request) (userId : jsstring) (w1 w2 : World) :
  authenticated req userId ->
  tx w1 = None -> tx w2 = None -> faults w1 = faults w2 ->
  visible_to userId (db w1) = visible_to userId (db w2) ->
  (NoDup (map q_created_at
            (List.filter (owned_by userId) (quizzes (db w1)))) ->
   fst (listQuizzes req w1) = fst (listQuizzes req w2))
  /\ (NoDup (map qr_completed_at (results_of userId (db w1))) ->
      fst (getQuizDetail req w1) = fst (getQuizDetail req w2))
  /\ alike
       (fun response1 response2 =>
          status response1 = status response2
          /\ Forall
               (fun path =>
                  at_path path (json response1)
                  = at_path path (json response2))
               countPaths
          /\ monthlyAttempts (json response1)
             = monthlyAttempts (json response2))
       (fst (statistics req w1)) (fst (statistics req w2)).
Proof.
  intros Hauth Ht1 Ht2 Hf Hv. split; [|split].
  - intros Hnd.
    unfold listQuizzes. rewrite !(simpleAuth_authenticated _ _ _ Hauth).
    run_monad.
    alike_statement (@eq (list object)) Ht1 Ht2 Hf.
    destruct H as (->%alike_eq & Ht1' & Ht2' & Hf' & Hd1 & Hd2);
      [intros; by eapply SELECT_quizzes_readonly
      |by apply eq_alike, SELECT_quizzes_visible|].
    destruct r0 as [quizzes|e]; [|reflexivity].
    alike_statement (@eq value) Ht1' Ht2' Hf'.
    destruct H as (->%alike_eq & _);
      [unfold SELECT_count; by intros ? ? ? [= _ <-]
      |apply eq_alike, SELECT_count_visible; by rewrite Hd1, Hd2|].
    by destruct r0.
  - intros Hnd.
    unfold getQuizDetail. rewrite !(simpleAuth_authenticated _ _ _ Hauth).
    run_monad.
    pose proof (connect_alike w1 w2 Ht1 Ht2 Hf)
      as (Hc & Htc1 & Htc2 & Hfc & Hdc1 & Hdc2).
    destruct (connect w1) as [c1 wc1], (connect w2) as [c2 wc2].
    cbn [fst snd] in *. subst c2.
    destruct c1 as [[]|e]; [|reflexivity].
    unfold getQuizDetail_try. run_monad.
    alike_statement (Forall2 same_details) Htc1 Htc2 Hfc.
    destruct H as (Hsame & _);
      [intros; by eapply SELECT_details_readonly
      |apply SELECT_details_visible; by rewrite Hdc1, ?Hdc2|].
    destruct r as [rows1|e1], r0 as [rows2|e2]; try done;
      [|by simpl in Hsame; subst].
    simpl in Hsame.
    destruct Hsame as [|[q1 a1] [q2 a2] rows1 rows2 (Hq & Ha & Hnda) _];
      [reflexivity|].
    cbn [fst snd] in Hq, Ha, Hnda. subst q2.
    rewrite <- (MAX_Permutation _ _ (Permutation_map qr_score Ha)).
    unfold COUNT. rewrite <- (Permutation_length Ha).
    rewrite <- (sorted_arrangement latest_attempt_first qr_completed_at
                  a1 a2 ltac:(unfold latest_attempt_first; intros; lia)
                  Hnda Ha).
    by destruct (match q_questions q1 with
                 | VArr questions => forEach detailQuestion questions 0
                 | _ => _
                 end).
  - unfold statistics. rewrite !(simpleAuth_authenticated _ _ _ Hauth).
    run_monad.
    pose proof (connect_alike w1 w2 Ht1 Ht2 Hf)
      as (Hc & Htc1 & Htc2 & Hfc & Hdc1 & Hdc2).
    destruct (connect w1) as [c1 wc1], (connect w2) as [c2 wc2].
    cbn [fst snd] in *. subst c2.
    destruct c1 as [[]|e]; [|reflexivity].
    alike_statement same_counts Htc1 Htc2 Hfc.
    destruct H as (Hsame & Ht1' & Ht2' & Hf' & Hd1 & Hd2);
      [unfold SELECT_overall; by intros ? ? ? [= _ <-]
      |apply SELECT_overall_visible; by rewrite Hdc1, Hdc2|].
    destruct r as [o1|e1], r0 as [o2|e2]; try done;
      [|simpl in Hsame; subst; repeat split; repeat constructor].
    simpl in Hsame. destruct Hsame as (Hs1 & Hs2 & Hs3 & Hs4 & Hs5).
    alike_statement (fun _ _ : list object => True) Ht1' Ht2' Hf'.
    destruct H as (Htopics & Ht1'' & Ht2'' & Hf'' & Hd1' & Hd2');
      [unfold SELECT_topics; by intros ? ? ? [= _ <-]|done|].
    destruct r as [topics1|e1], r0 as [topics2|e2]; try done;
      [|simpl in Htopics; subst; repeat split; repeat constructor].
    alike_statement (Forall2 same_months) Ht1'' Ht2'' Hf''.
    destruct H as (Hmonths & _);
      [unfold SELECT_monthly; by intros ? ? ? [= _ <-]
      |apply SELECT_monthly_visible;
       by rewrite Hd1', Hd2', Hd1, Hd2, Hdc1, Hdc2|].
    destruct r as [months1|e1], r0 as [months2|e2]; try done;
      [|simpl in Hmonths; subst; repeat split; repeat constructor].
    simpl in Hmonths.
    destruct (processQuizStatistics topics1) as [t1 l1],
             (processQuizStatistics topics2) as [t2 l2].
    cbn [alike fst]. split; [reflexivity|]. split.
    + unfold countPaths.
      repeat (apply List.Forall_cons; [|]); [..|apply List.Forall_nil];
        path; by rewrite ?Hs1, ?Hs2, ?Hs3, ?Hs4, ?Hs5.
    + unfold monthlyAttempts. path. f_equal. rewrite !map_map.
      induction Hmonths as [|[m1 r1] [m2 r2] ms1 ms2 [Hm Hl] _ IH];
        [reflexivity|].
      cbn [map]. rewrite IH. f_equal. path. cbn [fst snd] in Hm, Hl.
      unfold COUNT. by rewrite Hm, Hl.
Qed.
End Isolation.

(** ** GET /api/quizzes/:id/take on a key without a quiz *)

Lemma filter_no_key (id : Z) (l : list QuizRow) :
  (forall q, q ∈ l -> q_id q <> id) ->
  List.filter (fun q => (q_id q =? id)%Z) l = [].
Proof.
  induction l as [|q l IH]; intros H; [reflexivity|]. simpl.
  destruct (q_id q =? id)%Z eqn:Hid.
  - apply Z.eqb_eq in Hid. exfalso. apply (H q); [left|done].
  - apply IH. intros q' Hq'. apply H. by right.
Qed.

Section TakeQuizFacts.
Context {L : Libraries}.

(** X6. When no quiz has the requested key, GET /api/quizzes/:id/take does not
    answer 404: the handler throws a NotFoundError, a class that server.js
    never defines, so that a ReferenceError reaches the error handler and the
    answer is 500 with the message NotFoundError is not defined. *)
Theorem takeQuiz_unknown_key
    (req : Request) (userId : jsstring) (w : World) (id : Z) :
  authenticated req userId -> tx w = None -> healthy 1 w ->
  int4in (params_id req) = Some id ->
  (forall q, q ∈ quizzes (db w) -> q_id q <> id) ->
  exists w',
    takeQuiz req w
    = (Return {| status := 500;
                 json := VObj [field "status" (VStr "error");
                               field "message"
                                 (VStr "NotFoundError is not defined")] |},
       w')
    /\ db w' = db w.
Proof.
  intros Hauth Htx Hhealthy Hparam Hnone.
  unfold takeQuiz. rewrite (simpleAuth_authenticated _ _ _ Hauth).
  run_monad.
  destruct (statement_healthy "SELECT ... FROM quizzes WHERE id = $1"
              (SELECT_take (params_id req)) 0 w Hhealthy Htx)
    as (ws & Hs & Hdb & _).
  rewrite Hs. unfold SELECT_take in *.
  rewrite Hparam, filter_no_key in * by exact Hnone.
  cbn [forEach] in *. exists ws. by split.
Qed.
End TakeQuizFacts.

(** ** GET /api/quizzes: the rows of the listing *)

Section ListingFacts.
Context {L : Libraries}.

End ListingFacts.

(** ** GET /api/statistics: the counts *)

Lemma remove_dups_length {A : Type} `{EqDecision A} (l : list A) :
  length (remove_dups l) <= length l.
Proof.
  induction l as [|x l IH]; simpl; [lia|].
  destruct (decide_rel _ _ _); simpl; lia.
Qed.

Section StatisticsCounts.
Context {L : Libraries}.

(** X8. The statistics of a user count the results this user recorded:
    total_attempts is their number, total_quizzes_taken the number of distinct
    quizzes among them (so at most total_attempts), highest_score the best
    score, 0 when there is no result; the monthly progress has at most twelve
    entries. *)
Theorem statistics_counts (req : Request) (userId : jsstring) (w : World) :
  authenticated req userId -> tx w = None -> healthy 4 w ->
  let rows := results_of userId (db w) in
  exists response w' months,
    statistics req w = (Return response, w')
    /\ status response = 200%Z
    /\ at_path ["statistics"; "overall"; "total_attempts"] (json response)
       = Some (VNum (Z.of_nat (length rows)))
    /\ at_path ["statistics"; "overall"; "total_quizzes_taken"]
         (json response)
       = Some (VNum (Z.of_nat (length (remove_dups (map qr_quiz_id rows)))))
    /\ length (remove_dups (map qr_quiz_id rows)) <= length rows
    /\ at_path ["statistics"; "overall"; "highest_score"] (json response)
       = Some (VNum (default 0%Z (MAX (map qr_score rows))))
    /\ at_path ["statistics"; "monthly_progress"] (json response)
       = Some (VArr months)
    /\ length months <= 12.
Proof.
  intros Hauth Htx Hhealthy rows.
  unfold statistics. rewrite (simpleAuth_authenticated _ _ _ Hauth).
  destruct (connect_healthy 3 w Hhealthy) as (wc & Hc & Hdbc & Htxc & Hhc & _).
  run_monad. rewrite Hc.
  destruct (statement_healthy overall_sql
              (SELECT_overall userId) 2 wc Hhc)
    as (w1 & H1 & Hdb1 & Htx1 & Hh1 & _); [congruence|].
  rewrite H1. unfold SELECT_overall in *. simpl in Hdb1.
  destruct (statement_healthy topics_sql
              (SELECT_topics userId) 1 w1 Hh1)
    as (w2 & H2 & Hdb2 & Htx2 & Hh2 & _); [congruence|].
  rewrite H2. unfold SELECT_topics in *. simpl in Hdb2.
  destruct (statement_healthy monthly_sql
              (SELECT_monthly userId) 0 w2 Hh2)
    as (w3 & H3 & _); [congruence|].
  rewrite H3. unfold SELECT_monthly.
  destruct (processQuizStatistics _) as [topics difficulties].
  rewrite Hdb2, Hdb1, Hdbc. fold rows.
  do 3 eexists. split; [reflexivity|]. split; [reflexivity|].
  cbn [total_quizzes_taken total_attempts highest_score].
  split; [path; by rewrite parseInt_COUNT|].
  split; [path; by rewrite parseInt_COUNT|].
  split; [apply (Nat.le_trans _ _ _ (remove_dups_length _));
          by rewrite length_map|].
  split; [path; by rewrite parseInt_or_zero|].
  split; [path; reflexivity|].
  rewrite !length_map, length_take. lia.
Qed.
End StatisticsCounts.

(** ** POST /api/quiz-results and POST /api/quiz-history: the answers *)

Section SubmissionAnswers.
Context {L : Libraries}.

(** The answer 201 of a submission handler comes from its try block. *)
Lemma submission_created (body : M Response) (w w' : World)
    (response : Response) :
  (_ ← connect; finally_release (tryCatch body rollback_and_respond)) w
  = (Return response, w') ->
  status response = 201%Z ->
  exists wc w1,
    db wc = db w /\ tx wc = tx w /\ now wc = now w
    /\ body wc = (Return response, w1) /\ db w' = db w1.
Proof.
  run_monad.
  destruct (connect w) as [[[]|e] wc] eqn:Hc;
    apply control_cases in Hc as [Hnowc Hc];
    destruct Hc as [([= ] & Hdbc & Htxc)|([= ] & Hdbc & Htxc)]; subst;
    [|discriminate].
  simpl in Hdbc, Htxc.
  destruct (body wc) as [[response1|e] w1] eqn:Hb.
  - intros [= <- <-] _. by exists wc, w1.
  - destruct (rollback_and_respond e w1) as [r2 w2] eqn:Hr.
    apply rollback_and_respond_cases in Hr as (_ & Hfail & _).
    intros [= -> <-] Hs. exfalso. by apply (Hfail response).
Qed.

(** A valid body for a number that is the key of no quiz: the catch
    clause answers, for the exception of the handler when the number is an
    INTEGER, and for the one of PostgreSQL when it is not. *)
Lemma submission_invalid_quiz {A : Type} (quizId : Z) (sql : string)
    (insert : Z -> Db -> result (A * Db)) (respond : A -> Response)
    (w : World) :
  tx w = None -> healthy 3 w ->
  (forall q, q ∈ quizzes (db w) -> q_id q <> quizId) ->
  exists w',
    (_ ← connect;
     finally_release
       (tryCatch (checkedInsert quizId sql insert respond)
          rollback_and_respond)) w
    = (Return
         (if int4 quizId
          then validationResponse (ValidationError "Invalid quiz ID")
          else errorHandler (DatabaseError (out_of_range quizId))), w')
    /\ db w' = db w /\ tx w' = None.
Proof.
  intros Htx Hhealthy Hnone.
  destruct (connect_healthy 2 w Hhealthy) as (wc & Hc & Hdbc & Htxc & Hhc & _).
  run_monad. rewrite Hc. unfold checkedInsert. run_monad.
  destruct (statement_healthy "SELECT id FROM quizzes WHERE id = $1"
              (SELECT_quiz_id quizId) 1 wc Hhc)
    as (w1 & H1 & Hdb1 & Htx1 & Hh1 & _); [congruence|].
  rewrite H1. unfold SELECT_quiz_id in *.
  rewrite Hdbc, filter_no_key in * by exact Hnone.
  unfold rollback_and_respond, ROLLBACK, control. run_monad.
  pose proof (healthy_head _ _ Hh1) as Hhead.
  destruct (int4 quizId); cbn [map length Nat.eqb] in *;
    (destruct (faults w1) as [|[] fs]; [|done|];
     eexists; (split; [reflexivity|]); simpl; split; congruence).
Qed.

(** A body the schema rejects: the catch clause answers 400. *)
Lemma submission_rejected (message : jsstring) (w : World) :
  healthy 2 w ->
  exists w',
    (_ ← connect;
     finally_release
       (tryCatch (throw (ValidationError message)) rollback_and_respond)) w
    = (Return (validationResponse (ValidationError message)), w')
    /\ db w' = db w.
Proof.
  intros Hhealthy.
  destruct (connect_healthy 1 w Hhealthy) as (wc & Hc & Hdbc & Htxc & Hhc & _).
  run_monad. rewrite Hc.
  unfold rollback_and_respond, ROLLBACK, control. run_monad.
  pose proof (healthy_head _ _ Hhc) as Hhead.
  destruct (faults wc) as [|[] fs]; [|done|];
    eexists; (split; [reflexivity|]); simpl; congruence.
Qed.

Lemma quizResultSchema_quizId (body : value) (converted : option value) :
  validate (quizResultSchema false) body = ([], converted) ->
  exists o n,
    body = VObj o
    /\ declaredNumber (get "quizId" o) = Some n
    /\ get "quizId" (asObject converted) = Some (VNum n).
Proof.
  unfold validate, quizResultSchema, optional, Joi_object.
  destruct body as [| | | | |o]; try discriminate.
  cbn [validateKeys].
  repeat match goal with
         | |- context [required ?r ?p (get ?k o)] =>
             destruct (required r p (get k o)) as [? ?] eqn:?
         end.
  intros [= He <-].
  repeat match goal with
         | H : _ ++ _ = [] |- _ =>
             let H1 := fresh in
             let H2 := fresh in
             apply app_nil_inv in H as [H1 H2]
         end.
  subst.
  repeat match goal with
         | H : required (Joi_number _) _ _ = _ |- _ =>
             apply required_valid in H as (? & ? & ? & -> & H)
         end.
  match goal with
  | H : Joi_number None _ _ = _ |- _ =>
      apply Joi_number_valid in H as (n & Hn & -> & _)
  end.
  exists o, n. split; [reflexivity|].
  split; [by match goal with
             | H : get _ o = Some ?x, H' : declaredNumber (Some ?x) = _
               |- _ => rewrite H
             end|].
  cbn [asObject literal get]. keys. reflexivity.
Qed.

Lemma quizHistorySchema_quizId (body : value) (converted : option value) :
  validate (quizHistorySchema false) body = ([], converted) ->
  exists o n,
    body = VObj o
    /\ declaredNumber (get "quizId" o) = Some n
    /\ get "quizId" (asObject converted) = Some (VNum n).
Proof.
  unfold validate, quizHistorySchema. intros H.
  apply required_valid in H as (v0 & v1 & [= <-] & -> & H).
  unfold Joi_object in H. destruct body as [| | | | |o]; try discriminate.
  cbn [validateKeys] in H.
  repeat match type of H with
         | context [required ?r ?p (get ?k o)] =>
             destruct (required r p (get k o)) as [? ?] eqn:?
         end.
  injection H as He <-.
  repeat match goal with
         | H : _ ++ _ = [] |- _ =>
             let H1 := fresh in
             let H2 := fresh in
             apply app_nil_inv in H as [H1 H2]
         end.
  subst.
  repeat match goal with
         | H : required (Joi_number _) _ _ = _ |- _ =>
             apply required_valid in H as (? & ? & ? & -> & H)
         end.
  match goal with
  | H : Joi_number None _ _ = _ |- _ =>
      apply Joi_number_valid in H as (n & Hn & -> & _)
  end.
  exists o, n. split; [reflexivity|].
  split; [by match goal with
             | H : get _ o = Some ?x, H' : declaredNumber (Some ?x) = _
               |- _ => rewrite H
             end|].
  cbn [asObject literal get]. keys. reflexivity.
Qed.

(** X9. A result or a history entry whose body passes the schema but names, in
    quizId, a number that is the key of no quiz is refused.  When the number
    is within the range of PostgreSQL's INTEGER, from -2^31 to 2^31 - 1, the
    answer is 400, type validation, with the message Invalid quiz ID.  When
    it is outside that range, PostgreSQL refuses the parameter of the
    statement that looks for the quiz, and the answer is 500 with the
    message of PostgreSQL, value "n" is out of range for type integer.  In
    both cases nothing is stored and no transaction is left open. *)
Theorem unknown_quiz_rejected
    (req : Request) (userId : jsstring) (w : World) (o : object) (id : Z) :
  authenticated req userId -> tx w = None -> healthy 3 w ->
  body req = VObj o ->
  declaredNumber (get "quizId" o) = Some id ->
  (forall q, q ∈ quizzes (db w) -> q_id q <> id) ->
  let answer :=
    if ((- 2 ^ 31 <=? id) && (id <? 2 ^ 31))%Z
    then {| status := 400;
            json := VObj [field "status" (VStr "error");
                          field "type" (VStr "validation");
                          field "message" (VStr "Invalid quiz ID")] |}
    else {| status := 500;
            json := VObj [field "status" (VStr "error");
                          field "message"
                            (VStr ("value " ++ [34%N] ++ NumberToString id
                                   ++ [34%N]
                                   ++ " is out of range for type integer"))]
         |} in
  (fst (validate (quizResultSchema false) (body req)) = [] ->
   exists w',
     recordResult req w = (Return answer, w')
     /\ db w' = db w /\ tx w' = None)
  /\ (fst (validate (quizHistorySchema false) (body req)) = [] ->
      exists w',
        recordHistory req w = (Return answer, w')
        /\ db w' = db w /\ tx w' = None).
Proof.
  intros Hauth Htx Hhealthy Hbody Hid Hnone answer.
  assert (Hanswer :
            answer
            = if int4 id
              then validationResponse (ValidationError "Invalid quiz ID")
              else errorHandler (DatabaseError (out_of_range id))).
  { unfold answer, int4. destruct (_ && _); [reflexivity|].
    unfold errorHandler, out_of_range. cbn [statusCode default message].
    rewrite isEmpty_false; [reflexivity|]. discriminate. }
  rewrite Hanswer. split; intros Hvalid.
  - unfold recordResult. rewrite (simpleAuth_authenticated _ _ _ Hauth).
    unfold recordResult_try.
    destruct (validate _ _) as [error value] eqn:Hval. simpl in Hvalid.
    subst error.
    apply quizResultSchema_quizId in Hval as (o' & n & Ho & Hn & ->).
    rewrite Hbody in Ho. injection Ho as <-. rewrite Hid in Hn.
    injection Hn as <-. cbn [asNumber].
    by apply (submission_invalid_quiz id).
  - unfold recordHistory. rewrite (simpleAuth_authenticated _ _ _ Hauth).
    unfold recordHistory_try.
    destruct (validate _ _) as [error value] eqn:Hval. simpl in Hvalid.
    subst error.
    apply quizHistorySchema_quizId in Hval as (o' & n & Ho & Hn & ->).
    rewrite Hbody in Ho. injection Ho as <-. rewrite Hid in Hn.
    injection Hn as <-. cbn [asNumber].
    by apply (submission_invalid_quiz id).
Qed.

Lemma Joi_object_unknown (keys : list (jsstring * schema)) (path : jsstring)
    (o : object) (k : jsstring) :
  k ∈ map fst o -> k ∉ map fst keys ->
  fst (Joi_object keys false path (VObj o)) <> [].
Proof.
  intros Hk Hnot. unfold Joi_object.
  destruct (validateKeys keys path o) as [errors kept]. simpl.
  intros H. apply app_nil_inv in H as [_ H].
  apply map_eq_nil in H.
  assert (Hin : In k (List.filter
                        (fun k => negb (existsb (eqs k) (map fst keys)))
                        (map fst o))).
  { apply filter_In. split; [by apply list_elem_of_In|].
    apply negb_true_iff, not_true_iff_false. intros Hex.
    apply existsb_exists in Hex as (k' & Hin & Heq).
    apply eqs_true in Heq as <-. by apply Hnot, list_elem_of_In. }
  by rewrite H in Hin.
Qed.

(** X10. A result or a history entry whose body carries a property that the
    schema of the route does not name (an owner, for one) is answered with
    400, type validation, and nothing is stored: these two schemas are used
    without the stripUnknown option. *)
Theorem unknown_property_rejected
    (req : Request) (userId : jsstring) (w : World) (o : object)
    (k : jsstring) :
  authenticated req userId -> healthy 2 w ->
  body req = VObj o -> k ∈ map fst o ->
  (k ∉ ["quizId" : jsstring; "score" : jsstring;
        "totalQuestions" : jsstring; "userAnswers" : jsstring;
        "timeTaken" : jsstring] ->
   exists response w',
     recordResult req w = (Return response, w')
     /\ status response = 400%Z
     /\ arrow (json response) "type" = Some (VStr "validation")
     /\ db w' = db w)
  /\ (k ∉ ["quizId" : jsstring; "promptUsed" : jsstring;
           "generationParameters" : jsstring] ->
      exists response w',
        recordHistory req w = (Return response, w')
        /\ status response = 400%Z
        /\ arrow (json response) "type" = Some (VStr "validation")
        /\ db w' = db w).
Proof.
  intros Hauth Hhealthy Hbody Hk. split; intros Hnot.
  - unfold recordResult. rewrite (simpleAuth_authenticated _ _ _ Hauth).
    unfold recordResult_try.
    unfold validate, quizResultSchema, optional. rewrite Hbody.
    match goal with
    | |- context [Joi_object ?keys false [] (VObj o)] =>
        pose proof (Joi_object_unknown keys [] o k Hk Hnot) as Hne;
        destruct (Joi_object keys false [] (VObj o)) as [error value]
    end.
    destruct error as [|d error]; [done|].
    destruct (submission_rejected (detailMessage (fst d) (snd d)) w Hhealthy)
      as (w' & H & Hdb).
    exists (validationResponse
              (ValidationError (detailMessage (fst d) (snd d)))), w'.
    by repeat split.
  - unfold recordHistory. rewrite (simpleAuth_authenticated _ _ _ Hauth).
    unfold recordHistory_try.
    unfold validate, quizHistorySchema, required. rewrite Hbody.
    match goal with
    | |- context [Joi_object ?keys false [] (VObj o)] =>
        pose proof (Joi_object_unknown keys [] o k Hk Hnot) as Hne;
        destruct (Joi_object keys false [] (VObj o)) as [error value]
    end.
    destruct error as [|d error]; [done|].
    destruct (submission_rejected (detailMessage (fst d) (snd d)) w Hhealthy)
      as (w' & H & Hdb).
    exists (validationResponse
              (ValidationError (detailMessage (fst d) (snd d)))), w'.
    by repeat split.
Qed.

(** What a 201 answer of recordResult means: the row, and the answer. *)
Lemma recordResult_created (req : Request) (userId : jsstring)
    (w w1 : World) (response : Response) :
  authenticated req userId -> tx w = None ->
  recordResult req w = (Return response, w1) ->
  status response = 201%Z ->
  exists row,
    at_path ["result"] (json response) = Some (result_json row)
    /\ qr_user_id row = userId
    /\ qr_completed_at row = now w
    /\ tables (db w1)
       = (quizzes (db w), quiz_results (db w) ++ [row], quiz_history (db w)).
Proof.
  intros Hauth Htx. unfold recordResult.
  rewrite (simpleAuth_authenticated _ _ _ Hauth). intros H Hs.
  apply submission_created in H
    as (wc & w2 & Hdbc & Htxc & Hnowc & H & Hdb); [|exact Hs].
  unfold recordResult_try in H.
  destruct (validate _ _) as [[|d error] value]; [|discriminate].
  apply checkedInsert_cases in H
    as [(e & [= ] & _)|(row & d & [= ->] & Href & Hins & Hd & Ht)].
  exists row. split; [reflexivity|].
  pose proof Hins as Hrow.
  apply INSERT_result_Return in Hins as (Hq & Hr & Hh & Hid & Hu).
  split; [exact Hu|].
  split.
  { unfold INSERT_result in Hrow. destruct (existsb _ _); [discriminate|].
    destruct (negb _); [discriminate|]. injection Hrow as <- _.
    simpl. exact Hnowc. }
  unfold tables, current in *. rewrite Htxc, Htx in *. simpl in *.
  by rewrite Hdb, Hd, Hq, Hr, Hh, Hdbc.
Qed.
End SubmissionAnswers.

(** ** A recorded result shows in the details of the quiz *)

Section ResultRoundTrip.
Context {L : Libraries}.

Lemma detailQuestion_total (questions : list value) (index : nat) :
  Forall (fun q => q <> VNull) questions ->
  exists out, forEach detailQuestion questions index = Return out.
Proof.
  intros H. apply forEach_total. intros k q Hk.
  rewrite Forall_forall in H. apply list_elem_of_lookup_2, H in Hk.
  unfold detailQuestion. destruct q; try done; by eexists.
Qed.

(** X11. After POST /api/quiz-results has answered 201 to the owner of a quiz,
    GET /api/quizzes/:id for this quiz counts one attempt more than the owner
    had recorded before, reports as highest_score the best score among the old
    ones and the new one, and lists one more entry in attempt_history. *)
Theorem recorded_result_in_details
    (req req' : Request) (userId : jsstring) (w w1 w2 : World)
    (response : Response) (id score : Z) (quiz : QuizRow)
    (questions : list value) :
  authenticated req userId -> tx w = None ->
  recordResult req w = (Return response, w1) ->
  status response = 201%Z ->
  at_path ["result"; "quiz_id"] (json response) = Some (VNum id) ->
  at_path ["result"; "score"] (json response) = Some (VNum score) ->
  List.filter (fun q => (q_id q =? id)%Z) (quizzes (db w)) = [quiz] ->
  q_user_id quiz = userId ->
  q_questions quiz = VArr questions ->
  Forall (fun q => q <> VNull) questions ->
  authenticated req' userId ->
  int4in (params_id req') = Some id ->
  db w2 = db w1 -> tx w2 = None -> healthy 2 w2 ->
  let before :=
    List.filter
      (fun qr => (qr_quiz_id qr =? id)%Z && eqs (qr_user_id qr) userId)
      (quiz_results (db w)) in
  exists response' w3 history,
    getQuizDetail req' w2 = (Return response', w3)
    /\ status response' = 200%Z
    /\ at_path ["quiz"; "attempts_count"] (json response')
       = Some (VNum (Z.of_nat (length before + 1)))
    /\ at_path ["quiz"; "highest_score"] (json response')
       = Some (VNum (default 0%Z (MAX (map qr_score before ++ [score]))))
    /\ at_path ["quiz"; "attempt_history"] (json response')
       = Some (VArr history)
    /\ length history = length before + 1.
Proof.
  intros Hauth Htx Hrec Hstatus Hid Hscore Hquiz Howner Hquestions Hnonnull
    Hauth' Hparam Hdb Htx2 Hhealthy before.
  destruct (recordResult_created _ _ _ _ _ Hauth Htx Hrec Hstatus)
    as (row & Hres & Hu & _ & Htables).
  assert (Hrow : qr_quiz_id row = id /\ qr_score row = score).
  { cbn [at_path] in Hres, Hid, Hscore.
    destruct (arrow (json response) "result") as [v|]; [|discriminate].
    injection Hres as ->. revert Hid Hscore. path.
    intros [= <-] [= <-]. by split. }
  destruct Hrow as [Hrid Hrscore].
  injection Htables as Hq Hr _.
  destruct (detailQuestion_total questions 0 Hnonnull) as [out Hout].
  unfold getQuizDetail. rewrite (simpleAuth_authenticated _ _ _ Hauth').
  destruct (connect_healthy 1 w2 Hhealthy)
    as (wc & Hc & Hdbc & Htxc & Hhc & _).
  run_monad. rewrite Hc. unfold getQuizDetail_try. run_monad.
  destruct (statement_healthy
              details_sql
              (SELECT_details (params_id req') userId) 0 wc Hhc)
    as (ws & Hs & _); [congruence|].
  rewrite Hs. unfold SELECT_details. rewrite Hparam, Hdbc, Hdb, Hq, Hr.
  rewrite (filter_andb_r (fun q => (q_id q =? id)%Z)), Hquiz.
  cbn [List.filter]. rewrite Howner, eqs_refl.
  rewrite List.filter_app. cbn [List.filter].
  rewrite Hrid, Hu, Z.eqb_refl, eqs_refl. cbn [andb map].
  fold before. rewrite Hquestions, Hout.
  do 3 eexists. split; [reflexivity|]. split; [reflexivity|].
  split.
  { path. unfold COUNT. rewrite parseInt_NumberToString by (by left).
    cbn [number]. by rewrite row_order_length, length_app. }
  split.
  { path. rewrite parseInt_number by (by left). cbn [number].
    rewrite (MAX_Permutation _ _
               (Permutation_map qr_score (row_order_Permutation _ _ _ _ _))).
    rewrite map_app. cbn [map]. by rewrite Hrscore. }
  split; [path; reflexivity|].
  rewrite !length_map.
  rewrite (Permutation_length (merge_sort_Permutation _ _)).
  by rewrite row_order_length, length_app.
Qed.
End ResultRoundTrip.

(** * Further properties of the client *)

(** ** Trimming *)

Lemma trimStart_app_char (s : jsstring) (c : N) :
  isWhiteSpace c = false -> trimStart (s ++ [c]) = trimStart s ++ [c].
Proof.
  intros Hc. induction s as [|x s IH]; simpl; [by rewrite Hc|].
  by destruct (isWhiteSpace x).
Qed.

Lemma trimStart_idempotent (s : jsstring) :
  trimStart (trimStart s) = trimStart s.
Proof.
  induction s as [|x s IH]; [reflexivity|]. simpl.
  destruct (isWhiteSpace x) eqn:Hx; [exact IH|]. simpl. by rewrite Hx.
Qed.

Lemma trimStart_head (s : jsstring) :
  match trimStart s with
  | c :: _ => isWhiteSpace c = false
  | [] => True
  end.
Proof.
  induction s as [|x s IH]; [done|]. simpl.
  destruct (isWhiteSpace x) eqn:Hx; [exact IH|exact Hx].
Qed.

Lemma trimEnd_cons (c : N) (s : jsstring) :
  isWhiteSpace c = false -> trimEnd (c :: s) = c :: trimEnd s.
Proof.
  intros Hc. unfold trimEnd. simpl.
  by rewrite trimStart_app_char, rev_app_distr.
Qed.

Lemma trimEnd_idempotent (s : jsstring) : trimEnd (trimEnd s) = trimEnd s.
Proof. unfold trimEnd. by rewrite rev_involutive, trimStart_idempotent. Qed.

(** String.prototype.trim is idempotent. *)
Lemma trim_idempotent (s : jsstring) : trim (trim s) = trim s.
Proof.
  unfold trim. pose proof (trimStart_head s) as Hh.
  destruct (trimStart s) as [|c t]; [reflexivity|].
  rewrite (trimEnd_cons c t Hh). simpl. rewrite Hh.
  by rewrite (trimEnd_cons c _ Hh), trimEnd_idempotent.
Qed.

Lemma trim_length (s : jsstring) : length (trim s) <= length s.
Proof.
  assert (H : forall t : jsstring, length (trimStart t) <= length t).
  { induction t as [|x t IH]; simpl; [lia|].
    destruct (isWhiteSpace x); simpl; lia. }
  unfold trim, trimEnd. rewrite length_rev.
  etrans; [apply H|]. rewrite length_rev. apply H.
Qed.

(** ** Objects: writing the value a property already has *)

Lemma set_same (k : jsstring) (v : value) (o : object) :
  get k o = Some v -> set k v o = o.
Proof.
  induction o as [|[k' v'] o IH]; simpl; [discriminate|].
  destruct (eqs k' k) eqn:Hk.
  - apply eqs_true in Hk as ->. by intros [= ->].
  - intros H. by rewrite IH.
Qed.

(** ** The questions the normalizer returns *)


Lemma explanation_is_string (q : object) :
  exists e,
    get "explanation"
      (if negb (truthy (get "explanation" q))
          || negb (String.eqb (typeof (get "explanation" q)) "string")
       then set "explanation" (VStr "") q
       else q)
    = Some (VStr e).
Proof.
  destruct (get "explanation" q) as [[| | |e| |]|] eqn:He; simpl;
    try (exists []; by rewrite get_set).
  - destruct (negb b); simpl; exists []; by rewrite get_set.
  - destruct (negb (n =? 0)%Z); simpl; exists []; by rewrite get_set.
  - destruct e as [|c e]; simpl; [exists []; by rewrite get_set|].
    by exists (c :: e).
Qed.

Lemma final_explanation (q : object) (e : jsstring) :
  get "explanation" q = Some (VStr e) ->
  (if negb (truthy (get "explanation" q))
      && negb (match get "explanation" q with
               | Some (VStr []) => true
               | _ => false
               end)
   then set "explanation" (VStr "") q
   else q) = q.
Proof. intros ->. by destruct e. Qed.

Lemma startsWith_nil (s : jsstring) : startsWith s [] = true.
Proof. by destruct s. Qed.

Lemma endsWith_dot (s : jsstring) : endsWith (s ++ ".") "." = true.
Proof.
  unfold endsWith. rewrite rev_app_distr.
  change (rev (str ".")) with [46%N]. simpl. apply startsWith_nil.
Qed.

Lemma trim_app_dot (s : jsstring) :
  trim s = s -> s <> [] -> trim (s ++ ".") = s ++ ".".
Proof.
  intros Hs Hne. unfold trim in *.
  pose proof (trimStart_head s) as Hh.
  assert (Hstart : trimStart s = s).
  { destruct s as [|c s]; [done|]. simpl in *.
    destruct (isWhiteSpace c) eqn:Hc; [|reflexivity].
    exfalso. pose proof (trim_length s) as Hl. unfold trim in Hl.
    rewrite Hs in Hl. simpl in Hl. lia. }
  rewrite Hstart in Hs.
  destruct s as [|c s]; [done|]. simpl in Hstart.
  destruct (isWhiteSpace c) eqn:Hc.
  { exfalso. pose proof (trim_length s) as Hl.
    assert (Hlen : length (trimStart s) <= length s).
    { clear. induction s as [|x s IH]; simpl; [lia|].
      destruct (isWhiteSpace x); simpl; lia. }
    rewrite Hstart in Hlen. simpl in Hlen. lia. }
  change ((c :: s) ++ ".") with (c :: (s ++ ".")). simpl. rewrite Hc.
  unfold trimEnd in *. simpl in *.
  rewrite rev_app_distr. change (rev (str ".")) with [46%N]. simpl.
  by rewrite rev_app_distr, rev_involutive.
Qed.

Lemma first_check (q : object) :
  negb (truthy (get "question" q))
  || negb (String.eqb (typeof (get "question" q)) "string")
  || isEmpty (trim (asString (get "question" q))) = false ->
  exists s, get "question" q = Some (VStr s) /\ trim s <> [].
Proof.
  destruct (get "question" q) as [[|b|n|s|l|o]|]; simpl;
    rewrite ?orb_true_r; try discriminate.
  intros H. apply orb_false_iff in H as [_ H]. exists s.
  split; [reflexivity|]. intros He. by rewrite He in H.
Qed.

Lemma map_trim_trimmed (raw : list value) :
  map trim (map (fun opt => trim (ToString opt)) raw)
  = map (fun opt => trim (ToString opt)) raw.
Proof.
  rewrite map_map. apply map_ext. intros opt. apply trim_idempotent.
Qed.

(** Whatever the normalizer returns for a question is in normal form. *)
Lemma validateQuestion_normal (questionType : jsstring) (q q' : object)
    (index : nat) :
  validateQuestion questionType q index = Return q' ->
  normalQuestion questionType q'.
Proof.
  unfold validateQuestion.
  destruct (_ || _ || _) eqn:Hfirst; [discriminate|].
  apply first_check in Hfirst as (s0 & Hs0 & Hne0).
  destruct (match get "correctAnswer" q with
            | None | Some VNull => true | _ => false end); [discriminate|].
  destruct (explanation_is_string q) as [e He].
  match goal with
  | |- context [if ?c then set ?k ?v q else q] =>
      set (E := if c then set k v q else q) in *
  end.
  assert (HE : forall k, eqs "explanation" k = false -> get k E = get k q)
    by (intros k Hk; by apply get_if_set).
  unfold normalQuestion.
  destruct (eqs questionType "True/False") eqn:HTF.
  - cbn [mbind result_bind]. rewrite (HE "question") by reflexivity.
    rewrite Hs0. cbn [asString].
    set (text := if negb (endsWith (trim s0) "?")
                    && negb (endsWith (trim s0) ".")
                 then trim s0 ++ "." else trim s0).
    assert (Htext : trim text = text
                    /\ (endsWith text "?" = true
                        \/ endsWith text "." = true)).
    { unfold text.
      destruct (endsWith (trim s0) "?") eqn:H1; cbn [negb andb];
        [split; [apply trim_idempotent|by left]|].
      destruct (endsWith (trim s0) ".") eqn:H2; cbn [negb andb];
        [split; [apply trim_idempotent|by right]|].
      split; [apply trim_app_dot; [apply trim_idempotent|done]|].
      right. apply endsWith_dot. }
    destruct Htext as [Htrim Hends].
    rewrite final_explanation with (e := e) by (keys; exact He).
    intros [= <-].
    eexists text, e, _. keys.
    split; [reflexivity|]. split; [by rewrite Htrim; unfold text;
      destruct (_ && _); [destruct (trim s0)|]|].
    split; [reflexivity|]. split; [exact He|].
    split; [destruct (boolValue _); auto|].
    split; [reflexivity|]. by split.
  - rewrite (HE "options") by reflexivity.
    destruct (get "options" q) as [[| | | |raw|]|]; try discriminate.
    destruct (length raw =? 4) eqn:Hlen; [|discriminate].
    apply Nat.eqb_eq in Hlen. cbn [negb].
    set (options := map (fun opt => trim (ToString opt)) raw).
    destruct (existsb isEmpty options) eqn:Hempty; [discriminate|].
    destruct (ES6Set.size (ES6Set.from options) =? length options) eqn:Hdup;
      [|discriminate].
    apply Nat.eqb_eq in Hdup. cbn [negb].
    intros H. apply bind_Return in H as (Q & HQ & [= <-]).
    apply bind_Return in HQ as ([] & Hblank & HQ).
    rewrite get_set in HQ.
    change (eqs "options" "correctAnswer") with false in HQ. cbv iota in HQ.
    rewrite (HE "correctAnswer") in HQ by reflexivity.
    destruct (parseInt (get "correctAnswer" q) (Some 10%Z)) as [answer|];
      [|discriminate].
    destruct ((answer <? 0)%Z || (3 <? answer)%Z) eqn:Hrange; [discriminate|].
    injection HQ as <-.
    apply orb_false_iff in Hrange as [H0 H3].
    apply Z.ltb_ge in H0, H3.
    rewrite final_explanation with (e := e) by (keys; exact He).
    exists s0, e, answer. keys. rewrite (HE "question") by reflexivity.
    split; [exact Hs0|]. split; [exact Hne0|]. split; [reflexivity|].
    split; [exact He|]. split; [lia|].
    exists options. split; [reflexivity|].
    split; [unfold options; by rewrite length_map|].
    split; [apply map_trim_trimmed|]. split; [exact Hempty|].
    split; [exact Hdup|].
    intros HFB. rewrite HFB in Hblank.
    rewrite get_set in Hblank.
    change (eqs "options" "question") with false in Hblank.
    cbv iota in Hblank. rewrite (HE "question"), Hs0 in Hblank by reflexivity.
    cbn [asString] in Hblank.
    destruct (includes s0 "___") eqn:Hinc; [|discriminate].
    cbn [negb] in Hblank.
    destruct (1 <? countBlanks s0) eqn:Hone; [discriminate|].
    apply Nat.ltb_ge in Hone. by split.
Qed.

(** ** The normalizer on its own output *)

Lemma forEach_fixpoint {A : Type} (f : A -> nat -> result A) (l : list A)
    (index : nat) :
  (forall k x, l !! k = Some x -> f x (index + k) = Return x) ->
  forEach f l index = Return l.
Proof.
  revert index. induction l as [|x l IH]; intros index H; [reflexivity|].
  simpl. rewrite <- (Nat.add_0_r index) at 1. rewrite (H 0 x eq_refl).
  simpl. rewrite IH; [reflexivity|].
  intros k x' Hx. replace (S index + k) with (index + S k) by lia.
  by apply H.
Qed.

Lemma map_ToString_strings (options : list jsstring) :
  map (fun opt => trim (ToString opt)) (map VStr options) = map trim options.
Proof. by rewrite map_map. Qed.

(** A question in normal form passes the normalizer unchanged, unless it
    is a True/False question. *)
Lemma validateQuestion_fixpoint (questionType : jsstring) (q : object)
    (index : nat) :
  eqs questionType "True/False" = false ->
  normalQuestion questionType q ->
  validateQuestion questionType q index = Return q.
Proof.
  intros HTF (s & e & a & Hs & Hne & Ha & He & Hrest). rewrite HTF in Hrest.
  destruct Hrest as (Hrange & options & Ho & Hlen & Htrim & Hempty & Hdup
                     & Hblank).
  destruct (common_checks q s (VNum a) Hs Hne Ha ltac:(discriminate))
    as [H1 H2].
  unfold validateQuestion. rewrite H1, H2, HTF.
  assert (HE : (if negb (truthy (get "explanation" q))
                   || negb (String.eqb (typeof (get "explanation" q))
                              "string")
                then set "explanation" (VStr "") q
                else q) = q).
  { rewrite He. destruct e; [|reflexivity]. simpl. by apply set_same. }
  rewrite HE, Ho, length_map, Hlen. cbn [Nat.eqb negb].
  rewrite map_ToString_strings, Htrim, Hempty, Hdup, Nat.eqb_refl.
  cbn [negb]. rewrite (set_same "options" _ q Ho), Hs, Ha. cbn [asString].
  assert (Hb : (if eqs questionType "Fill in the Blanks"
                then if negb (includes s "___")
                     then Throw (questionError (index + 1)
                                   " must contain ___ to indicate the blank")
                     else if 1 <? countBlanks s
                          then Throw (questionError (index + 1)
                                        " should have only one blank (___)")
                          else Return ()
                else Return ()) = Return ()).
  { destruct (eqs questionType "Fill in the Blanks"); [|reflexivity].
    destruct (Hblank eq_refl) as [-> Hc]. cbn [negb].
    by rewrite (proj2 (Nat.ltb_ge _ _) Hc). }
  rewrite Hb. cbn [mbind result_bind].
  rewrite parseInt_number by (by right).
  rewrite (proj2 (Z.ltb_ge a 0)), (proj2 (Z.ltb_ge 3 a)) by lia.
  cbn [orb]. rewrite (set_same "correctAnswer" _ q Ha).
  cbn [mbind result_bind]. by rewrite (final_explanation q e He).
Qed.

Lemma validateElement_Return (questionType : jsstring) (x y : value)
    (index : nat) :
  validateElement questionType x index = Return y ->
  exists q q', x = VObj q /\ y = VObj q'
               /\ validateQuestion questionType q index = Return q'.
Proof.
  unfold validateElement. destruct x as [| | | | |q]; try discriminate;
    try (cbn [props mbind result_bind]; unfold validateQuestion;
         cbn; discriminate).
  cbn [props mbind result_bind].
  destruct (validateQuestion questionType q index) as [q'|] eqn:H;
    [|discriminate].
  intros [= <-]. by exists q, q'.
Qed.

(** What an accepted batch looks like, question by question. *)
Lemma normalizer_accepts (numQuestions : Z) (questionType : jsstring)
    (data : value) (out : list value) (log : list exn) :
  validateAndParseQuizData numQuestions questionType data = (Some out, log) ->
  exists items,
    data = VArr items /\ log = []
    /\ Z.of_nat (length items) = numQuestions
    /\ length out = length items
    /\ forall k y, out !! k = Some y ->
         exists q q', items !! k = Some (VObj q) /\ y = VObj q'
                      /\ validateQuestion questionType q k = Return q'.
Proof.
  unfold validateAndParseQuizData, validateAndParseQuizData_try.
  destruct data as [| | | |items|]; try discriminate.
  destruct (Z.of_nat (length items) =? numQuestions)%Z eqn:Hn;
    [|discriminate].
  apply Z.eqb_eq in Hn. cbn [negb].
  destruct (forEach _ items 0) as [ys|e] eqn:Hf; [|discriminate].
  intros [= <- <-]. exists items.
  apply forEach_Return in Hf as [Hlen Hf].
  split; [reflexivity|]. split; [reflexivity|]. split; [exact Hn|].
  split; [exact Hlen|].
  intros k y Hy.
  destruct (items !! k) as [x|] eqn:Hx.
  - destruct (Hf k x Hx) as (y' & Hy' & Hv). rewrite Hy in Hy'.
    injection Hy' as <-. simpl in Hv.
    apply validateElement_Return in Hv as (q & q' & -> & -> & Hv).
    by exists q, q'.
  - apply lookup_lt_Some in Hy. apply lookup_ge_None in Hx. lia.
Qed.

(** X12. Normalization is idempotent on MCQ and Fill in the Blanks batches: a
    batch the normalizer returned is accepted again, and returned as it is. *)
Theorem normalizer_idempotent
    (numQuestions : Z) (questionType : jsstring) (data : value)
    (out : list value) (log : list exn) :
  questionType = "MCQ" \/ questionType = "Fill in the Blanks" ->
  validateAndParseQuizData numQuestions questionType data = (Some out, log) ->
  validateAndParseQuizData numQuestions questionType (VArr out)
  = (Some out, []).
Proof.
  intros Hqt H.
  assert (HTF : eqs questionType "True/False" = false)
    by (destruct Hqt as [-> | ->]; reflexivity).
  apply normalizer_accepts in H as (items & -> & -> & Hn & Hlen & Hout).
  unfold validateAndParseQuizData, validateAndParseQuizData_try.
  rewrite Hlen, Hn, Z.eqb_refl. cbn [negb].
  rewrite forEach_fixpoint; [reflexivity|].
  intros k y Hy. destruct (Hout k y Hy) as (q & q' & _ & -> & Hv).
  rewrite validateElement_object. cbn [Nat.add].
  rewrite (validateQuestion_fixpoint questionType q' k HTF); [reflexivity|].
  by eapply validateQuestion_normal.
Qed.

(** X13. An accepted batch has the configured number of questions; each has a
    prompt that is a string and not blank and an explanation that is a string
    (the empty one when the model gave none or something else than a string);
    a True/False prompt is trimmed and ends with a question mark or a full
    stop, which the normalizer appends when it is missing. *)
Theorem normalized_batch
    (numQuestions : Z) (questionType : jsstring) (data : value)
    (out : list value) (log : list exn) :
  validateAndParseQuizData numQuestions questionType data = (Some out, log) ->
  Z.of_nat (length out) = numQuestions
  /\ log = []
  /\ Forall
       (fun y =>
          exists (q : object) (s e : jsstring),
            y = VObj q
            /\ get "question" q = Some (VStr s) /\ trim s <> []
            /\ get "explanation" q = Some (VStr e)
            /\ (questionType = "True/False" ->
                trim s = s
                /\ (endsWith s "?" = true \/ endsWith s "." = true)))
       out.
Proof.
  intros H.
  apply normalizer_accepts in H as (items & -> & -> & Hn & Hlen & Hout).
  split; [by rewrite Hlen|]. split; [reflexivity|].
  apply Forall_lookup. intros k y Hy.
  destruct (Hout k y Hy) as (q & q' & _ & -> & Hv).
  apply validateQuestion_normal in Hv as (s & e & a & Hs & Hne & Ha & He & Hr).
  exists q', s, e. split; [reflexivity|]. split; [exact Hs|].
  split; [exact Hne|]. split; [exact He|].
  intros ->. change (eqs "True/False" "True/False") with true in Hr.
  cbv iota in Hr. tauto.
Qed.

(** ** Saving what the normalizer returned *)

Lemma or_empty_string (e : jsstring) :
  or_ (Some (VStr e)) (Some (VStr "")) = Some (VStr e).
Proof. by destruct e. Qed.

Lemma map_VStr_ToString (options : list jsstring) :
  map (fun opt => VStr (ToString opt)) (map VStr options) = map VStr options.
Proof. by rewrite map_map. Qed.

(** formatQuizQuestions on a question in normal form. *)
Lemma formatQuestion_normal (questionType : jsstring) (q : object)
    (index : nat) :
  normalQuestion questionType q ->
  eqs questionType "True/False" = true
  \/ eqs questionType "Fill in the Blanks" || eqs questionType "MCQ" = true ->
  exists s e a options,
    formatQuestion questionType (VObj q) index
    = Return (formattedQuestion s e a options)
    /\ get "question" q = Some (VStr s) /\ s <> []
    /\ get "explanation" q = Some (VStr e)
    /\ (0 <= a <= 3)%Z
    /\ 2 <= length options
    /\ existsb isEmpty options = false
    /\ if eqs questionType "True/False"
       then exists i, get "correctAnswer" q = Some (VNum i)
                      /\ a = (1 - i)%Z
                      /\ options = ["True" : jsstring; "False" : jsstring]
       else get "correctAnswer" q = Some (VNum a)
            /\ get "options" q = Some (VArr (map VStr options)).
Proof.
  intros (s & e & a & Hs & Hne & Ha & He & Hrest) Hqt.
  unfold formatQuestion. cbn [props mbind result_bind].
  rewrite Hs, He, Ha, or_empty_string. cbn [literal].
  destruct (eqs questionType "True/False") eqn:HTF.
  - destruct Hrest as (Hi & _).
    exists s, e, (1 - a)%Z, ["True" : jsstring; "False" : jsstring].
    split.
    { rewrite <- (boolValue_index a Hi). reflexivity. }
    split; [reflexivity|]. split; [by apply trim_nil_inv|].
    split; [reflexivity|]. split; [lia|]. split; [simpl; lia|].
    split; [reflexivity|]. exists a. by repeat split.
  - destruct Hqt as [Hqt|Hqt]; [discriminate|]. rewrite Hqt.
    destruct Hrest as (Hrange & options & Ho & Hlen & _ & Hempty & _).
    rewrite parseInt_number by (by right). rewrite Ho, length_map, Hlen.
    cbn [Nat.eqb negb]. rewrite map_VStr_ToString.
    exists s, e, a, options. split; [reflexivity|].
    split; [reflexivity|]. split; [by apply trim_nil_inv|].
    split; [reflexivity|]. split; [exact Hrange|]. split; [lia|].
    split; [exact Hempty|]. by split.
Qed.

(** X14. saveQuiz keeps an MCQ or Fill in the Blanks question as the
    normalizer returned it: for every batch the normalizer accepts,
    formatQuizQuestions succeeds and yields, question by question, the same
    prompt, options, answer index and explanation. (Only the True/False
    answers change on the way, by the negation of their index.) *)
Theorem save_keeps_choice_questions
    (numQuestions : Z) (questionType : jsstring) (data : value)
    (out : list value) (log : list exn) :
  questionType = "MCQ" \/ questionType = "Fill in the Blanks" ->
  validateAndParseQuizData numQuestions questionType data = (Some out, log) ->
  exists formatted,
    formatQuizQuestions (Some out) questionType = Return formatted
    /\ Forall2 sameQuestion out formatted.
Proof.
  intros Hqt H.
  assert (HTF : eqs questionType "True/False" = false)
    by (destruct Hqt as [-> | ->]; reflexivity).
  assert (Hchoice : eqs questionType "Fill in the Blanks"
                    || eqs questionType "MCQ" = true)
    by (destruct Hqt as [-> | ->]; reflexivity).
  apply normalizer_accepts in H as (items & -> & -> & Hn & Hlen & Hout).
  assert (Hall : forall k y, out !! k = Some y ->
            exists y', formatQuestion questionType y (0 + k) = Return y'
                       /\ sameQuestion y y').
  { intros k y Hy. destruct (Hout k y Hy) as (q & q' & _ & -> & Hv).
    apply validateQuestion_normal in Hv.
    destruct (formatQuestion_normal questionType q' (0 + k) Hv
                (or_intror Hchoice))
      as (s & e & a & options & Hf & Hs & _ & He & _ & _ & _ & Hrest).
    rewrite HTF in Hrest. destruct Hrest as [Ha Ho].
    eexists. split; [exact Hf|].
    exists q'. eexists. split; [reflexivity|]. split; [reflexivity|].
    cbn [get]. keys. by rewrite Hs, Ho, Ha, He. }
  unfold formatQuizQuestions.
  destruct (forEach_total (formatQuestion questionType) out 0) as [ys Hys].
  { intros k y Hy. destruct (Hall k y Hy) as (y' & Hf & _). eauto. }
  exists ys. split; [exact Hys|].
  apply forEach_Return in Hys as [Hl Hys].
  apply Forall2_same_length_lookup. split; [by rewrite Hl|].
  intros k y y' Hy Hy'.
  destruct (Hys k y Hy) as (y0 & Hy0 & Hf).
  destruct (Hall k y Hy) as (y1 & Hf1 & Hsame).
  rewrite Hy' in Hy0. injection Hy0 as <-. rewrite Hf in Hf1.
  by injection Hf1 as <-.
Qed.

(** ** A generated quiz is accepted by the backend *)




Section Accepted.
Context {L : Libraries}.






End Accepted.

(** ** The score and the answers submitQuiz posts *)

Lemma literal_cons_Some (k : jsstring) (v : value)
    (l : list (jsstring * option value)) :
  literal ((k, Some v) :: l) = (k, v) :: literal l.
Proof. reflexivity. Qed.

Lemma imap_filter_length {A B : Type} (f : nat -> A -> B) (p : B -> bool)
    (q : A -> bool) (l : list A) :
  (forall i x, p (f i x) = q x) ->
  length (List.filter p (imap f l)) = length (List.filter q l).
Proof.
  revert f. induction l as [|x l IH]; intros f H; [reflexivity|].
  simpl. rewrite (H 0 x).
  destruct (q x); simpl; rewrite IH; try reflexivity; intros i y; apply H.
Qed.

Lemma submittedAnswer_correct (index : nat) (answer : value) :
  arrow (submittedAnswer index answer) "correct" = arrow answer "isCorrect".
Proof.
  unfold submittedAnswer. cbn [arrow literal].
  destruct (arrow answer "userAnswer"), (arrow answer "isCorrect");
    cbn [literal get]; keys; reflexivity.
Qed.

Lemma countAnswer_object (userAnswers : object) (score : nat) (o : object)
    (index : nat) (a : Z) :
  get "correctAnswer" o = Some (VNum a) ->
  countAnswer userAnswers score (VObj o) index
  = Return (if strictEquals (get (indexKey index) userAnswers)
                 (Some (VNum a))
            then S score else score).
Proof.
  intros Ha. unfold countAnswer. cbn [props mbind result_bind]. rewrite Ha.
  by destruct (get (indexKey index) userAnswers) as [[]|].
Qed.

Lemma formatUserAnswer_correct (userAnswers : object) (o : object)
    (index : nat) (a : Z) :
  get "correctAnswer" o = Some (VNum a) ->
  exists y,
    formatUserAnswer userAnswers (VObj o) index = Return y
    /\ arrow y "isCorrect"
       = Some (VBool (strictEquals (get (indexKey index) userAnswers)
                        (Some (VNum a)))).
Proof.
  intros Ha. unfold formatUserAnswer. cbn [props mbind result_bind].
  rewrite Ha. eexists. split; [reflexivity|].
  destruct (get (indexKey index) userAnswers); cbn [arrow literal get]; keys;
    reflexivity.
Qed.

(** The two loops of submitQuiz, side by side: the score grows by one
    exactly on the questions whose formatted answer is flagged correct. *)
Lemma score_and_flags (userAnswers : object) (quiz : list value)
    (index score score' : nat) (formatted : list value) :
  Forall (fun q => exists o a, q = VObj o
                               /\ get "correctAnswer" o = Some (VNum a)) quiz ->
  forEach_state (countAnswer userAnswers) quiz index score = Return score' ->
  forEach (formatUserAnswer userAnswers) quiz index = Return formatted ->
  score' = score + length (List.filter
                             (fun a => truthy (arrow a "isCorrect")) formatted)
  /\ length formatted = length quiz.
Proof.
  intros Hquiz. revert index score formatted.
  induction Hquiz as [|q quiz (o & a & -> & Ha) _ IH];
    intros index score formatted; cbn [forEach_state forEach].
  - intros [= <-] [= <-]. simpl. split; [lia|reflexivity].
  - rewrite (countAnswer_object _ _ _ _ _ Ha).
    destruct (formatUserAnswer_correct userAnswers o index a Ha)
      as (y & -> & Hy).
    cbn [mbind result_bind].
    destruct (forEach (formatUserAnswer userAnswers) quiz (S index))
      as [fs|] eqn:Hfs; [|discriminate].
    intros Hs [= <-]. apply IH with (formatted := fs) in Hs as [-> Hl];
      [|exact Hfs].
    cbn [List.filter length]. rewrite Hy, Hl. cbn [truthy].
    destruct (strictEquals _ _); cbn [length]; split; lia.
Qed.

(** X16. The score submitQuiz posts is the number of the answers it flags as
    correct, and at most the number of questions, which it posts as
    totalQuestions; one answer is posted for each question. (On a quiz whose
    questions carry an answer index, as every quiz of the normalizer does.) *)
Theorem submitted_score (quizId : option value) (quiz : list value)
    (userAnswers body : object) :
  Forall (fun q => exists o a, q = VObj o
                               /\ get "correctAnswer" o = Some (VNum a)) quiz ->
  submitQuiz_body quizId quiz userAnswers = Return (Some body) ->
  exists (score : nat) (answers : list value),
    get "score" body = Some (VNum (Z.of_nat score))
    /\ get "totalQuestions" body = Some (VNum (Z.of_nat (length quiz)))
    /\ get "userAnswers" body = Some (VArr answers)
    /\ length answers = length quiz
    /\ score = length (List.filter (fun a => truthy (arrow a "correct"))
                         answers)
    /\ score <= length quiz.
Proof.
  intros Hquiz. unfold submitQuiz_body, calculateScore.
  destruct (truthy quizId) eqn:Hid; [|discriminate]. cbn [negb].
  destruct quizId as [id|]; [|discriminate].
  destruct (forEach_state _ quiz 0 0) as [score|] eqn:Hs; [|discriminate].
  destruct (forEach _ quiz 0) as [formatted|] eqn:Hf; [|discriminate].
  cbn [mbind result_bind]. intros [= <-].
  destruct (score_and_flags _ _ _ _ _ _ Hquiz Hs Hf) as [Hscore Hl].
  exists score, (imap submittedAnswer formatted).
  cbn [literal get]. keys.
  split; [reflexivity|]. split; [reflexivity|]. split; [reflexivity|].
  split; [by rewrite length_imap|].
  assert (Hcount :
    length (List.filter (fun a => truthy (arrow a "correct"))
              (imap submittedAnswer formatted))
    = length (List.filter (fun a => truthy (arrow a "isCorrect")) formatted)).
  { apply imap_filter_length. intros i x.
    by rewrite submittedAnswer_correct. }
  rewrite Hcount. split; [exact Hscore|].
  rewrite Hscore, <- Hl. simpl. apply List.filter_length_le.
Qed.

(** ** Submitting a quiz with a question left open *)

Section OpenQuestion.
Context {L : Libraries}.

Lemma validateKeys_error (keys : list (jsstring * schema))
    (path : jsstring) (o : object) (k : jsstring) (s : schema) :
  In (k, s) keys ->
  fst (s (if isEmpty path then k else path ++ "." ++ k) (get k o)) <> [] ->
  fst (validateKeys keys path o) <> [].
Proof.
  induction keys as [|[k' s'] keys IH]; [done|]. intros Hin Hne.
  cbn [validateKeys].
  destruct (s' _ (get k' o)) as [e v'] eqn:He.
  destruct (validateKeys keys path o) as [es vs]. cbn [fst] in *.
  intros H. apply app_nil_inv in H as [-> ->].
  destruct Hin as [[= -> ->]|Hin]; [by rewrite He in Hne|by apply IH].
Qed.

Lemma Joi_object_error (keys : list (jsstring * schema))
    (stripUnknown : bool) (path : jsstring) (o : object) (k : jsstring)
    (s : schema) :
  In (k, s) keys ->
  fst (s (if isEmpty path then k else path ++ "." ++ k) (get k o)) <> [] ->
  fst (Joi_object keys stripUnknown path (VObj o)) <> [].
Proof.
  intros Hin Hne. pose proof (validateKeys_error keys path o k s Hin Hne) as H.
  unfold Joi_object. destruct (validateKeys keys path o) as [errors kept].
  cbn [fst] in *. intros H'. by apply app_nil_inv in H' as [-> _].
Qed.

Lemma validateItems_error (items : rule) (path : jsstring) (l : list value)
    (index i : nat) (v : value) :
  l !! i = Some v -> (forall p, fst (items p v) <> []) ->
  fst (validateItems items path l index) <> [].
Proof.
  revert index i. induction l as [|x l IH]; intros index i Hi Hne; [done|].
  cbn [validateItems].
  destruct (items _ x) as [e v'] eqn:He.
  destruct (validateItems items path l (S index)) as [es vs] eqn:Hes.
  cbn [fst]. intros H. apply app_nil_inv in H as [-> ->].
  destruct i as [|i].
  - injection Hi as ->. apply (Hne (path ++ "[" ++ NumberToString
                                      (Z.of_nat index) ++ "]")).
    by rewrite He.
  - apply (IH (S index) i Hi Hne). by rewrite Hes.
Qed.

Lemma required_error (r : rule) (path : jsstring) (v : value) :
  fst (r path v) <> [] -> fst (required r path (Some v)) <> [].
Proof. unfold required. by destruct (r path v). Qed.

(** X17. A quiz submitted with a question left open is refused: the answer of
    that question is undefined, so the body submitQuiz posts has no answer
    property for it, which the schema of POST /api/quiz-results requires. The
    backend answers 400 and records nothing. *)
Theorem open_question_rejected
    (req : Request) (userId : jsstring) (w : World)
    (quizId : option value) (quiz : list value) (userAnswers o : object)
    (i : nat) (q : value) :
  authenticated req userId -> healthy 2 w ->
  submitQuiz_body quizId quiz userAnswers = Return (Some o) ->
  body req = VObj o ->
  quiz !! i = Some q -> get (indexKey i) userAnswers = None ->
  exists response w',
    recordResult req w = (Return response, w')
    /\ status response = 400%Z
    /\ arrow (json response) "type" = Some (VStr "validation")
    /\ db w' = db w.
Proof.
  intros Hauth Hhealthy Hsubmit Hbody Hq Hopen.
  assert (Hne : fst (validate (quizResultSchema false) (VObj o)) <> []).
  { unfold submitQuiz_body in Hsubmit.
    destruct (truthy quizId) eqn:Hid; [|discriminate]. cbn [negb] in Hsubmit.
    destruct quizId as [id|]; [|discriminate].
    destruct (calculateScore quiz userAnswers) as [score|]; [|discriminate].
    destruct (forEach _ quiz 0) as [formatted|] eqn:Hf; [|discriminate].
    cbn [mbind result_bind literal] in Hsubmit. injection Hsubmit as <-.
    apply forEach_Return in Hf as [_ Hf].
    destruct (Hf i q Hq) as (y & Hy & Hfy).
    change (0 + i) with i in Hfy.
    unfold formatUserAnswer in Hfy. rewrite Hopen in Hfy.
    destruct (props q "correctAnswer") as [qo|] eqn:Hqo; [|discriminate].
    cbn [mbind result_bind literal] in Hfy. injection Hfy as <-.
    unfold validate, quizResultSchema, optional.
    match goal with
    | |- context [Joi_object ?keys false [] (VObj ?b)] =>
        pose proof (Joi_object_error keys false [] b "userAnswers") as Herr;
        destruct (Joi_object keys false [] (VObj b)) as [error value]
    end.
    cbn [fst] in *. eapply Herr; [do 3 right; left; reflexivity|].
    cbn [get isEmpty]. keys. apply required_error. unfold Joi_array.
    match goal with
    | |- context [validateItems ?items ?path ?l 0] =>
        pose proof (validateItems_error items path l 0 i) as Hitem;
        destruct (validateItems items path l 0) as [errors l']
    end.
    cbn [fst] in *. intros H. apply app_nil_inv in H as [-> _].
    eapply Hitem; [| |reflexivity].
    { rewrite list_lookup_imap, Hy. reflexivity. }
    intros p. unfold submittedAnswer. cbn [arrow get literal]. keys.
    eapply Joi_object_error; [right; left; reflexivity|].
    cbn [get]. keys. done. }
  unfold recordResult. rewrite (simpleAuth_authenticated _ _ _ Hauth).
  unfold recordResult_try. rewrite Hbody.
  destruct (validate (quizResultSchema false) (VObj o)) as [[|d error] value];
    [done|].
  destruct (submission_rejected (detailMessage (fst d) (snd d)) w Hhealthy)
    as (w' & H & Hdb).
  exists (validationResponse
            (ValidationError (detailMessage (fst d) (snd d)))), w'.
  by repeat split.
Qed.
End OpenQuestion.

(** ** Submissions that are stored *)

Lemma control_healthy (sql : string) (change : World -> Db * option Db)
    (n : nat) (w : World) :
  healthy (S n) w ->
  exists w',
    control sql change w = (Return (), w')
    /\ db w' = fst (change w) /\ tx w' = snd (change w)
    /\ healthy n w' /\ now w' = now w.
Proof.
  intros H. pose proof (healthy_head _ _ H) as Hh. unfold control.
  destruct (faults w) as [|[] fs] eqn:Hf; [|done|];
    eexists; (split; [reflexivity|]); simpl; repeat split; try done;
    eapply healthy_S; eauto; by rewrite Hf.
Qed.

(** A statement that does not fail, inside a transaction. *)
Lemma statement_healthy_tx {A : Type} (sql : string)
    (run : Db -> result (A * Db)) (n : nat) (w : World) (d d' : Db) (a : A) :
  healthy (S n) w -> tx w = Some d -> run d = Return (a, d') ->
  exists w',
    statement sql run w = (Return a, w')
    /\ db w' = db w /\ tx w' = Some d' /\ healthy n w' /\ now w' = now w.
Proof.
  intros H Htx Hrun. pose proof (healthy_head _ _ H) as Hh.
  unfold statement, current. rewrite Htx. simpl. rewrite Hrun.
  destruct (faults w) as [|[] fs] eqn:Hf; [|done|];
    eexists; (split; [reflexivity|]); simpl; repeat split; try done;
    eapply healthy_S; eauto; by rewrite Hf.
Qed.

Lemma countAnswer_step (userAnswers : object) (score score' : nat)
    (question : value) (index : nat) :
  countAnswer userAnswers score question index = Return score' ->
  score' <= S score.
Proof.
  unfold countAnswer.
  destruct (props question "correctAnswer") as [qo|];
    destruct (get (indexKey index) userAnswers) as [[]|];
    cbn [mbind result_bind]; try discriminate; try (intros [= <-]; lia);
    destruct (strictEquals _ _); intros [= <-]; lia.
Qed.

Lemma forEach_state_countAnswer (userAnswers : object) (quiz : list value)
    (index score score' : nat) :
  forEach_state (countAnswer userAnswers) quiz index score = Return score' ->
  score' <= score + length quiz.
Proof.
  revert index score. induction quiz as [|x quiz IH]; intros index score;
    cbn [forEach_state length].
  - intros [= <-]. lia.
  - destruct (countAnswer userAnswers score x index) as [s|] eqn:Hs;
      [|discriminate].
    cbn [mbind result_bind]. intros H. apply IH in H.
    apply countAnswer_step in Hs. lia.
Qed.

Section Stored.
Context {L : Libraries}.

(** The transaction of a submission handler when nothing fails: the quiz
    exists and the INSERT goes through. *)
Lemma checkedInsert_stores {A : Type} (quizId : Z) (sql : string)
    (insert : Z -> Db -> result (A * Db)) (respond : A -> Response)
    (w : World) (row : A) (d' : Db) :
  tx w = None -> healthy 5 w ->
  references_quiz quizId (db w) = true ->
  insert (now w) (db w) = Return (row, d') ->
  exists w',
    (_ ← connect;
     finally_release
       (tryCatch (checkedInsert quizId sql insert respond)
          rollback_and_respond)) w
    = (Return (respond row), w')
    /\ db w' = d' /\ tx w' = None.
Proof.
  intros Htx Hhealthy Href Hins.
  destruct (connect_healthy 4 w Hhealthy)
    as (wc & Hc & Hdbc & Htxc & Hhc & Hnowc).
  run_monad. rewrite Hc. unfold checkedInsert. run_monad.
  destruct (statement_healthy "SELECT id FROM quizzes WHERE id = $1"
              (SELECT_quiz_id quizId) 3 wc Hhc)
    as (w1 & H1 & Hdb1 & Htx1 & Hh1 & Hnow1); [congruence|].
  rewrite H1. unfold SELECT_quiz_id in *. rewrite Hdbc in *.
  unfold references_quiz in Href.
  apply existsb_exists in Href as (q & Hq & Hid).
  assert (Hin : In q (List.filter (fun q => (q_id q =? quizId)%Z)
                        (quizzes (db w))))
    by (apply filter_In; by split).
  destruct (List.filter (fun q => (q_id q =? quizId)%Z) (quizzes (db w)))
    as [|found rest]; [done|].
  cbn [map length Nat.eqb] in *. clear Hin.
  destruct (control_healthy "BEGIN" (fun w => (db w, Some (current w)))
              2 w1 Hh1) as (w2 & H2 & Hdb2 & Htx2 & Hh2 & Hnow2).
  unfold BEGIN. rewrite H2. cbn [fst snd] in Hdb2, Htx2.
  assert (Hcur : current w1 = db w).
  { unfold current. rewrite Htx1. simpl. congruence. }
  rewrite Hcur in Htx2.
  assert (Hnow : now w2 = now w) by congruence.
  rewrite Hnow.
  destruct (statement_healthy_tx sql (insert (now w)) 1 w2 (db w) d' row
              Hh2 Htx2 Hins) as (w3 & H3 & Hdb3 & Htx3 & Hh3 & Hnow3).
  rewrite H3.
  destruct (control_healthy "COMMIT" (fun w => (current w, None)) 0 w3 Hh3)
    as (w4 & H4 & Hdb4 & Htx4 & _).
  unfold COMMIT. rewrite H4. eexists. split; [reflexivity|].
  cbn [db tx fst snd] in *. split; [|exact Htx4].
  rewrite Hdb4. unfold current. by rewrite Htx3.
Qed.

Lemma validateItems_fixpoint (items : rule) (path : jsstring)
    (l : list value) (index : nat) :
  (forall k v p, l !! k = Some v -> items p v = ([], v)) ->
  validateItems items path l index = ([], l).
Proof.
  revert index. induction l as [|x l IH]; intros index H; [reflexivity|].
  cbn [validateItems]. rewrite (H 0 x _ eq_refl), IH; [reflexivity|].
  intros k v p Hk. exact (H (S k) v p Hk).
Qed.

(** The schema of an element of userAnswers on what submitQuiz posts for
    an answered question. *)
Lemma answer_accepted (path : jsstring) (k : nat) (n : Z) (b : bool) :
  (Z.of_nat k <= MAX_SAFE_INTEGER)%Z -> (Z.abs n <= MAX_SAFE_INTEGER)%Z ->
  let answer :=
    submittedAnswer k
      (VObj (literal [("userAnswer" : jsstring, Some (VNum n));
                      ("isCorrect" : jsstring, Some (VBool b))])) in
  Joi_object
    [("questionIndex" : jsstring, required (Joi_number None));
     ("answer" : jsstring,
      required (Joi_alternatives
                  [Joi_string false None; Joi_number None;
                   Joi_boolean; Joi_valid [VNull]]));
     ("correct" : jsstring, required Joi_boolean)]
    false path answer
  = ([], answer).
Proof.
  intros Hk Hn. unfold submittedAnswer, Joi_object.
  cbn [literal arrow get]. keys. cbn [literal validateKeys get]. keys.
  cbn [required Joi_number Joi_alternatives Joi_string Joi_boolean].
  unfold checkInteger.
  rewrite (proj2 (Z.ltb_ge MAX_SAFE_INTEGER (Z.abs (Z.of_nat k)))) by lia.
  rewrite (proj2 (Z.ltb_ge MAX_SAFE_INTEGER (Z.abs n))) by lia.
  cbn [map fst List.filter existsb]. keys. reflexivity.
Qed.

(** X18. A quiz submitted with every question answered is recorded: when the
    quiz exists, POST /api/quiz-results accepts the body submitQuiz posts,
    answers 201 and stores one result for the caller, with the score
    calculateScore returned and the number of questions of the quiz. *)
Theorem answered_quiz_recorded
    (req : Request) (userId : jsstring) (w : World) (id : Z)
    (quiz : list value) (userAnswers o : object) :
  authenticated req userId -> tx w = None -> healthy 5 w ->
  submitQuiz_body (Some (VNum id)) quiz userAnswers = Return (Some o) ->
  body req = VObj o ->
  (Z.abs id <= MAX_SAFE_INTEGER)%Z ->
  (exists q, q ∈ quizzes (db w) /\ q_id q = id) ->
  1 <= length quiz -> (Z.of_nat (length quiz) <= MAX_SAFE_INTEGER)%Z ->
  (forall k, k < length quiz ->
     exists n, get (indexKey k) userAnswers = Some (VNum n)
               /\ (Z.abs n <= MAX_SAFE_INTEGER)%Z) ->
  (forall r, r ∈ quiz_results (db w) ->
     qr_id r <> (quiz_results_id_seq (db w) + 1)%Z) ->
  exists response w' row score,
    recordResult req w = (Return response, w')
    /\ status response = 201%Z
    /\ calculateScore quiz userAnswers = Return score
    /\ tables (db w')
       = (quizzes (db w), quiz_results (db w) ++ [row], quiz_history (db w))
    /\ qr_user_id row = userId
    /\ qr_quiz_id row = id
    /\ qr_score row = Z.of_nat score
    /\ qr_total_questions row = Z.of_nat (length quiz).
Proof.
  intros Hauth Htx Hhealthy Hsubmit Hbody Hid (q & Hq & Hqid) Hone Hmax
    Hanswered Hfresh.
  unfold submitQuiz_body in Hsubmit.
  destruct (truthy (Some (VNum id))) eqn:Htruthy; [|discriminate].
  cbn [negb] in Hsubmit.
  destruct (calculateScore quiz userAnswers) as [score|] eqn:Hs;
    [|discriminate].
  destruct (forEach _ quiz 0) as [formatted|] eqn:Hf; [|discriminate].
  cbn [mbind result_bind literal] in Hsubmit. injection Hsubmit as <-.
  apply forEach_Return in Hf as [Hlen Hf].
  assert (Hscore : (Z.of_nat score <= MAX_SAFE_INTEGER)%Z).
  { apply forEach_state_countAnswer in Hs. lia. }
  assert (Hitems : forall k v p,
            imap submittedAnswer formatted !! k = Some v ->
            Joi_object
              [("questionIndex" : jsstring, required (Joi_number None));
               ("answer" : jsstring,
                required (Joi_alternatives
                            [Joi_string false None; Joi_number None;
                             Joi_boolean; Joi_valid [VNull]]));
               ("correct" : jsstring, required Joi_boolean)]
              false p v
            = ([], v)).
  { intros k v p Hv. rewrite list_lookup_imap in Hv.
    destruct (formatted !! k) as [y|] eqn:Hy; [|discriminate].
    injection Hv as <-.
    assert (Hk : k < length quiz)
      by (rewrite <- Hlen; by eapply lookup_lt_Some).
    destruct (lookup_lt_is_Some_2 quiz k Hk) as [x Hx].
    destruct (Hf k x Hx) as (y' & Hy' & Hfy). rewrite Hy in Hy'.
    injection Hy' as <-. change (0 + k) with k in Hfy.
    destruct (Hanswered k Hk) as (n & Hn & Hbound).
    unfold formatUserAnswer in Hfy. rewrite Hn in Hfy.
    destruct (props x "correctAnswer") as [qo|]; [|discriminate].
    cbn [mbind result_bind] in Hfy. injection Hfy as <-.
    apply answer_accepted; lia. }
  assert (Hvalid :
    validate (quizResultSchema false)
      (VObj [("quizId" : jsstring, VNum id);
             ("score" : jsstring, VNum (Z.of_nat score));
             ("totalQuestions" : jsstring, VNum (Z.of_nat (length quiz)));
             ("userAnswers" : jsstring,
              VArr (imap submittedAnswer formatted));
             ("timeTaken" : jsstring, VNum 0)])
    = ([], Some
         (VObj [("quizId" : jsstring, VNum id);
                ("score" : jsstring, VNum (Z.of_nat score));
                ("totalQuestions" : jsstring,
                 VNum (Z.of_nat (length quiz)));
                ("userAnswers" : jsstring,
                 VArr (imap submittedAnswer formatted));
                ("timeTaken" : jsstring, VNum 0)]))).
  { unfold validate, quizResultSchema, optional, Joi_object.
    cbn [validateKeys get isEmpty]. keys.
    cbn [required Joi_number Joi_array]. unfold checkInteger.
    rewrite (validateItems_fixpoint _ _ _ 0 Hitems).
    rewrite (proj2 (Z.ltb_ge MAX_SAFE_INTEGER (Z.abs id))) by lia.
    rewrite (proj2 (Z.ltb_ge MAX_SAFE_INTEGER (Z.abs (Z.of_nat score))))
      by lia.
    rewrite (proj2 (Z.ltb_ge MAX_SAFE_INTEGER
                      (Z.abs (Z.of_nat (length quiz))))) by lia.
    rewrite (proj2 (Z.ltb_ge (Z.of_nat score) 0)) by lia.
    rewrite (proj2 (Z.ltb_ge (Z.of_nat (length quiz)) 1)) by lia.
    cbn [map fst List.filter existsb Z.abs Z.ltb Z.compare length Nat.ltb
         Nat.leb app literal]. keys. reflexivity. }
  unfold recordResult. rewrite (simpleAuth_authenticated _ _ _ Hauth).
  unfold recordResult_try. rewrite Hbody, Hvalid.
  cbn [asObject get]. keys. cbn [asNumber default].
  assert (Href : references_quiz id (db w) = true).
  { apply existsb_exists. exists q.
    split; [by apply list_elem_of_In|by apply Z.eqb_eq]. }
  assert (Hnew : existsb
                   (fun qr => (qr_id qr =? quiz_results_id_seq (db w) + 1)%Z)
                   (quiz_results (db w)) = false).
  { apply not_true_iff_false. intros Hex.
    apply existsb_exists in Hex as (r & Hr & Hrid).
    apply Z.eqb_eq in Hrid. by apply (Hfresh r); [apply list_elem_of_In|]. }
  match goal with
  | |- context [statement "INSERT INTO quiz_results"
                  (INSERT_result _ userId id ?s ?t ?a ?z)] =>
      destruct (INSERT_result (now w) userId id s t a z (db w))
        as [[row d']|] eqn:Hins;
        [|unfold INSERT_result in Hins; rewrite Hnew, Href in Hins;
          discriminate];
      destruct (checkedInsert_stores id "INSERT INTO quiz_results"
                  (fun time => INSERT_result time userId id s t a z)
                  (fun result =>
                     {| status := 201;
                        json := VObj
                          [field "status" (VStr "success");
                           field "message"
                             (VStr "Quiz result saved successfully");
                           field "result" (result_json result)] |})
                  w row d' Htx Hhealthy Href Hins) as (w' & H & Hdb & _)
  end.
  unfold INSERT_result in Hins. rewrite Hnew, Href in Hins.
  cbn [negb] in Hins. injection Hins as <- <-.
  do 2 eexists. eexists _, score. split; [exact H|].
  split; [reflexivity|]. split; [reflexivity|].
  unfold tables. rewrite Hdb. by repeat split.
Qed.
End Stored.

(** ** The history entry of a generated quiz *)



Section History.
Context {L : Libraries}.

End History.

(** ** cleanResponseText *)

Lemma startsWith_other (c p : N) (s pre : jsstring) :
  p <> c -> startsWith (c :: s) (p :: pre) = false.
Proof. intros H. simpl. by rewrite (proj2 (N.eqb_neq p c) H). Qed.

(** Behind a line feed, a fence needs a backtick. *)
Lemma startsWith_fence (c : N) (s : jsstring) :
  match s with x :: _ => x <> backtick | [] => True end ->
  startsWith (c :: s) (10%N :: str "```") = false.
Proof.
  intros H. change (str "```") with [backtick; backtick; backtick].
  cbn [startsWith]. destruct (10 =? c)%N; [|reflexivity].
  destruct s as [|x s]; [reflexivity|]. cbn [startsWith andb].
  by rewrite (proj2 (N.eqb_neq backtick x)).
Qed.

(** Text without a backtick is copied, up to the next code unit. *)
Lemma removeFences_copy (body rest : jsstring) :
  noBacktick body = true ->
  match rest with x :: _ => x <> backtick | [] => True end ->
  removeFences 0 (body ++ rest) = body ++ removeFences 0 rest.
Proof.
  intros Hbody Hrest. induction body as [|c body IH]; [reflexivity|].
  cbn [noBacktick forallb] in Hbody. apply andb_prop in Hbody as [Hc Hbody].
  apply negb_true_iff, N.eqb_neq in Hc.
  change ((c :: body) ++ rest) with (c :: (body ++ rest)).
  cbn [removeFences].
  change (str "```json") with (backtick :: str "``json").
  change (str "```") with (backtick :: str "``").
  rewrite !(startsWith_other c backtick) by congruence.
  change (backtick :: str "``") with (str "```").
  rewrite startsWith_fence; [by rewrite (IH Hbody)|].
  destruct body as [|x body]; [exact Hrest|].
  cbn [noBacktick forallb] in Hbody. apply andb_prop in Hbody as [Hx _].
  by apply negb_true_iff, N.eqb_neq in Hx.
Qed.

Lemma trim_line_feed (s : jsstring) : trim (10%N :: s) = trim s.
Proof. reflexivity. Qed.

Lemma removeFences_0 (c : N) (rest : jsstring) :
  removeFences 0 (c :: rest)
  = if startsWith (c :: rest) "```json"
    then removeFences
           (if startsWith (drop 7 (c :: rest)) [10%N] then 7 else 6) rest
    else if startsWith (c :: rest) (10%N :: str "```")
    then removeFences 3 rest
    else if startsWith (c :: rest) "```" then removeFences 2 rest
    else c :: removeFences 0 rest.
Proof. reflexivity. Qed.

(** The opening fence with its line feed is one match. *)
Lemma removeFences_json (rest : jsstring) :
  removeFences 0 ("```json" ++ [10%N] ++ rest) = removeFences 0 rest.
Proof.
  change (str "```json" ++ [10%N] ++ rest)
    with (backtick :: str "``json" ++ 10%N :: rest).
  rewrite removeFences_0.
  change (startsWith (backtick :: str "``json" ++ 10%N :: rest) "```json")
    with true.
  change (startsWith (drop 7 (backtick :: str "``json" ++ 10%N :: rest))
            [10%N])
    with (startsWith rest []).
  by rewrite startsWith_nil.
Qed.

(** A fence without the word json: the line feed behind it stays. *)
Lemma removeFences_plain (rest : jsstring) :
  removeFences 0 ("```" ++ [10%N] ++ rest) = removeFences 0 (10%N :: rest).
Proof.
  change (str "```" ++ [10%N] ++ rest)
    with (backtick :: str "``" ++ 10%N :: rest).
  rewrite removeFences_0.
  change (startsWith (backtick :: str "``" ++ 10%N :: rest) "```json")
    with false.
  change (startsWith (backtick :: str "``" ++ 10%N :: rest)
            (10%N :: str "```"))
    with false.
  change (startsWith (backtick :: str "``" ++ 10%N :: rest) "```")
    with true.
  reflexivity.
Qed.

(** X20. cleanResponseText takes the fences away: an answer whose text has no
    backtick comes back trimmed when it is wrapped between a json fence or a
    plain fence and a closing fence, each on a line of its own, and also when
    it is not wrapped at all. *)
Theorem cleanResponseText_unwraps (body : jsstring) :
  noBacktick body = true ->
  cleanResponseText ("```json" ++ [10%N] ++ body ++ [10%N] ++ "```")
  = trim body
  /\ cleanResponseText ("```" ++ [10%N] ++ body ++ [10%N] ++ "```")
     = trim body
  /\ cleanResponseText body = trim body.
Proof.
  intros Hbody. unfold cleanResponseText.
  assert (Hhead : match body ++ [10%N] ++ str "```" with
                  | x :: _ => x <> backtick
                  | [] => True
                  end).
  { destruct body as [|x body]; [by cbn|].
    cbn [noBacktick forallb] in Hbody. apply andb_prop in Hbody as [Hx _].
    by apply negb_true_iff, N.eqb_neq in Hx. }
  assert (Htail : removeFences 0 (body ++ [10%N] ++ "```") = body).
  { rewrite removeFences_copy; [|exact Hbody|by cbn].
    change (removeFences 0 ([10%N] ++ str "```")) with (@nil N).
    by rewrite app_nil_r. }
  split; [|split].
  - by rewrite removeFences_json, Htail.
  - rewrite removeFences_plain.
    change (10%N :: body ++ [10%N] ++ str "```")
      with ([10%N] ++ (body ++ [10%N] ++ str "```")).
    rewrite (removeFences_copy [10%N]); [|reflexivity|exact Hhead].
    rewrite Htail. apply trim_line_feed.
  - rewrite <- (app_nil_r body) at 1.
    rewrite removeFences_copy; [|exact Hbody|done].
    by rewrite app_nil_r.
Qed.

(** ** handleAnswerSelect *)

Lemma indexKey_inj (i j : nat) : indexKey i = indexKey j -> i = j.
Proof.
  unfold indexKey. intros H.
  assert (Hp : parseInt (Some (VStr (NumberToString (Z.of_nat i)))) None
               = parseInt (Some (VStr (NumberToString (Z.of_nat j)))) None)
    by (by rewrite H).
  rewrite !parseInt_NumberToString in Hp by (by left).
  injection Hp as Hp. lia.
Qed.

(** X21. Selecting an answer records it for the question and for no other: the
    answer read back for the question is the number parseInt finds in the
    selected value, the answers of the other questions are as before; a value
    in which parseInt finds no number changes nothing. *)
Theorem handleAnswerSelect_lookup
    (questionIndex index : nat) (answer : option value)
    (userAnswers : object) :
  get (indexKey index) (handleAnswerSelect questionIndex answer userAnswers)
  = match parseInt answer (Some 10%Z) with
    | Some numericAnswer =>
        if questionIndex =? index then Some (VNum numericAnswer)
        else get (indexKey index) userAnswers
    | None => get (indexKey index) userAnswers
    end.
Proof.
  unfold handleAnswerSelect.
  destruct (parseInt answer (Some 10%Z)) as [n|]; [|reflexivity].
  rewrite get_set. destruct (questionIndex =? index) eqn:Hi.
  - apply Nat.eqb_eq in Hi as ->. by rewrite eqs_refl.
  - apply Nat.eqb_neq in Hi.
    destruct (eqs (indexKey questionIndex) (indexKey index)) eqn:He;
      [|reflexivity].
    apply eqs_true, indexKey_inj in He. done.
Qed.

(** ** exportQuiz *)

Lemma replaceWhiteSpace_no_space (inRun : bool) (s : jsstring) :
  forallb (fun c => negb (isWhiteSpace c)) (replaceWhiteSpace inRun s) = true.
Proof.
  revert inRun. induction s as [|c s IH]; intros inRun; [reflexivity|].
  cbn [replaceWhiteSpace]. destruct (isWhiteSpace c) eqn:Hc.
  - destruct inRun; [apply IH|]. cbn [forallb]. by rewrite IH.
  - cbn [forallb]. by rewrite Hc, IH.
Qed.

Lemma replaceWhiteSpace_same (inRun : bool) (s : jsstring) :
  forallb (fun c => negb (isWhiteSpace c)) s = true ->
  replaceWhiteSpace inRun s = s.
Proof.
  revert inRun. induction s as [|c s IH]; intros inRun H; [reflexivity|].
  cbn [forallb] in H. apply andb_prop in H as [Hc H].
  apply negb_true_iff in Hc. cbn [replaceWhiteSpace]. rewrite Hc.
  by rewrite IH.
Qed.

(** X22. The name of the exported file holds no white space, whatever the
    topic; a topic without white space is kept as it is, between quiz_ and the
    extension. *)
Theorem exportFileName_no_space (topic : jsstring) :
  forallb (fun c => negb (isWhiteSpace c)) (exportFileName topic) = true
  /\ (forallb (fun c => negb (isWhiteSpace c)) topic = true ->
      exportFileName topic = "quiz_" ++ topic ++ ".json").
Proof.
  unfold exportFileName. split.
  - rewrite !forallb_app, replaceWhiteSpace_no_space. reflexivity.
  - intros H. by rewrite replaceWhiteSpace_same.
Qed.

(** * Instances of the further properties *)

(** ** Sample data: results and history *)

Definition resultOf (user : string) (id quiz score : Z) : ResultRow :=
  {| qr_id := id; qr_user_id := user; qr_quiz_id := quiz;
     qr_score := score; qr_total_questions := 1;
     qr_user_answers := VArr []; qr_completed_at := 1650000000 + id;
     qr_time_taken := 0 |}.

(** Two quizzes of alice; alice took the first twice and the second once,
    bob took the first once. *)
Definition gradedStore : Db :=
  {| quizzes := [aliceQuiz 1; aliceQuiz 2];
     quiz_results := [resultOf "alice" 1 1 0; resultOf "bob" 2 1 1;
                      resultOf "alice" 3 1 1; resultOf "alice" 4 2 1];
     quiz_history := [];
     quizzes_id_seq := 2; quiz_results_id_seq := 4;
     quiz_history_id_seq := 0 |}.

(** The same store for alice, with other rows of bob. *)
Definition gradedStore' : Db :=
  {| quizzes := [aliceQuiz 1;
                 {| q_id := 3; q_user_id := "bob"; q_title := "Capitals";
                    q_topic := None; q_num_questions := 1;
                    q_difficulty := "Hard"; q_question_type := "MCQ";
                    q_language := "french";
                    q_questions := VArr [sampleQuestion ""];
                    q_created_at := 1600000009 |};
                 aliceQuiz 2];
     quiz_results := [resultOf "alice" 1 1 0; resultOf "alice" 3 1 1;
                      resultOf "bob" 5 2 0; resultOf "bob" 6 3 1;
                      resultOf "alice" 4 2 1];
     quiz_history := [];
     quizzes_id_seq := 3; quiz_results_id_seq := 6;
     quiz_history_id_seq := 0 |}.

Definition sampleHistory (quizId : Z) : value :=
  VObj [field "quizId" (VNum quizId);
        field "promptUsed" (VStr "Generate a quiz about sums");
        field "generationParameters"
          (VObj [field "topic" (VStr "Sums");
                 field "difficulty" (VStr "Easy");
                 field "numQuestions" (VNum 1);
                 field "questionType" (VStr "MCQ");
                 field "language" (VStr "english")])].

#[local] Existing Instance plain.

(** Witness of X1: a request without a user id is refused by every route. *)
Lemma identity_required_witness :
  Forall
    (fun route : Request -> M Response =>
       route (request "" "1" None None VNull) (world (aliceStore 1))
       = (Return {| status := 401;
                    json := VObj [field "status" (VStr "error");
                                  field "message"
                                    (VStr "Authentication required")] |},
          world (aliceStore 1)))
    [createQuiz; listQuizzes; takeQuiz; recordResult; recordHistory;
     statistics; getQuizDetail].
Proof.
  apply identity_required. intros userId (Hid & Hne & _).
  injection Hid as <-. by apply Hne.
Defined.

(** Witness of X3: alice creates a quiz on the empty store. *)
Lemma createQuiz_stores_witness :
  exists row,
    tables (db (snd (createQuiz
                       (request "alice" "" None None
                          (sampleQuiz 1 [sampleQuestion "2+2=4"]))
                       (world emptyDb))))
    = ([row], [], [])
    /\ q_user_id row = "alice"
    /\ q_title row = "Sums Quiz"
    /\ q_num_questions row = 1%Z.
Proof.
  destruct (createQuiz
              (request "alice" "" None None
                 (sampleQuiz 1 [sampleQuestion "2+2=4"]))
              (world emptyDb)) as [r w1] eqn:Hc.
  assert (Hr : exists response, r = Return response
                                /\ status response = 201%Z).
  { apply (f_equal fst) in Hc. cbn [fst] in Hc. rewrite <- Hc.
    vm_compute. eexists. split; reflexivity. }
  destruct Hr as (response & -> & Hs).
  destruct (createQuiz_stores
              (request "alice" "" None None
                 (sampleQuiz 1 [sampleQuestion "2+2=4"]))
              (str "alice") (world emptyDb) w1 response
              (authenticated_request "alice" "" None None _
                 ltac:(vm_compute; discriminate))
              eq_refl Hc Hs)
    as (o & title & qs & qs' & row & Hbody & Htitle & Hqs & Htables & Hu
        & Ht & Hn & _).
  injection Hbody as <-. injection Htitle as <-. injection Hqs as <-.
  exists row. cbn [snd]. split; [exact Htables|]. split; [exact Hu|].
  split; [exact Ht|exact Hn].
Defined.

(** Witness of X4: alice posts a result for her quiz: every route that writes
    adds at most one row, and it is hers. *)
Lemma writes_add_own_rows_witness :
  Forall
    (fun route : Request -> M Response =>
       exists qs rs hs,
         tables (db (snd (route (request "alice" "" None None
                                   (sampleResult 1))
                            (world (aliceStore 1)))))
         = (quizzes (aliceStore 1) ++ qs, quiz_results (aliceStore 1) ++ rs,
            quiz_history (aliceStore 1) ++ hs)
         /\ Forall (fun q => q_user_id q = "alice") qs
         /\ Forall (fun qr => qr_user_id qr = "alice") rs
         /\ Forall (fun qh => qh_user_id qh = "alice") hs
         /\ length qs + length rs + length hs <= 1)
    [createQuiz; recordResult; recordHistory].
Proof.
  apply (writes_add_own_rows
           (request "alice" "" None None (sampleResult 1)) (str "alice")
           (world (aliceStore 1))).
  - apply authenticated_request. vm_compute. discriminate.
  - reflexivity.
Defined.

(** Witness of X5: the rows of bob do not change what alice reads. *)
Lemma reads_are_isolated_witness :
  visible_to "alice" gradedStore = visible_to "alice" gradedStore'
  /\ fst (listQuizzes (request "alice" "1" None None VNull)
            (world gradedStore))
     = fst (listQuizzes (request "alice" "1" None None VNull)
              (world gradedStore'))
  /\ fst (getQuizDetail (request "alice" "1" None None VNull)
            (world gradedStore))
     = fst (getQuizDetail (request "alice" "1" None None VNull)
              (world gradedStore'))
  /\ alike
       (fun response1 response2 =>
          status response1 = status response2
          /\ Forall
               (fun path =>
                  at_path path (json response1)
                  = at_path path (json response2))
               countPaths
          /\ monthlyAttempts (json response1)
             = monthlyAttempts (json response2))
       (fst (statistics (request "alice" "1" None None VNull)
               (world gradedStore)))
       (fst (statistics (request "alice" "1" None None VNull)
               (world gradedStore'))).
Proof.
  assert (H : visible_to "alice" gradedStore
              = visible_to "alice" gradedStore') by reflexivity.
  split; [exact H|].
  destruct (reads_are_isolated (request "alice" "1" None None VNull)
              (str "alice") (world gradedStore) (world gradedStore')
              (authenticated_request "alice" "1" None None VNull
                 ltac:(vm_compute; discriminate))
              eq_refl eq_refl eq_refl H)
    as (Hlisting & Hdetails & Hstatistics).
  split; [apply Hlisting; by apply (bool_decide_unpack (NoDup _))|].
  split; [apply Hdetails; by apply (bool_decide_unpack (NoDup _))|].
  exact Hstatistics.
Defined.

(** Witness of X6: alice asks to take the quiz 7, which does not exist. *)
Lemma takeQuiz_unknown_key_witness :
  exists w',
    takeQuiz (request "alice" "7" None None VNull) (world (aliceStore 1))
    = (Return {| status := 500;
                 json := VObj [field "status" (VStr "error");
                               field "message"
                                 (VStr "NotFoundError is not defined")] |},
       w')
    /\ db w' = aliceStore 1.
Proof.
  apply (takeQuiz_unknown_key (request "alice" "7" None None VNull)
           (str "alice") (world (aliceStore 1)) 7).
  - apply authenticated_request. vm_compute. discriminate.
  - reflexivity.
  - apply healthy_world.
  - reflexivity.
  - intros q Hq. apply list_elem_of_In in Hq.
    destruct Hq as [<-|[]]. discriminate.
Defined.


(** Witness of X8: the statistics of alice on the sample store: three attempts
    on two quizzes. *)
Lemma statistics_counts_witness :
  let rows := results_of "alice" gradedStore in
  (length rows, length (remove_dups (map qr_quiz_id rows)),
   default 0%Z (MAX (map qr_score rows))) = (3, 2, 1%Z)
  /\ exists response w' months,
       statistics (request "alice" "" None None VNull) (world gradedStore)
       = (Return response, w')
       /\ status response = 200%Z
       /\ at_path ["statistics"; "overall"; "total_attempts"]
            (json response)
          = Some (VNum (Z.of_nat (length rows)))
       /\ at_path ["statistics"; "overall"; "total_quizzes_taken"]
            (json response)
          = Some (VNum (Z.of_nat
                          (length (remove_dups (map qr_quiz_id rows)))))
       /\ length (remove_dups (map qr_quiz_id rows)) <= length rows
       /\ at_path ["statistics"; "overall"; "highest_score"]
            (json response)
          = Some (VNum (default 0%Z (MAX (map qr_score rows))))
       /\ at_path ["statistics"; "monthly_progress"] (json response)
          = Some (VArr months)
       /\ length months <= 12.
Proof.
  split; [reflexivity|].
  apply (statistics_counts (request "alice" "" None None VNull)
           (str "alice") (world gradedStore)).
  - apply authenticated_request. vm_compute. discriminate.
  - reflexivity.
  - apply healthy_world.
Defined.

(** Witness of X9: bob posts a result and a history entry for the quiz 7,
    which does not exist, and a result for the quiz 2147483648, which is
    no INTEGER. *)
Lemma unknown_quiz_rejected_witness :
  (exists w',
     recordResult (request "bob" "" None None (sampleResult 7))
       (world (aliceStore 1))
     = (Return (validationResponse (ValidationError "Invalid quiz ID")), w')
     /\ db w' = aliceStore 1 /\ tx w' = None)
  /\ (exists w',
        recordHistory (request "bob" "" None None (sampleHistory 7))
          (world (aliceStore 1))
        = (Return (validationResponse (ValidationError "Invalid quiz ID")),
           w')
        /\ db w' = aliceStore 1 /\ tx w' = None)
  /\ (exists w',
        recordResult (request "bob" "" None None (sampleResult 2147483648))
          (world (aliceStore 1))
        = (Return
             {| status := 500;
                json := VObj
                  [field "status" (VStr "error");
                   field "message"
                     (VStr ("value " ++ [34%N] ++ "2147483648" ++ [34%N]
                            ++ " is out of range for type integer"))] |},
           w')
        /\ db w' = aliceStore 1 /\ tx w' = None).
Proof.
  split; [|split].
  - apply (unknown_quiz_rejected
             (request "bob" "" None None (sampleResult 7)) (str "bob")
             (world (aliceStore 1)) _ 7
             (authenticated_request "bob" "" None None _
                ltac:(vm_compute; discriminate))
             eq_refl (healthy_world 3 _) eq_refl eq_refl).
    + intros q Hq. apply list_elem_of_In in Hq.
      destruct Hq as [<-|[]]. discriminate.
    + reflexivity.
  - apply (unknown_quiz_rejected
             (request "bob" "" None None (sampleHistory 7)) (str "bob")
             (world (aliceStore 1)) _ 7
             (authenticated_request "bob" "" None None _
                ltac:(vm_compute; discriminate))
             eq_refl (healthy_world 3 _) eq_refl eq_refl).
    + intros q Hq. apply list_elem_of_In in Hq.
      destruct Hq as [<-|[]]. discriminate.
    + reflexivity.
  - apply (unknown_quiz_rejected
             (request "bob" "" None None (sampleResult 2147483648))
             (str "bob") (world (aliceStore 1)) _ 2147483648
             (authenticated_request "bob" "" None None _
                ltac:(vm_compute; discriminate))
             eq_refl (healthy_world 3 _) eq_refl eq_refl).
    + intros q Hq. apply list_elem_of_In in Hq.
      destruct Hq as [<-|[]]. discriminate.
    + reflexivity.
Defined.

(** A result that names its owner in the body. *)
Definition forgedResult : object :=
  [field "quizId" (VNum 1);
   field "score" (VNum 1);
   field "totalQuestions" (VNum 1);
   field "userAnswers" (VArr []);
   field "timeTaken" (VNum 0);
   field "userId" (VStr "alice")].

(** Witness of X10: bob posts it as a result and as a history entry. *)
Lemma unknown_property_rejected_witness :
  (exists response w',
     recordResult (request "bob" "" None None (VObj forgedResult))
       (world (aliceStore 1))
     = (Return response, w')
     /\ status response = 400%Z
     /\ arrow (json response) "type" = Some (VStr "validation")
     /\ db w' = aliceStore 1)
  /\ (exists response w',
        recordHistory (request "bob" "" None None (VObj forgedResult))
          (world (aliceStore 1))
        = (Return response, w')
        /\ status response = 400%Z
        /\ arrow (json response) "type" = Some (VStr "validation")
        /\ db w' = aliceStore 1).
Proof.
  assert (Hk : (str "userId") ∈ map fst forgedResult).
  { apply list_elem_of_In. do 5 right. by left. }
  destruct (unknown_property_rejected
              (request "bob" "" None None (VObj forgedResult)) (str "bob")
              (world (aliceStore 1)) forgedResult "userId"
              (authenticated_request "bob" "" None None _
                 ltac:(vm_compute; discriminate))
              (healthy_world 2 _) eq_refl Hk) as [Hr Hh].
  split; [apply Hr|apply Hh]; intros Hin; apply list_elem_of_In in Hin;
    repeat (destruct Hin as [Hin|Hin]; [discriminate|]); exact Hin.
Defined.

(** Witness of X11: alice records a third result for her first quiz, and reads
    its details. *)
Lemma recorded_result_in_details_witness :
  exists response' w3 history,
    getQuizDetail (request "alice" "1" None None VNull)
      (world (db (snd (recordResult
                         (request "alice" "" None None (sampleResult 1))
                         (world gradedStore)))))
    = (Return response', w3)
    /\ status response' = 200%Z
    /\ at_path ["quiz"; "attempts_count"] (json response')
       = Some (VNum 3)
    /\ at_path ["quiz"; "highest_score"] (json response')
       = Some (VNum 1)
    /\ at_path ["quiz"; "attempt_history"] (json response')
       = Some (VArr history)
    /\ length history = 3.
Proof.
  destruct (recordResult (request "alice" "" None None (sampleResult 1))
              (world gradedStore)) as [r w1] eqn:Hr.
  assert (Hres : exists response,
            r = Return response /\ status response = 201%Z
            /\ at_path ["result"; "quiz_id"] (json response)
               = Some (VNum 1)
            /\ at_path ["result"; "score"] (json response)
               = Some (VNum 1)).
  { apply (f_equal fst) in Hr. cbn [fst] in Hr. rewrite <- Hr.
    vm_compute. eexists. repeat split; reflexivity. }
  destruct Hres as (response & -> & Hs & Hid & Hscore).
  cbn [snd].
  exact (recorded_result_in_details
           (request "alice" "" None None (sampleResult 1))
           (request "alice" "1" None None VNull) (str "alice")
           (world gradedStore) w1 (world (db w1)) response 1 1
           (aliceQuiz 1) [sampleQuestion "2+2=4"]
           (authenticated_request "alice" "" None None _
              ltac:(vm_compute; discriminate))
           eq_refl Hr Hs Hid Hscore eq_refl eq_refl eq_refl
           ltac:(repeat constructor; discriminate)
           (authenticated_request "alice" "1" None None _
              ltac:(vm_compute; discriminate))
           eq_refl eq_refl eq_refl (healthy_world 2 _)).
Defined.

(** ** Sample data: an answer of the model and a quiz being taken *)

Definition franceAnswer : value := VArr [VObj capitalOfFrance].

Definition twoSums : list value :=
  [sampleQuestion "2+2=4"; sampleQuestion ""].

(** The second option for the first question, the first for the second. *)
Definition oneRight : object :=
  handleAnswerSelect 1 (Some (VStr "0"))
    (handleAnswerSelect 0 (Some (VStr "1")) []).

(** Only the first question is answered. *)
Definition oneOpen : object := handleAnswerSelect 0 (Some (VStr "1")) [].

(** Witness of X12: the example question of the prompt, normalized twice. *)
Lemma normalizer_idempotent_witness :
  exists out,
    validateAndParseQuizData 1 "Fill in the Blanks" franceAnswer
    = (Some out, [])
    /\ validateAndParseQuizData 1 "Fill in the Blanks" (VArr out)
       = (Some out, []).
Proof.
  destruct (validateAndParseQuizData 1 "Fill in the Blanks" franceAnswer)
    as [[out|] log] eqn:H; [|vm_compute in H; discriminate].
  assert (Hlog : log = [])
    by (apply (f_equal snd) in H; vm_compute in H; by rewrite <- H).
  subst log. exists out. split; [reflexivity|].
  exact (normalizer_idempotent 1 "Fill in the Blanks" franceAnswer out []
           (or_intror eq_refl) H).
Defined.

(** Witness of X13: a True/False answer of the model: the prompt gets its full
    stop. *)
Lemma normalized_batch_witness :
  exists out,
    validateAndParseQuizData 1 "True/False" flatEarthAnswer = (Some out, [])
    /\ Z.of_nat (length out) = 1%Z
    /\ Forall
         (fun y =>
            exists (q : object) (s e : jsstring),
              y = VObj q
              /\ get "question" q = Some (VStr s) /\ trim s <> []
              /\ get "explanation" q = Some (VStr e)
              /\ (str "True/False" = "True/False" ->
                  trim s = s
                  /\ (endsWith s "?" = true \/ endsWith s "." = true)))
         out.
Proof.
  destruct (validateAndParseQuizData 1 "True/False" flatEarthAnswer)
    as [[out|] log] eqn:H; [|vm_compute in H; discriminate].
  assert (Hlog : log = [])
    by (apply (f_equal snd) in H; vm_compute in H; by rewrite <- H).
  subst log. exists out. split; [reflexivity|].
  destruct (normalized_batch 1 "True/False" flatEarthAnswer out [] H)
    as (Hn & _ & Hall).
  split; [exact Hn|exact Hall].
Defined.

(** Witness of X14: the example question of the prompt, normalized and
    formatted. *)
Lemma save_keeps_choice_questions_witness :
  exists out formatted,
    validateAndParseQuizData 1 "Fill in the Blanks" franceAnswer
    = (Some out, [])
    /\ formatQuizQuestions (Some out) "Fill in the Blanks" = Return formatted
    /\ Forall2 sameQuestion out formatted.
Proof.
  destruct (validateAndParseQuizData 1 "Fill in the Blanks" franceAnswer)
    as [[out|] log] eqn:H; [|vm_compute in H; discriminate].
  assert (Hlog : log = [])
    by (apply (f_equal snd) in H; vm_compute in H; by rewrite <- H).
  subst log.
  destruct (save_keeps_choice_questions 1 "Fill in the Blanks" franceAnswer
              out [] (or_intror eq_refl) H) as (formatted & Hf & Hsame).
  by exists out, formatted.
Defined.


(** Witness of X16: two questions, one answered rightly: the score is 1 of 2.
    *)
Lemma submitted_score_witness :
  exists body answers,
    submitQuiz_body (Some (VNum 1)) twoSums oneRight = Return (Some body)
    /\ get "score" body = Some (VNum 1)
    /\ get "totalQuestions" body = Some (VNum 2)
    /\ get "userAnswers" body = Some (VArr answers)
    /\ length answers = 2
    /\ length (List.filter (fun a => truthy (arrow a "correct")) answers) = 1.
Proof.
  assert (Hb : exists body,
            submitQuiz_body (Some (VNum 1)) twoSums oneRight
            = Return (Some body)
            /\ get "score" body = Some (VNum 1)).
  { vm_compute. eexists. split; reflexivity. }
  destruct Hb as (body & H & H1).
  destruct (submitted_score (Some (VNum 1)) twoSums oneRight body)
    as (score & answers & Hs & Ht & Ha & Hl & Hc & _).
  - repeat constructor; do 2 eexists; (split; [reflexivity|]); reflexivity.
  - exact H.
  - rewrite H1 in Hs. injection Hs as Hs.
    exists body, answers. split; [exact H|]. split; [exact H1|].
    split; [exact Ht|]. split; [exact Ha|]. split; [exact Hl|].
    rewrite <- Hc. lia.
Defined.

(** Witness of X17: alice submits the two questions with the second left open.
    *)
Lemma open_question_rejected_witness :
  exists body response w',
    submitQuiz_body (Some (VNum 1)) twoSums oneOpen = Return (Some body)
    /\ recordResult (request "alice" "" None None (VObj body))
         (world (aliceStore 1))
       = (Return response, w')
    /\ status response = 400%Z
    /\ arrow (json response) "type" = Some (VStr "validation")
    /\ db w' = aliceStore 1.
Proof.
  destruct (submitQuiz_body (Some (VNum 1)) twoSums oneOpen)
    as [[body|]|] eqn:H; try (vm_compute in H; discriminate).
  destruct (open_question_rejected
              (request "alice" "" None None (VObj body)) (str "alice")
              (world (aliceStore 1)) (Some (VNum 1)) twoSums oneOpen body
              1 (sampleQuestion "")
              (authenticated_request "alice" "" None None _
                 ltac:(vm_compute; discriminate))
              (healthy_world 2 _) H eq_refl eq_refl eq_refl)
    as (response & w' & Hr & Hs & Ht & Hdb).
  by exists body, response, w'.
Defined.

(** Witness of X18: alice submits the two questions, both answered: the result
    is recorded with the score 1 of 2. *)
Lemma answered_quiz_recorded_witness :
  exists body response w' row,
    submitQuiz_body (Some (VNum 1)) twoSums oneRight = Return (Some body)
    /\ recordResult (request "alice" "" None None (VObj body))
         (world (aliceStore 1))
       = (Return response, w')
    /\ status response = 201%Z
    /\ tables (db w') = (quizzes (aliceStore 1), [row], [])
    /\ qr_user_id row = "alice"
    /\ qr_quiz_id row = 1%Z
    /\ qr_score row = 1%Z
    /\ qr_total_questions row = 2%Z.
Proof.
  destruct (submitQuiz_body (Some (VNum 1)) twoSums oneRight)
    as [[body|]|] eqn:H; try (vm_compute in H; discriminate).
  destruct (answered_quiz_recorded
              (request "alice" "" None None (VObj body)) (str "alice")
              (world (aliceStore 1)) 1 twoSums oneRight body
              (authenticated_request "alice" "" None None _
                 ltac:(vm_compute; discriminate))
              eq_refl (healthy_world 5 _) H eq_refl)
    as (response & w' & row & score & Hr & Hs & Hc & Ht & Hu & Hq & Hsc
        & Htq).
  - vm_compute. discriminate.
  - exists (aliceQuiz 1). split; [|reflexivity].
    apply list_elem_of_In. by left.
  - simpl. lia.
  - vm_compute. discriminate.
  - intros [|[|k]] Hk; [exists 1%Z|exists 0%Z|simpl in Hk; lia];
      (split; [reflexivity|vm_compute; discriminate]).
  - intros r Hin. apply list_elem_of_In in Hin. destruct Hin.
  - assert (H1 : score = 1) by (vm_compute in Hc; by injection Hc as <-).
    subst score. exists body, response, w', row. by repeat split.
Defined.


(** Witness of X20: a fenced answer of the model. *)
Lemma cleanResponseText_unwraps_witness :
  cleanResponseText ("```json" ++ [10%N] ++ "[1, 2] " ++ [10%N] ++ "```")
  = "[1, 2]"
  /\ cleanResponseText ("```" ++ [10%N] ++ "[1, 2] " ++ [10%N] ++ "```")
     = "[1, 2]"
  /\ cleanResponseText "[1, 2] " = "[1, 2]".
Proof.
  exact (cleanResponseText_unwraps "[1, 2] " eq_refl).
Defined.
